(** * ResearchBook: the expert merge and the two orchestrator operations

    A shallow embedding of [src/researchbook.py].  Python dictionaries are
    finite maps from field names to values; the expert records that
    [_merge_expert_results] updates in place live in an object store and are
    passed around by reference, as in the source.  Calls that can raise run
    in a small state-and-exception monad. *)

From Stdlib Require Import ZArith QArith String Ascii List.
From stdpp Require Import base option list strings gmap pretty.

Close Scope Q_scope.
Set Warnings "-register-all,-clear-no-such-hyp".
Open Scope string_scope.
Open Scope list_scope.

(** ** Python values *)

(** The values that occur in query rows, in JSON bodies and in the records
    built from them.  A float is modelled by the rational it denotes: the
    only float arithmetic of the program multiplies a count by [0.5] and adds
    such halves to a count, which binary64 does exactly for every magnitude
    below 2^52. *)
Inductive value : Type :=
| VNone
| VBool (b : bool)
| VInt (z : Z)
| VFloat (q : Q)
| VStr (s : string)
| VList (l : list value)
| VDict (d : gmap string value).

Abbreviation pydict := (gmap string value).

(** ** Exceptions and results *)

Inductive exn : Type :=
| KeyError (shown : string)
| IndexError (msg : string)
| TypeError (msg : string)
| SystemError (msg : string)
| ExternalError (msg : string).

(** [str(e)] as the f-string in [ai_query] renders it. *)
Definition exn_str (e : exn) : string :=
  match e with
  | KeyError s => s
  | IndexError m => m
  | TypeError m => m
  | SystemError m => m
  | ExternalError m => m
  end.

Inductive result (A : Type) : Type :=
| Ok (a : A)
| Raise (e : exn).
Arguments Ok {A} a.
Arguments Raise {A} e.

(** A computation over a state [S]: it returns or raises, and leaves a state
    behind in both cases. *)
Definition M (S A : Type) : Type := S -> result A * S.

Definition ret {S A} (a : A) : M S A := fun s => (Ok a, s).

Definition raise {S A} (e : exn) : M S A := fun s => (Raise e, s).

Definition bind {S A B} (m : M S A) (k : A -> M S B) : M S B :=
  fun s => match m s with
           | (Ok a, s') => k a s'
           | (Raise e, s') => (Raise e, s')
           end.

Notation "'let*' x ':=' m 'in' k" := (bind m (fun x => k))
  (at level 10, x name, m at level 100, k at level 200).

Definition lift_result {S A} (r : result A) : M S A := fun s => (r, s).

(** [for x in l: acc = body(acc, x)] *)
Fixpoint for_each {S A B} (l : list A) (body : B -> A -> M S B) (acc : B) : M S B :=
  match l with
  | [] => ret acc
  | x :: l' => let* acc' := body acc x in for_each l' body acc'
  end.

(** [[f(x) for x in l]], evaluated left to right. *)
Fixpoint map_m {S A B} (f : A -> M S B) (l : list A) : M S (list B) :=
  match l with
  | [] => ret []
  | x :: l' => let* y := f x in let* ys := map_m f l' in ret (y :: ys)
  end.

(** ** Numbers, hashing *)

(** [repr] of a string key as a [KeyError] shows it. *)
Definition repr_str (s : string) : string := "'" +:+ s +:+ "'".

(** The number a value denotes; [bool] is a subclass of [int]. *)
Definition number (v : value) : option Q :=
  match v with
  | VBool b => Some (inject_Z (Z.b2z b))
  | VInt z => Some (inject_Z z)
  | VFloat q => Some q
  | _ => None
  end.

Definition half : Q := (1 # 2)%Q.

(** [v * 0.5] *)
Definition mul_half (v : value) : result value :=
  match number v with
  | Some q => Ok (VFloat (q * half)%Q)
  | None => Raise (TypeError "unsupported operand type(s) for *")
  end.

(** [v += f] for a float [f] *)
Definition iadd_float (v : value) (f : Q) : result value :=
  match number v with
  | Some q => Ok (VFloat (q + f)%Q)
  | None => Raise (TypeError "unsupported operand type(s) for +=")
  end.

(** Dictionary keys.  Equal numbers hash alike whatever their type, so a
    numeric key is kept in lowest terms. *)
Inductive key : Type :=
| KNone
| KNum (q : Q)
| KStr (s : string).

Definition hash_key (v : value) : result key :=
  match v with
  | VNone => Ok KNone
  | VBool b => Ok (KNum (inject_Z (Z.b2z b)))
  | VInt z => Ok (KNum (inject_Z z))
  | VFloat q => Ok (KNum (Qred q))
  | VStr s => Ok (KStr s)
  | VList _ => Raise (TypeError "unhashable type: 'list'")
  | VDict _ => Raise (TypeError "unhashable type: 'dict'")
  end.

#[global] Instance Q_eq_dec : EqDecision Q.
Proof. solve_decision. Defined.

#[global] Instance key_eq_dec : EqDecision key.
Proof. solve_decision. Defined.

(** ** The object store *)

Abbreviation ref := nat.

(** Expert records are objects: a list cell holds a reference, and a write
    through one reference is seen through every other. *)
Abbreviation heap := (list pydict).

Definition invalid_reference : exn := SystemError "invalid reference".

(** [{...}] as a statement: a new object. *)
Definition alloc (d : pydict) : M heap ref :=
  fun h => (Ok (length h), h ++ [d]).

(** [obj[k]] *)
Definition getitem (r : ref) (k : string) : M heap value :=
  fun h => match h !! r with
           | Some d => match d !! k with
                       | Some v => (Ok v, h)
                       | None => (Raise (KeyError (repr_str k)), h)
                       end
           | None => (Raise invalid_reference, h)
           end.

(** [obj[k] = v] *)
Definition setitem (r : ref) (k : string) (v : value) : M heap unit :=
  fun h => match h !! r with
           | Some d => (Ok tt, <[r := <[k := v]> d]> h)
           | None => (Raise invalid_reference, h)
           end.

(** ** The local dictionary [merged]

    A Python [dict] keeps its keys in insertion order, and assigning to a key
    that is present keeps its place. *)
Abbreviation merged_dict := (list (key * ref)).

Fixpoint dict_get (m : merged_dict) (k : key) : option ref :=
  match m with
  | [] => None
  | (k', r) :: m' => if decide (k = k') then Some r else dict_get m' k
  end.

Fixpoint dict_set (m : merged_dict) (k : key) (r : ref) : merged_dict :=
  match m with
  | [] => [(k, r)]
  | (k', r') :: m' =>
      if decide (k = k') then (k', r) :: m' else (k', r') :: dict_set m' k r
  end.

Definition dict_values (m : merged_dict) : list ref := map snd m.

(** [key in m] *)
Definition dict_contains (m : merged_dict) (k : key) : bool :=
  match dict_get m k with Some _ => true | None => false end.

(** [m[key]] *)
Definition dict_getitem {S} (m : merged_dict) (k : key) : M S ref :=
  match dict_get m k with
  | Some r => ret r
  | None => raise (KeyError "key")
  end.

(** ** [sorted(..., key=..., reverse=True)]

    Python's sort is stable, and with [reverse=True] records of equal key
    keep their original order.  A stable sort has one possible output, so
    the insertion sort below returns what Timsort returns. *)
Definition Qltb (a b : Q) : bool :=
  (Qnum a * Z.pos (Qden b) <? Qnum b * Z.pos (Qden a))%Z.

Fixpoint insert_desc {A} (x : Q * A) (l : list (Q * A)) : list (Q * A) :=
  match l with
  | [] => [x]
  | y :: l' => if Qltb (fst x) (fst y) then y :: insert_desc x l' else x :: l
  end.

Definition sort_desc {A} (l : list (Q * A)) : list (Q * A) :=
  foldr insert_desc [] l.

(** The key function [lambda x: x["combined_score"]].  Scores are ordered as
    numbers; the model covers numeric scores, which is every score the two
    loops below leave on a record whose counts are numbers, and reports any
    other score as a [TypeError]. *)
Definition sort_key (r : ref) : M heap Q :=
  let* v := getitem r "combined_score" in
  match number v with
  | Some q => ret q
  | None => raise (TypeError "'<' not supported")
  end.

(** ** [_merge_expert_results] *)

(** Body of the first loop (lines 299-302). *)
Definition add_db1_expert (merged : merged_dict) (expert : ref)
  : M heap merged_dict :=
  let* name_v := getitem expert "name" in
  let* name := lift_result (hash_key name_v) in
  let merged := dict_set merged name expert in
  let* pubs := getitem expert "relevant_publications" in
  let* target := dict_getitem merged name in
  let* _ := setitem target "combined_score" pubs in
  ret merged.

(** Body of the second loop (lines 305-316). *)
Definition merge_db2_expert (merged : merged_dict) (expert : ref)
  : M heap merged_dict :=
  let* name_v := getitem expert "name" in
  let* name := lift_result (hash_key name_v) in
  if dict_contains merged name then
    let* roles := getitem expert "roles" in
    let* target := dict_getitem merged name in
    let* _ := setitem target "thesis_roles" roles in
    let* theses := getitem expert "relevant_theses" in
    let* target := dict_getitem merged name in
    let* _ := setitem target "relevant_theses" theses in
    let* samples := getitem expert "sample_theses" in
    let* target := dict_getitem merged name in
    let* _ := setitem target "sample_theses" samples in
    let* target := dict_getitem merged name in
    let* old := getitem target "combined_score" in
    let* theses := getitem expert "relevant_theses" in
    let* weighted := lift_result (mul_half theses) in
    let* new :=
      lift_result
        (match weighted with
         | VFloat f => iadd_float old f
         | _ => Raise (TypeError "unsupported operand type(s) for +=")
         end) in
    let* _ := setitem target "combined_score" new in
    let* target := dict_getitem merged name in
    let* _ := setitem target "source" (VStr "both_databases") in
    ret merged
  else
    let* theses := getitem expert "relevant_theses" in
    let* weighted := lift_result (mul_half theses) in
    let* _ := setitem expert "combined_score" weighted in
    ret (dict_set merged name expert).

Definition _merge_expert_results (db1_experts db2_experts : list ref)
  : M heap (list ref) :=
  let* merged := for_each db1_experts add_db1_expert [] in
  let* merged := for_each db2_experts merge_db2_expert merged in
  let values := dict_values merged in
  let* keys := map_m sort_key values in
  ret (map snd (sort_desc (zip keys values))).

(** ** Rows returned by the four graph queries

    A row is keyed by the aliases of the query's [RETURN] clause, so it is a
    record here.  [count(...)] is an integer and [collect(...)] a list; a
    node property can be any value. *)

Module Affiliation.
Record t : Type := {
organization : value;
role : value;
department : value;
start_year : value;
end_year : value
}.
End Affiliation.

Module ProfileRow.
Record t : Type := {
name : value;
orcid_id : value;
given_names : value;
family_name : value;
pub_count : value;
affiliations : list Affiliation.t;
total_publications : Z
}.
End ProfileRow.

Module ActivityRow.
Record t : Type := {
person_name : value;
relationship_type : value;
thesis_title : value;
thesis_type : value;
keywords : value;
abstract : value
}.
End ActivityRow.

Module Db1ExpertRow.
Record t : Type := {
name : value;
orcid_id : value;
relevant_pubs : Z;
sample_pubs : list value;
organizations : list value;
departments : list value
}.
End Db1ExpertRow.

Module Db2ExpertRow.
Record t : Type := {
name : value;
roles : list value;
relevant_theses : Z;
sample_theses : list value
}.
End Db2ExpertRow.

(** ** The LLM endpoint *)

Module Request.
Record t : Type := {
url : option string;
authorization : string;
content_type : string;
model : string;
content : string;
max_tokens : Z;
temperature : Q;
timeout : Z;
verify : bool
}.
End Request.

Module Response.
(** [json] is what calling [response.json()] gives: the decoded body, or
the decoder's exception. *)
Record t : Type := {
status_code : Z;
json : result value
}.
End Response.

Inductive post_outcome : Type :=
| PostRaised (e : exn)
| PostReturned (response : Response.t).

(** ** The instance and its collaborators

    What [self] holds and what lies behind it: the two drivers answer a query
    with rows or raise, [requests.post] answers a request (given the requests
    posted before it) or raises, and [json.dumps(_, indent=2)] renders a
    value. *)
Record researchbook : Type := {
  db1_profile_query : string -> result (list ProfileRow.t);
  db2_activity_query : string -> result (list ActivityRow.t);
  db1_topic_query : string -> Z -> result (list Db1ExpertRow.t);
  db2_topic_query : string -> Z -> result (list Db2ExpertRow.t);
  llm_url : option string;
  llm_key : option string;
  llm_model : string;
  requests_post : list Request.t -> Request.t -> post_outcome;
  json_dumps : value -> string
}.

(** ** The state the operations run in *)
Record world : Type := {
  objects : heap;
  stdout : list string;
  llm_requests : list Request.t
}.

(** The world with the store replaced. *)
Definition with_objects (h : heap) (w : world) : world :=
  {| objects := h; stdout := stdout w; llm_requests := llm_requests w |}.

Definition lift_heap {A} (m : M heap A) : M world A :=
  fun w => match m (objects w) with
           | (r, h) => (r, with_objects h w)
           end.

Definition print (line : string) : M world unit :=
  fun w => (Ok tt, {| objects := objects w; stdout := stdout w ++ [line];
                      llm_requests := llm_requests w |}).

(** [try: body except Exception as e: handler(e)] *)
Definition try_except {S A} (body : M S A) (handler : exn -> M S A) : M S A :=
  fun s => match body s with
           | (Ok a, s') => (Ok a, s')
           | (Raise e, s') => handler e s'
           end.

(** ** Small pieces of Python *)

Definition truthy (v : value) : bool :=
  match v with
  | VNone => false
  | VBool b => b
  | VInt z => negb (z =? 0)%Z
  | VFloat q => negb (Qnum q =? 0)%Z
  | VStr s => negb (String.eqb s EmptyString)
  | VList l => match l with [] => false | _ => true end
  | VDict d => negb (bool_decide (d = ∅))
  end.

(** [a or b] *)
Definition py_or (a b : value) : value := if truthy a then a else b.

(** [len(l)] *)
Definition len {A} (l : list A) : Z := Z.of_nat (length l).

(** [str(x)] inside an f-string, for a setting read from the environment. *)
Definition str_of_setting (o : option string) : string :=
  match o with Some s => s | None => "None" end.

(** [v[k]] for a string [k] *)
Definition subscript (v : value) (k : string) : result value :=
  match v with
  | VDict d => match d !! k with
               | Some x => Ok x
               | None => Raise (KeyError (repr_str k))
               end
  | VList _ => Raise (TypeError "list indices must be integers or slices, not str")
  | VStr _ => Raise (TypeError "string indices must be integers, not 'str'")
  | _ => Raise (TypeError "object is not subscriptable")
  end.

(** [v[0]]; the keys of a decoded JSON object are strings, so [0] is never
    one of them. *)
Definition subscript_0 (v : value) : result value :=
  match v with
  | VList (x :: _) => Ok x
  | VList [] => Raise (IndexError "list index out of range")
  | VStr (String c _) => Ok (VStr (String c EmptyString))
  | VStr EmptyString => Raise (IndexError "string index out of range")
  | VDict _ => Raise (KeyError "0")
  | _ => Raise (TypeError "object is not subscriptable")
  end.

Definition bind_result {A B} (r : result A) (k : A -> result B) : result B :=
  match r with Ok a => k a | Raise e => Raise e end.

Definition newline : string := String (ascii_of_nat 10) EmptyString.

Definition dquote : string := String (ascii_of_nat 34) EmptyString.

(** The lines of a triple-quoted literal, joined as they stand in the file. *)
Fixpoint text (ls : list string) : string :=
  match ls with
  | [] => EmptyString
  | [l] => l
  | l :: ls' => l +:+ newline +:+ text ls'
  end.

(** A dict display [{k1: v1, ...}] with distinct literal keys. *)
Definition dict_of (fields : list (string * value)) : pydict := list_to_map fields.

(** ** [ai_query] *)

(** The world once [request] has been posted. *)
Definition logged (request : Request.t) (w : world) : world :=
  {| objects := objects w; stdout := stdout w;
     llm_requests := llm_requests w ++ [request] |}.

(** [requests.post(...)]: the call is recorded, then answered. *)
Definition post (self : researchbook) (request : Request.t) : M world Response.t :=
  fun w =>
    match requests_post self (llm_requests w) request with
    | PostRaised e => (Raise e, logged request w)
    | PostReturned response => (Ok response, logged request w)
    end.

(** The headers and the payload of [ai_query], with the fixed arguments of
    the call. *)
Definition build_request (self : researchbook) (prompt : string) (max_tokens : Z)
  : Request.t :=
  {| Request.url := llm_url self;
     Request.authorization := "Bearer " +:+ str_of_setting (llm_key self);
     Request.content_type := "application/json";
     Request.model := llm_model self;
     Request.content := prompt;
     Request.max_tokens := max_tokens;
     Request.temperature := (3 # 10)%Q;
     Request.timeout := 30;
     Request.verify := false |}.

(** [result['choices'][0]['message']['content']] *)
Definition first_choice_content (body : value) : result value :=
  bind_result (subscript body "choices") (fun choices =>
  bind_result (subscript_0 choices) (fun choice =>
  bind_result (subscript choice "message") (fun message =>
  subscript message "content"))).

Definition ai_query (self : researchbook) (prompt : string) (max_tokens : Z)
  : M world value :=
  let request := build_request self prompt max_tokens in
  try_except
    (let* response := post self request in
     if (Response.status_code response =? 200)%Z then
       let* result := lift_result (Response.json response) in
       lift_result (first_choice_content result)
     else
       ret (VStr ("AI Error: " +:+ pretty (Response.status_code response))))
    (fun e => ret (VStr ("AI Error: " +:+ exn_str e))).

(** The [max_tokens] default of [ai_query]. *)
Definition default_max_tokens : Z := 1000.

(** ** Person lookup *)

Definition affiliation_value (aff : Affiliation.t) : value :=
  VDict (dict_of [("organization", Affiliation.organization aff);
                  ("role", Affiliation.role aff);
                  ("department", Affiliation.department aff);
                  ("start_year", Affiliation.start_year aff);
                  ("end_year", Affiliation.end_year aff)]).

Definition profile_of_row (record : ProfileRow.t) : pydict :=
  dict_of
    [("name", ProfileRow.name record);
     ("orcid_id", ProfileRow.orcid_id record);
     ("given_names", ProfileRow.given_names record);
     ("family_name", ProfileRow.family_name record);
     ("orcid_publication_count", ProfileRow.pub_count record);
     ("total_publications", VInt (ProfileRow.total_publications record));
     ("affiliations",
      VList (map affiliation_value
               (filter (fun aff => truthy (Affiliation.organization aff) = true)
                  (ProfileRow.affiliations record))))].

(** Profiles are never updated once built, so they are carried by value. *)
Definition _get_researcher_profile_db1 (self : researchbook) (name : string)
  : M world (list pydict) :=
  let* result := lift_result (db1_profile_query self name) in
  ret (map profile_of_row result).

Definition activity_of_row (record : ActivityRow.t) : pydict :=
  dict_of
    [("person_name", ActivityRow.person_name record);
     ("role", ActivityRow.relationship_type record);
     ("thesis_title", ActivityRow.thesis_title record);
     ("thesis_type", ActivityRow.thesis_type record);
     ("keywords", py_or (ActivityRow.keywords record) (VList []));
     ("abstract", py_or (ActivityRow.abstract record) (VStr EmptyString))].

Definition _get_thesis_activities_db2 (self : researchbook) (name : string)
  : M world (list pydict) :=
  let* result := lift_result (db2_activity_query self name) in
  ret (map activity_of_row result).

Module CombinedData.
(** The dictionary [combined_data]; [ai_analysis] is [None] until the key
is assigned. *)
Record t : Type := {
name : string;
found_in_db1 : bool;
found_in_db2 : bool;
researcher_data : list pydict;
thesis_data : list pydict;
ai_analysis : option value
}.

Definition set_ai_analysis (d : t) (v : value) : t :=
{| name := name d;
 found_in_db1 := found_in_db1 d;
 found_in_db2 := found_in_db2 d;
 researcher_data := researcher_data d;
 thesis_data := thesis_data d;
 ai_analysis := Some v |}.
End CombinedData.

Definition _create_person_analysis_prompt (self : researchbook)
    (person_data : CombinedData.t) : string :=
  text
    [EmptyString;
     "        Analyze this researcher profile and provide a comprehensive summary:";
     EmptyString;
     "        RESEARCHER: " +:+ CombinedData.name person_data;
     "        ";
     "        DATABASE 1 (Research Profile):";
     "        " +:+ json_dumps self
                      (VList (map VDict (CombinedData.researcher_data person_data)));
     "        ";
     "        DATABASE 2 (Thesis Activities):  ";
     "        " +:+ json_dumps self
                      (VList (map VDict (CombinedData.thesis_data person_data)));
     "        ";
     "        Please provide:";
     "        1. Research expertise areas (based on thesis topics, roles, publications)";
     "        2. Career progression summary (positions, institutions, timeline)";
     "        3. Academic involvement (supervision, examination, collaboration patterns)";
     "        4. Key strengths and specializations";
     "        5. Overall academic profile assessment";
     "        ";
     "        Keep response concise but comprehensive (max 500 words).";
     "        "].

Definition not_found_message : string := "Person not found in either database".

Definition lookup_person (self : researchbook) (name : string)
  : M world CombinedData.t :=
  let* _ := print ("🔍 Looking up: " +:+ name) in
  let* db1_profile := _get_researcher_profile_db1 self name in
  let* db2_profile := _get_thesis_activities_db2 self name in
  let combined_data :=
    {| CombinedData.name := name;
       CombinedData.found_in_db1 := (len db1_profile >? 0)%Z;
       CombinedData.found_in_db2 := (len db2_profile >? 0)%Z;
       CombinedData.researcher_data := db1_profile;
       CombinedData.thesis_data := db2_profile;
       CombinedData.ai_analysis := None |} in
  if CombinedData.found_in_db1 combined_data
     || CombinedData.found_in_db2 combined_data
  then
    let ai_prompt := _create_person_analysis_prompt self combined_data in
    let* analysis := ai_query self ai_prompt default_max_tokens in
    ret (CombinedData.set_ai_analysis combined_data analysis)
  else
    ret (CombinedData.set_ai_analysis combined_data (VStr not_found_message)).

(** ** Expert finder *)

Definition expert_of_db1_row (record : Db1ExpertRow.t) : pydict :=
  dict_of
    [("name", Db1ExpertRow.name record);
     ("orcid_id", Db1ExpertRow.orcid_id record);
     ("relevant_publications", VInt (Db1ExpertRow.relevant_pubs record));
     ("sample_publications", VList (Db1ExpertRow.sample_pubs record));
     ("organizations", VList (Db1ExpertRow.organizations record));
     ("departments", VList (Db1ExpertRow.departments record));
     ("source", VStr "database_1")].

Definition _search_experts_db1 (self : researchbook) (topic : string) (limit : Z)
  : M world (list ref) :=
  let* result := lift_result (db1_topic_query self topic limit) in
  lift_heap (map_m (fun record => alloc (expert_of_db1_row record)) result).

Definition expert_of_db2_row (record : Db2ExpertRow.t) : pydict :=
  dict_of
    [("name", Db2ExpertRow.name record);
     ("roles", VList (Db2ExpertRow.roles record));
     ("relevant_theses", VInt (Db2ExpertRow.relevant_theses record));
     ("sample_theses", VList (Db2ExpertRow.sample_theses record));
     ("source", VStr "database_2")].

Definition _search_experts_db2 (self : researchbook) (topic : string) (limit : Z)
  : M world (list ref) :=
  let* result := lift_result (db2_topic_query self topic limit) in
  lift_heap (map_m (fun record => alloc (expert_of_db2_row record)) result).

(** Reading a whole record, as [json.dumps] does when it walks the list. *)
Definition deref (r : ref) : M heap pydict :=
  fun h => match h !! r with
           | Some d => (Ok d, h)
           | None => (Raise invalid_reference, h)
           end.

Definition _create_expert_ranking_prompt (self : researchbook) (topic : string)
    (experts : list ref) : M heap string :=
  let* records := map_m deref experts in
  ret (text
    [EmptyString;
     "        Rank and analyze these experts for the topic: "
       +:+ dquote +:+ topic +:+ dquote;
     "        ";
     "        EXPERTS FOUND:";
     "        " +:+ json_dumps self (VList (map VDict records));
     "        ";
     "        Please provide:";
     "        1. Top 5 experts ranked by relevance to "
       +:+ dquote +:+ topic +:+ dquote;
     "        2. For each expert, explain why they're qualified (publications, thesis work, roles)";
     "        3. Identify any collaboration patterns or research networks";
     "        4. Suggest which expert would be best for: media interviews, research collaboration, student supervision";
     "        ";
     "        Format as a clear ranking with explanations.";
     "        "]).

Module ExpertResult.
(** The dictionary [find_expert] returns. *)
Record t : Type := {
topic : string;
experts_found : Z;
db1_matches : Z;
db2_matches : Z;
expert_list : list ref;
ai_ranking : value
}.
End ExpertResult.

Definition find_expert (self : researchbook) (topic : string) (limit : Z)
  : M world ExpertResult.t :=
  let* _ := print ("🎯 Finding experts on: " +:+ topic) in
  let* db1_experts := _search_experts_db1 self topic limit in
  let* db2_experts := _search_experts_db2 self topic limit in
  let* all_experts := lift_heap (_merge_expert_results db1_experts db2_experts) in
  let* ai_ranking :=
    match all_experts with
    | _ :: _ =>
        let* ranking_prompt :=
          lift_heap (_create_expert_ranking_prompt self topic all_experts) in
        ai_query self ranking_prompt 1500
    | [] => ret (VStr ("No experts found for topic: " +:+ topic))
    end in
  ret {| ExpertResult.topic := topic;
         ExpertResult.experts_found := len all_experts;
         ExpertResult.db1_matches := len db1_experts;
         ExpertResult.db2_matches := len db2_experts;
         ExpertResult.expert_list := all_experts;
         ExpertResult.ai_ranking := ai_ranking |}.

(** The [limit] default of [find_expert]. *)
Definition default_limit : Z := 10.

(** ** Vocabulary of the statements *)

(** The records a returned list refers to, read after the call. *)
Definition returned_records (db1_experts db2_experts : list ref)
  : M heap (list pydict) :=
  let* all_experts := _merge_expert_results db1_experts db2_experts in
  map_m deref all_experts.

(** The merge key of a record, when it has a hashable name. *)
Definition name_of (d : pydict) : option key :=
  match d !! "name" with
  | Some v => match hash_key v with Ok k => Some k | Raise _ => None end
  | None => None
  end.

Definition obj_name (h : heap) (r : ref) : option key := h !! r ≫= name_of.

(** The names carried by a list of records, in order. *)
Definition names (h : heap) (l : list ref) : list key := omap (obj_name h) l.

(** A numeric field of a record. *)
Definition count_of (d : pydict) (f : string) : option Q := d !! f ≫= number.

Definition source_is (d : pydict) (tag : string) : bool :=
  match d !! "source" with
  | Some (VStr s) => String.eqb s tag
  | _ => false
  end.

(** What the first loop reads from a record of database 1, with the tag
    [_search_experts_db1] gives it. *)
Definition is_db1_record (d : pydict) : bool :=
  bool_decide (is_Some (name_of d))
  && bool_decide (is_Some (count_of d "relevant_publications"))
  && source_is d "database_1".

(** What the second loop reads from a record of database 2, with the tag
    [_search_experts_db2] gives it. *)
Definition is_db2_record (d : pydict) : bool :=
  bool_decide (is_Some (name_of d))
  && bool_decide (is_Some (d !! "roles"))
  && bool_decide (is_Some (count_of d "relevant_theses"))
  && bool_decide (is_Some (d !! "sample_theses"))
  && source_is d "database_2".

Definition holds_at (h : heap) (P : pydict -> bool) (r : ref) : bool :=
  match h !! r with Some d => P d | None => false end.

(** The two argument lists are lists of records of the two databases. *)
Definition well_formed (h : heap) (db1_experts db2_experts : list ref) : bool :=
  forallb (holds_at h is_db1_record) db1_experts
  && forallb (holds_at h is_db2_record) db2_experts.

(** The entries of a list of records that carry the name [k]. *)
Definition named (k : key) (ds : list pydict) : list pydict :=
  filter (fun d => name_of d = Some k) ds.

(** The relevant-theses counts of the database-2 records named [k]. *)
Definition theses_named (h : heap) (k : key) (l : list ref) : list Q :=
  omap (fun e => h !! e ≫= fun d =>
                 if decide (name_of d = Some k)
                 then count_of d "relevant_theses" else None) l.

(** [score += t * 0.5], once for each count in turn. *)
Definition accumulate (score : Q) (ts : list Q) : Q :=
  foldl (fun s t => (s + t * half)%Q) score ts.

Definition Qsum (ts : list Q) : Q := foldr Qplus 0%Q ts.

Definition is_source_tag (d : pydict) : bool :=
  source_is d "database_1" || source_is d "database_2"
  || source_is d "both_databases".

(** Scores in non-increasing order. *)
Inductive non_increasing : list Q -> Prop :=
| ni_nil : non_increasing []
| ni_cons q qs :
    Forall (fun q' => (q' <= q)%Q) qs -> non_increasing qs ->
    non_increasing (q :: qs).

(** ** Vocabulary of the proofs *)

(** What the first loop does to a record. *)
Definition seed (d : pydict) : pydict :=
  match d !! "relevant_publications" with
  | Some p => <["combined_score" := p]> d
  | None => d
  end.

(** [merged] after the first loop, from the names alone. *)
Definition seed_keys (h : heap) (m : merged_dict) (l : list ref) : merged_dict :=
  foldl (fun m r => match obj_name h r with
                    | Some k => dict_set m k r
                    | None => m
                    end) m l.

(** What the [else] branch of the second loop does to a record. *)
Definition half_score (d : pydict) : pydict :=
  match count_of d "relevant_theses" with
  | Some qt => <["combined_score" := VFloat (qt * half)%Q]> d
  | None => d
  end.

(** What the [if] branch of the second loop does to the record [dr] kept in
    [merged], given the record [de] at hand. *)
Definition absorb (dr de : pydict) : pydict :=
  match de !! "roles", de !! "relevant_theses", de !! "sample_theses",
        count_of de "relevant_theses", count_of dr "combined_score" with
  | Some roles, Some theses, Some samples, Some qt, Some qs =>
      <["source" := VStr "both_databases"]>
        (<["combined_score" := VFloat (qs + qt * half)%Q]>
           (<["sample_theses" := samples]>
              (<["relevant_theses" := theses]>
                 (<["thesis_roles" := roles]> dr))))
  | _, _, _, _, _ => dr
  end.

(** What the first loop needs to read from the record at hand. *)
Definition readable1 (d : pydict) : Prop :=
  is_Some (name_of d) /\ is_Some (d !! "relevant_publications").

(** What the second loop needs to read from the record at hand. *)
Definition readable2 (d : pydict) : bool :=
  bool_decide (is_Some (name_of d))
  && bool_decide (is_Some (d !! "roles"))
  && bool_decide (is_Some (count_of d "relevant_theses"))
  && bool_decide (is_Some (d !! "sample_theses")).

(** The records of [l] named [k], in order. *)
Definition records_named (h : heap) (k : key) (l : list ref) : list pydict :=
  omap (fun e => h !! e ≫= fun d =>
                 if decide (name_of d = Some k) then Some d else None) l.

(** The fields the second loop can add to a record of database 2. *)
Definition merge_fields : gset string := {[ "combined_score"; "thesis_roles" ]}.

(** The state of the second loop after the records [done], started from
    [merged = m1] in the store [h1]. *)
Record loop2_inv (h1 : heap) (m1 : merged_dict) (done : list ref)
    (m : merged_dict) (h : heap) : Prop := {
  inv_done : Forall (fun e => holds_at h1 is_db2_record e = true) done;
  inv_names : forall r, obj_name h r = obj_name h1 r;
  inv_readable : forall e d1, h1 !! e = Some d1 -> readable2 d1 = true ->
    exists d, h !! e = Some d /\ readable2 d = true;
  inv_keys_nodup : NoDup (map fst m);
  inv_keys : forall k, k ∈ map fst m <-> k ∈ map fst m1 \/ k ∈ names h1 done;
  inv_named : forall k r, dict_get m k = Some r -> obj_name h1 r = Some k;
  inv_old : forall k r, dict_get m1 k = Some r -> dict_get m k = Some r;
  inv_new : forall k r, dict_get m1 k = None -> dict_get m k = Some r -> r ∈ done;
  inv_score : forall k r, dict_get m k = Some r ->
    exists d, h !! r = Some d /\ is_Some (count_of d "combined_score");
  inv_untouched : forall r k, obj_name h1 r = Some k -> k ∉ names h1 done ->
    h !! r = h1 !! r;
  inv_nontarget : forall r k, obj_name h1 r = Some k -> dict_get m k <> Some r ->
    h !! r = h1 !! r;
  inv_hit : forall k r d1, dict_get m1 k = Some r -> h1 !! r = Some d1 ->
    h !! r = Some (foldl absorb d1 (records_named h1 k done));
  inv_miss : forall k e d1, dict_get m1 k = None ->
    filter (fun e' => obj_name h1 e' = Some k) done = [e] ->
    h1 !! e = Some d1 ->
    h !! e = Some (half_score d1) /\ dict_get m k = Some e;
  inv_tag : forall k r, dict_get m k = Some r ->
    exists d, h !! r = Some d /\ is_source_tag d = true;
  inv_dom : forall k e, dict_get m1 k = None -> dict_get m k = Some e ->
    exists d1 d, h1 !! e = Some d1 /\ h !! e = Some d /\
                 dom d ⊆ dom d1 ∪ merge_fields
}.

(** What a call on well-formed lists leaves behind: the store [h1] and the
    dictionary after the first loop, the dictionary [m2] and the store [h2]
    after the second, the returned list [out], its records [ds] and their
    scores [qs]. *)
Record outcome (h0 : heap) (db1 db2 : list ref) (h1 : heap) (m2 : merged_dict)
    (h2 : heap) (out : list ref) (ds : list pydict) (qs : list Q) : Prop := {
  out_h1 : forall r,
    h1 !! r = if decide (r ∈ db1) then seed <$> h0 !! r else h0 !! r;
  out_inv : loop2_inv h1 (seed_keys h0 [] db1) db2 m2 h2;
  out_run : _merge_expert_results db1 db2 h0 = (Ok out, h2);
  out_records : returned_records db1 db2 h0 = (Ok ds, h2);
  out_perm : out ≡ₚ map snd m2;
  out_deref : Forall2 (fun r d => h2 !! r = Some d) out ds;
  out_scores : Forall2 (fun d q => count_of d "combined_score" = Some q) ds qs;
  out_sorted : non_increasing qs
}.

(** A returned list whose scores, read in order, never increase. *)
Definition sorted_by_score (ds : list pydict) : Prop :=
  exists qs, Forall2 (fun d q => count_of d "combined_score" = Some q) ds qs
             /\ non_increasing qs.

(** What an example observes of a call: whether it returned, and for each
    record of the returned list its name, its two counts, its combined score
    and its source tag. *)
Definition returned_ok {A} (run : result A * heap) : bool :=
  match fst run with Ok _ => true | Raise _ => false end.

Definition returned_list (run : result (list pydict) * heap) : list pydict :=
  match fst run with Ok ds => ds | Raise _ => [] end.

Definition observe (d : pydict)
  : option key * option Q * option Q * option Q * option value :=
  (name_of d, count_of d "relevant_publications", count_of d "relevant_theses",
   count_of d "combined_score", d !! "source").

(** ** Sample rows *)

Definition sample_db1_row (name : string) (pubs : Z) : Db1ExpertRow.t :=
  {| Db1ExpertRow.name := VStr name;
     Db1ExpertRow.orcid_id := VNone;
     Db1ExpertRow.relevant_pubs := pubs;
     Db1ExpertRow.sample_pubs := [VStr "A first paper"];
     Db1ExpertRow.organizations := [VStr "Chalmers"];
     Db1ExpertRow.departments := [VNone] |}.

Definition sample_db2_row (name role : string) (theses : Z) : Db2ExpertRow.t :=
  {| Db2ExpertRow.name := VStr name;
     Db2ExpertRow.roles := [VStr role];
     Db2ExpertRow.relevant_theses := theses;
     Db2ExpertRow.sample_theses := [VStr "A thesis"] |}.

(** One record of each database, both named A: the scenario of the
    specification. *)
Definition heap_a4_a2 : heap :=
  [expert_of_db1_row (sample_db1_row "A" 4);
   expert_of_db2_row (sample_db2_row "A" "SUPERVISED" 2)].

(** One record of database 1 and two rows of database 2 for the same person,
    as the second topic query returns them for two roles with different
    counts. *)
Definition heap_a4_a2_a3 : heap :=
  [expert_of_db1_row (sample_db1_row "A" 4);
   expert_of_db2_row (sample_db2_row "A" "SUPERVISED" 2);
   expert_of_db2_row (sample_db2_row "A" "EXAMINED" 3)].

(** Two records of database 1 with the same name. *)
Definition heap_a4_a7 : heap :=
  [expert_of_db1_row (sample_db1_row "A" 4);
   expert_of_db1_row (sample_db1_row "A" 7)].

(** Two rows of database 2 for the same person, and nothing else. *)
Definition heap_a2_a3 : heap :=
  [expert_of_db2_row (sample_db2_row "A" "SUPERVISED" 2);
   expert_of_db2_row (sample_db2_row "A" "EXAMINED" 3)].

(** One record of database 1 named B and one of database 2 named C. *)
Definition heap_b3_c5 : heap :=
  [expert_of_db1_row (sample_db1_row "B" 3);
   expert_of_db2_row (sample_db2_row "C" "SUPERVISED" 5)].

(** ** Vocabulary of the orchestrator statements *)

(** The ways the call to the LLM endpoint fails, each with the detail that
    follows the tag in the string [ai_query] then returns: the transport
    raised, the status is not 200, the body does not decode, or the decoded
    body has no first choice with a message content. *)
Inductive llm_failed : post_outcome -> string -> Prop :=
| failed_transport e :
    llm_failed (PostRaised e) (exn_str e)
| failed_status response :
    Response.status_code response <> 200%Z ->
    llm_failed (PostReturned response) (pretty (Response.status_code response))
| failed_decode response e :
    Response.status_code response = 200%Z ->
    Response.json response = Raise e ->
    llm_failed (PostReturned response) (exn_str e)
| failed_shape response body e :
    Response.status_code response = 200%Z ->
    Response.json response = Ok body ->
    first_choice_content body = Raise e ->
    llm_failed (PostReturned response) (exn_str e).

(** [combined_data] as [lookup_person] builds it, before the analysis is
    attached. *)
Definition combined_before_ai (name : string) (db1_profile db2_profile : list pydict)
  : CombinedData.t :=
  {| CombinedData.name := name;
     CombinedData.found_in_db1 := (len db1_profile >? 0)%Z;
     CombinedData.found_in_db2 := (len db2_profile >? 0)%Z;
     CombinedData.researcher_data := db1_profile;
     CombinedData.thesis_data := db2_profile;
     CombinedData.ai_analysis := None |}.

(** The request [lookup_person] posts when it found data. *)
Definition lookup_request (self : researchbook) (name : string)
    (db1_profile db2_profile : list pydict) : Request.t :=
  build_request self
    (_create_person_analysis_prompt self
       (combined_before_ai name db1_profile db2_profile))
    default_max_tokens.

(** The world once [print] has written [line]. *)
Definition printed (line : string) (w : world) : world := snd (print line w).

(** A row whose name can key a dictionary. *)
Definition hashable (v : value) : bool :=
  match hash_key v with Ok _ => true | Raise _ => false end.

(** ** A sample instance *)

Definition sample_profile_row : ProfileRow.t :=
  {| ProfileRow.name := VStr "Anders Andersson";
     ProfileRow.orcid_id := VNone;
     ProfileRow.given_names := VStr "Anders";
     ProfileRow.family_name := VStr "Andersson";
     ProfileRow.pub_count := VInt 12;
     ProfileRow.affiliations := [];
     ProfileRow.total_publications := 3 |}.

(** An instance whose stores know one person and one topic, and whose LLM
    endpoint answers every request with [outcome]. *)
Definition sample_self (outcome : post_outcome) : researchbook :=
  {| db1_profile_query := fun name =>
       if String.eqb name "Anders" then Ok [sample_profile_row] else Ok [];
     db2_activity_query := fun _ => Ok [];
     db1_topic_query := fun topic _ =>
       if String.eqb topic "machine learning"
       then Ok [sample_db1_row "A" 4] else Ok [];
     db2_topic_query := fun topic _ =>
       if String.eqb topic "machine learning"
       then Ok [sample_db2_row "A" "SUPERVISED" 2] else Ok [];
     llm_url := Some "http://localhost:4000/chat/completions";
     llm_key := None;
     llm_model := "model";
     requests_post := fun _ _ => outcome;
     json_dumps := fun _ => "[...]" |}.

Definition http_500 : post_outcome :=
  PostReturned {| Response.status_code := 500;
                  Response.json := Raise (ExternalError "Expecting value") |}.

Definition empty_world : world :=
  {| objects := []; stdout := []; llm_requests := [] |}.

(** ** Vocabulary of the further properties *)

(** A reply of the endpoint that carries [content] as its first choice. *)
Definition reply_with (content : value) : post_outcome :=
  PostReturned
    {| Response.status_code := 200;
       Response.json :=
         Ok (VDict {[ "choices" :=
               VList [VDict {[ "message" :=
                                 VDict {[ "content" := content ]} ]}] ]}) |}.

(** The line [lookup_person] prints. *)
Definition lookup_line (name : string) : string := "🔍 Looking up: " +:+ name.

(** The line [find_expert] prints. *)
Definition find_line (topic : string) : string := "🎯 Finding experts on: " +:+ topic.

(** The message of [find_expert] when nothing matched. *)
Definition no_experts_message (topic : string) : string :=
  "No experts found for topic: " +:+ topic.

(** An instance whose first store is unreachable: its queries raise [e]. *)
Definition sample_self_db1_down (e : exn) : researchbook :=
  {| db1_profile_query := fun _ => Raise e;
     db2_activity_query := db2_activity_query (sample_self http_500);
     db1_topic_query := fun _ _ => Raise e;
     db2_topic_query := db2_topic_query (sample_self http_500);
     llm_url := llm_url (sample_self http_500);
     llm_key := llm_key (sample_self http_500);
     llm_model := llm_model (sample_self http_500);
     requests_post := requests_post (sample_self http_500);
     json_dumps := json_dumps (sample_self http_500) |}.

Definition service_unavailable : exn :=
  ExternalError "Unable to retrieve routing information".

(** A thesis row without keywords and without abstract. *)
Definition sample_activity_row : ActivityRow.t :=
  {| ActivityRow.person_name := VStr "Anders Andersson";
     ActivityRow.relationship_type := VStr "SUPERVISED";
     ActivityRow.thesis_title := VStr "A thesis";
     ActivityRow.thesis_type := VStr "MSc";
     ActivityRow.keywords := VNone;
     ActivityRow.abstract := VNone |}.

(** A profile row with one real affiliation and the all-null affiliation
    that the optional match collects for a person without any. *)
Definition sample_affiliated_row : ProfileRow.t :=
  {| ProfileRow.name := VStr "Anders Andersson";
     ProfileRow.orcid_id := VNone;
     ProfileRow.given_names := VStr "Anders";
     ProfileRow.family_name := VStr "Andersson";
     ProfileRow.pub_count := VInt 12;
     ProfileRow.affiliations :=
       [ {| Affiliation.organization := VNone;
            Affiliation.role := VNone;
            Affiliation.department := VNone;
            Affiliation.start_year := VNone;
            Affiliation.end_year := VNone |};
         {| Affiliation.organization := VStr "Chalmers";
            Affiliation.role := VStr "Professor";
            Affiliation.department := VNone;
            Affiliation.start_year := VInt 2010;
            Affiliation.end_year := VNone |} ];
     ProfileRow.total_publications := 3 |}.

(** The keys of a list in the order of their first occurrence: the order in
    which a dictionary filled from the list holds them. *)
Definition first_occurrences (ks : list key) : list key :=
  foldl (fun acc k => if decide (k ∈ acc) then acc else acc ++ [k]) [] ks.

(** The last record of [l] that carries the name [k]. *)
Definition last_named (h : heap) (k : key) (l : list ref) : option ref :=
  last (filter (fun r => obj_name h r = Some k) l).

(** A record of database 1 that lacks its publication count. *)
Definition heap_no_pubs : heap :=
  [expert_of_db1_row (sample_db1_row "B" 3);
   delete "relevant_publications" (expert_of_db1_row (sample_db1_row "A" 4))].

(** The record [d] has a combined score equal to [q]. *)
Definition has_score (q : Q) (d : pydict) : bool :=
  match count_of d "combined_score" with
  | Some q' => Qeq_bool q' q
  | None => false
  end.

(** Three records of database 1 with equal counts, and one of database 2
    whose halved count equals them. *)
Definition heap_ties : heap :=
  [expert_of_db1_row (sample_db1_row "C" 2);
   expert_of_db1_row (sample_db1_row "A" 2);
   expert_of_db1_row (sample_db1_row "B" 2);
   expert_of_db2_row (sample_db2_row "D" "SUPERVISED" 4)].

(** An instance whose stores answer every query with the given rows, and
    whose LLM endpoint answers with status 500. *)
Definition sample_self_answering (profiles : list ProfileRow.t)
    (activities : list ActivityRow.t) (experts1 : list Db1ExpertRow.t)
    (experts2 : list Db2ExpertRow.t) : researchbook :=
  {| db1_profile_query := fun _ => Ok profiles;
     db2_activity_query := fun _ => Ok activities;
     db1_topic_query := fun _ _ => Ok experts1;
     db2_topic_query := fun _ _ => Ok experts2;
     llm_url := llm_url (sample_self http_500);
     llm_key := llm_key (sample_self http_500);
     llm_model := llm_model (sample_self http_500);
     requests_post := requests_post (sample_self http_500);
     json_dumps := json_dumps (sample_self http_500) |}.

(** A row of database 1 whose name property is a list. *)
Definition sample_list_named_row : Db1ExpertRow.t :=
  {| Db1ExpertRow.name := VList [VStr "A"; VStr "B"];
     Db1ExpertRow.orcid_id := VNone;
     Db1ExpertRow.relevant_pubs := 1;
     Db1ExpertRow.sample_pubs := [];
     Db1ExpertRow.organizations := [];
     Db1ExpertRow.departments := [] |}.

(** The fields [_merge_expert_results] assigns. *)
Definition written_fields : list string :=
  ["combined_score"; "thesis_roles"; "relevant_theses"; "sample_theses"; "source"].

(** The store [h'] holds the records of [h], of which only those of [l] may
    differ, and those only by values of [written_fields]: no record is
    created or dropped, and no field is removed. *)
Definition touches_only (l : list ref) (h h' : heap) : Prop :=
  length h' = length h /\
  (forall r, r ∉ l -> h' !! r = h !! r) /\
  (forall r d, h !! r = Some d ->
     exists d', h' !! r = Some d' /\ dom d ⊆ dom d' /\
                forall f, f ∉ written_fields -> d' !! f = d !! f).

(** Run in any store, [m] touches only [l], whether it returns or raises, and
    what it returns satisfies [Q]. *)
Definition confined {A} (l : list ref) (m : M heap A) (Q : A -> Prop) : Prop :=
  forall h, touches_only l h (snd (m h)) /\
            match fst (m h) with Ok a => Q a | Raise _ => True end.

(** * Properties *)

(** ** The monad *)

Lemma bind_ok {S A B} (m : M S A) (k : A -> M S B) s a s' :
  m s = (Ok a, s') -> bind m k s = k a s'.
Proof. intros H. unfold bind. by rewrite H. Qed.

Lemma bind_raise {S A B} (m : M S A) (k : A -> M S B) s e s' :
  m s = (Raise e, s') -> bind m k s = (Raise e, s').
Proof. intros H. unfold bind. by rewrite H. Qed.

Lemma getitem_ok h r f d v :
  h !! r = Some d -> d !! f = Some v -> getitem r f h = (Ok v, h).
Proof. intros Hr Hf. unfold getitem. by rewrite Hr, Hf. Qed.

Lemma setitem_ok h r f v d :
  h !! r = Some d -> setitem r f v h = (Ok tt, <[r := <[f := v]> d]> h).
Proof. intros Hr. unfold setitem. by rewrite Hr. Qed.

Lemma deref_ok h r d : h !! r = Some d -> deref r h = (Ok d, h).
Proof. intros Hr. unfold deref. by rewrite Hr. Qed.

Lemma heap_lookup_insert (h : heap) r r' d d' :
  h !! r = Some d ->
  <[r := d']> h !! r' = if decide (r = r') then Some d' else h !! r'.
Proof.
  intros Hr. apply lookup_lt_Some in Hr.
  destruct (decide (r = r')) as [<-|Hne].
  - by apply list_lookup_insert_eq.
  - by apply list_lookup_insert_ne.
Qed.

(** ** The dictionary [merged] *)

Lemma dict_get_set_eq (m : merged_dict) k r : dict_get (dict_set m k r) k = Some r.
Proof.
  induction m as [|[k' r'] m IH]; simpl.
  - by rewrite decide_True.
  - destruct (decide (k = k')) as [->|Hne]; simpl.
    + by rewrite decide_True.
    + by rewrite decide_False.
Qed.

Lemma dict_get_set_ne (m : merged_dict) k k' r :
  k <> k' -> dict_get (dict_set m k r) k' = dict_get m k'.
Proof.
  intros Hne. induction m as [|[k0 r0] m IH]; simpl.
  - by rewrite decide_False.
  - destruct (decide (k = k0)) as [->|Hne0]; simpl.
    + by rewrite !decide_False.
    + by rewrite IH.
Qed.

Lemma dict_get_set (m : merged_dict) k k' r :
  dict_get (dict_set m k r) k' = if decide (k = k') then Some r else dict_get m k'.
Proof.
  case_decide as Hk.
  - subst. apply dict_get_set_eq.
  - by apply dict_get_set_ne.
Qed.

Lemma dict_get_None (m : merged_dict) k : dict_get m k = None <-> k ∉ map fst m.
Proof.
  induction m as [|[k' r'] m IH]; simpl.
  - split; [intros _; apply not_elem_of_nil | done].
  - rewrite not_elem_of_cons. case_decide as Hk; naive_solver.
Qed.

Lemma dict_get_is_Some (m : merged_dict) k : is_Some (dict_get m k) <-> k ∈ map fst m.
Proof.
  destruct (dict_get m k) eqn:Hg.
  - split; [intros _|by eauto].
    destruct (decide (k ∈ map fst m)) as [|Hn]; [done|].
    apply dict_get_None in Hn. congruence.
  - apply dict_get_None in Hg. split; [by intros [? ?]|done].
Qed.

Lemma dict_get_elem (m : merged_dict) k r : dict_get m k = Some r -> (k, r) ∈ m.
Proof.
  induction m as [|[k' r'] m IH]; simpl; [done|].
  case_decide as Hk.
  - intros [= <-]. subst. apply list_elem_of_here.
  - intros H. apply list_elem_of_further. auto.
Qed.

Lemma dict_elem_get (m : merged_dict) k r :
  NoDup (map fst m) -> (k, r) ∈ m -> dict_get m k = Some r.
Proof.
  induction m as [|[k' r'] m IH]; simpl; intros Hnd Hin.
  - by apply elem_of_nil in Hin.
  - apply NoDup_cons in Hnd as [Hk' Hnd].
    apply elem_of_cons in Hin as [[= -> ->]|Hin].
    + by rewrite decide_True.
    + rewrite decide_False; [auto|].
      intros ->. apply Hk'. apply list_elem_of_fmap. by exists (k', r).
Qed.

Lemma dict_set_keys_present (m : merged_dict) k r :
  k ∈ map fst m -> map fst (dict_set m k r) = map fst m.
Proof.
  induction m as [|[k' r'] m IH]; simpl; intros Hin.
  - by apply elem_of_nil in Hin.
  - case_decide as Hk; simpl; [done|].
    apply elem_of_cons in Hin as [?|Hin]; [done|]. by rewrite IH.
Qed.

Lemma dict_set_keys_absent (m : merged_dict) k r :
  k ∉ map fst m -> map fst (dict_set m k r) = map fst m ++ [k].
Proof.
  induction m as [|[k' r'] m IH]; simpl; intros Hin; [done|].
  apply not_elem_of_cons in Hin as [Hk Hin].
  rewrite decide_False by done. simpl. by rewrite IH.
Qed.

Lemma dict_set_keys_nodup (m : merged_dict) k r :
  NoDup (map fst m) -> NoDup (map fst (dict_set m k r)).
Proof.
  intros Hnd. destruct (decide (k ∈ map fst m)) as [Hin|Hin].
  - by rewrite dict_set_keys_present.
  - rewrite dict_set_keys_absent by done.
    apply NoDup_app. split_and!; [done| |apply NoDup_singleton].
    intros x Hx ->%list_elem_of_singleton. done.
Qed.

Lemma dict_set_keys_elem (m : merged_dict) k r k' :
  k' ∈ map fst (dict_set m k r) <-> k' = k \/ k' ∈ map fst m.
Proof.
  rewrite <- !dict_get_is_Some, dict_get_set.
  case_decide as Hk; subst; naive_solver.
Qed.

Lemma dict_set_length (m : merged_dict) k r :
  length (dict_set m k r) <= S (length m).
Proof.
  induction m as [|[k' r'] m IH]; simpl; [lia|].
  case_decide; simpl; lia.
Qed.

Lemma dict_set_absent (m : merged_dict) k r :
  dict_get m k = None -> dict_set m k r = m ++ [(k, r)].
Proof.
  induction m as [|[k' r'] m IH]; simpl; [done|].
  case_decide as Hk; [done|]. intros H. by rewrite IH.
Qed.

(** ** Records *)

Lemma name_of_insert (d : pydict) f v :
  f <> "name" -> name_of (<[f := v]> d) = name_of d.
Proof. intros Hf. unfold name_of. by rewrite lookup_insert_ne. Qed.

Lemma name_of_seed d : name_of (seed d) = name_of d.
Proof. unfold seed. destruct (d !! _); [by rewrite name_of_insert|done]. Qed.

Lemma name_of_half_score d : name_of (half_score d) = name_of d.
Proof. unfold half_score. destruct (count_of _ _); [by rewrite name_of_insert|done]. Qed.

Lemma name_of_absorb dr de : name_of (absorb dr de) = name_of dr.
Proof.
  unfold absorb. repeat case_match; try done.
  by rewrite !name_of_insert.
Qed.

Lemma readable2_spec d :
  readable2 d = true <->
  is_Some (name_of d) /\ is_Some (d !! "roles") /\
  is_Some (count_of d "relevant_theses") /\ is_Some (d !! "sample_theses").
Proof.
  unfold readable2. rewrite !andb_true_iff, !bool_decide_eq_true. naive_solver.
Qed.

Lemma count_of_insert_ne (d : pydict) f g v :
  f <> g -> count_of (<[f := v]> d) g = count_of d g.
Proof. intros Hf. unfold count_of. by rewrite lookup_insert_ne. Qed.

Lemma count_of_insert_eq (d : pydict) f v :
  count_of (<[f := v]> d) f = number v.
Proof. unfold count_of. by rewrite lookup_insert_eq. Qed.

Lemma absorb_eq (dr de : pydict) roles theses samples qt qs :
  de !! "roles" = Some roles -> de !! "relevant_theses" = Some theses ->
  de !! "sample_theses" = Some samples -> number theses = Some qt ->
  count_of dr "combined_score" = Some qs ->
  absorb dr de =
    <["source" := VStr "both_databases"]>
      (<["combined_score" := VFloat (qs + qt * half)%Q]>
         (<["sample_theses" := samples]>
            (<["relevant_theses" := theses]>
               (<["thesis_roles" := roles]> dr)))).
Proof.
  intros H1 H2 H3 H4 H5. unfold absorb, count_of. unfold count_of in H5.
  rewrite H1, H2, H3. simpl. rewrite H4.
  destruct (dr !! "combined_score") as [sc|]; [|done]. simpl in *.
  by rewrite H5.
Qed.

Lemma readable2_absorb dr de :
  readable2 dr = true -> readable2 (absorb dr de) = true.
Proof.
  intros Hr. unfold absorb. repeat case_match; try done.
  apply readable2_spec in Hr as (Hn & Hro & Ht & Hs).
  apply readable2_spec. rewrite !name_of_insert by done.
  split_and!; [done|by rewrite !lookup_insert_ne| |].
  - rewrite !count_of_insert_ne by done. rewrite count_of_insert_eq.
    unfold count_of in *. simplify_option_eq. eauto.
  - rewrite !lookup_insert_ne by done. rewrite lookup_insert_eq. eauto.
Qed.

Lemma readable2_half_score d : readable2 d = true -> readable2 (half_score d) = true.
Proof.
  intros Hr. unfold half_score. case_match; [|done].
  apply readable2_spec in Hr as (Hn & Hro & Ht & Hs).
  apply readable2_spec. rewrite name_of_insert by done.
  rewrite count_of_insert_ne by done. by rewrite !lookup_insert_ne.
Qed.

(** ** One iteration of each loop *)

Lemma add_db1_expert_run m e h d k :
  h !! e = Some d -> name_of d = Some k -> is_Some (d !! "relevant_publications") ->
  add_db1_expert m e h = (Ok (dict_set m k e), <[e := seed d]> h).
Proof.
  intros He Hn [p Hp]. unfold name_of in Hn.
  destruct (d !! "name") as [nv|] eqn:Hnv; [|done].
  destruct (hash_key nv) as [k'|] eqn:Hk; [|done]. injection Hn as ->.
  unfold add_db1_expert.
  rewrite (bind_ok _ _ _ _ _ (getitem_ok _ _ _ _ _ He Hnv)).
  unfold lift_result at 1. unfold bind at 1. rewrite Hk.
  rewrite (bind_ok _ _ _ _ _ (getitem_ok _ _ _ _ _ He Hp)).
  unfold dict_getitem. rewrite dict_get_set_eq.
  unfold bind at 1, ret at 1.
  rewrite (bind_ok _ _ _ _ _ (setitem_ok _ _ _ _ _ He)).
  unfold ret, seed. by rewrite Hp.
Qed.

Lemma merge_db2_expert_miss m e h d k :
  h !! e = Some d -> name_of d = Some k -> readable2 d = true ->
  dict_get m k = None ->
  merge_db2_expert m e h = (Ok (dict_set m k e), <[e := half_score d]> h).
Proof.
  intros He Hn Hr Hm. unfold name_of in Hn.
  destruct (d !! "name") as [nv|] eqn:Hnv; [|done].
  destruct (hash_key nv) as [k'|] eqn:Hk; [|done]. injection Hn as ->.
  apply readable2_spec in Hr as (_ & _ & Ht & _).
  destruct Ht as [qt Ht]. unfold count_of in Ht.
  destruct (d !! "relevant_theses") as [t|] eqn:Hrt; [|done]. simpl in Ht.
  unfold merge_db2_expert.
  rewrite (bind_ok _ _ _ _ _ (getitem_ok _ _ _ _ _ He Hnv)).
  unfold lift_result at 1. unfold bind at 1. rewrite Hk.
  unfold dict_contains. rewrite Hm.
  rewrite (bind_ok _ _ _ _ _ (getitem_ok _ _ _ _ _ He Hrt)).
  unfold lift_result at 1, mul_half. unfold bind at 1. rewrite Ht.
  rewrite (bind_ok _ _ _ _ _ (setitem_ok _ _ _ _ _ He)).
  unfold ret, half_score, count_of. rewrite Hrt. simpl. by rewrite Ht.
Qed.

Lemma getitem_insert_same (h : heap) r X f v :
  r < length h -> X !! f = Some v ->
  getitem r f (<[r := X]> h) = (Ok v, <[r := X]> h).
Proof.
  intros Hr Hf. apply getitem_ok with X; [|done].
  by apply list_lookup_insert_eq.
Qed.

Lemma getitem_insert_other (h : heap) r e X d f v :
  r <> e -> h !! e = Some d -> d !! f = Some v ->
  getitem e f (<[r := X]> h) = (Ok v, <[r := X]> h).
Proof.
  intros Hne He Hf. apply getitem_ok with d; [|done].
  by rewrite list_lookup_insert_ne.
Qed.

Lemma setitem_insert_same (h : heap) r X f v :
  r < length h ->
  setitem r f v (<[r := X]> h) = (Ok tt, <[r := <[f := v]> X]> h).
Proof.
  intros Hr. rewrite (setitem_ok _ _ _ _ X).
  - by rewrite list_insert_insert_eq.
  - by apply list_lookup_insert_eq.
Qed.

Lemma merge_db2_expert_hit m e h d k r dr :
  h !! e = Some d -> name_of d = Some k -> readable2 d = true ->
  dict_get m k = Some r -> h !! r = Some dr ->
  is_Some (count_of dr "combined_score") ->
  merge_db2_expert m e h = (Ok m, <[r := absorb dr d]> h).
Proof.
  intros He Hn Hr Hm Hdr [qs Hqs]. unfold name_of in Hn.
  destruct (d !! "name") as [nv|] eqn:Hnv; [|done].
  destruct (hash_key nv) as [k'|] eqn:Hk; [|done]. injection Hn as ->.
  apply readable2_spec in Hr as (_ & [roles Hro] & [qt Ht] & [samples Hsa]).
  pose proof Ht as Hcount. unfold count_of in Ht.
  destruct (d !! "relevant_theses") as [t|] eqn:Hrt; [|done]. simpl in Ht.
  pose proof Hqs as Hcs. unfold count_of in Hcs.
  destruct (dr !! "combined_score") as [sc|] eqn:Hsc; [|done]. simpl in Hcs.
  rewrite (absorb_eq _ _ roles t samples qt qs) by done.
  pose proof (lookup_lt_Some _ _ _ Hdr) as Hlt.
  unfold merge_db2_expert.
  rewrite (bind_ok _ _ _ _ _ (getitem_ok _ _ _ _ _ He Hnv)).
  unfold lift_result at 1. unfold bind at 1. rewrite Hk.
  unfold dict_contains, dict_getitem. rewrite Hm.
  rewrite (bind_ok _ _ _ _ _ (getitem_ok _ _ _ _ _ He Hro)).
  unfold bind at 1, ret at 1.
  rewrite (bind_ok _ _ _ _ _ (setitem_ok _ _ _ _ _ Hdr)).
  destruct (decide (r = e)) as [->|Hne].
  - assert (dr = d) as -> by congruence.
    erewrite bind_ok; [|apply getitem_insert_same; [done|]; by rewrite lookup_insert_ne].
    unfold bind at 1, ret at 1.
    erewrite bind_ok; [|by apply setitem_insert_same].
    erewrite bind_ok;
      [|apply getitem_insert_same; [done|]; by rewrite !lookup_insert_ne].
    unfold bind at 1, ret at 1.
    erewrite bind_ok; [|by apply setitem_insert_same].
    unfold bind at 1, ret at 1.
    erewrite bind_ok;
      [|apply getitem_insert_same; [done|]; by rewrite !lookup_insert_ne].
    erewrite bind_ok;
      [|apply getitem_insert_same; [done|];
        rewrite lookup_insert_ne by done; by rewrite lookup_insert_eq].
    unfold lift_result at 1, mul_half. unfold bind at 1. rewrite Ht.
    unfold lift_result at 1, iadd_float. unfold bind at 1. rewrite Hcs.
    erewrite bind_ok; [|by apply setitem_insert_same].
    unfold bind at 1, ret at 1.
    erewrite bind_ok; [|by apply setitem_insert_same].
    done.
  - erewrite bind_ok; [|by eapply getitem_insert_other].
    unfold bind at 1, ret at 1.
    erewrite bind_ok; [|by apply setitem_insert_same].
    erewrite bind_ok; [|by eapply getitem_insert_other].
    unfold bind at 1, ret at 1.
    erewrite bind_ok; [|by apply setitem_insert_same].
    unfold bind at 1, ret at 1.
    erewrite bind_ok;
      [|apply getitem_insert_same; [done|]; by rewrite !lookup_insert_ne].
    erewrite bind_ok; [|by eapply getitem_insert_other].
    unfold lift_result at 1, mul_half. unfold bind at 1. rewrite Ht.
    unfold lift_result at 1, iadd_float. unfold bind at 1. rewrite Hcs.
    erewrite bind_ok; [|by apply setitem_insert_same].
    unfold bind at 1, ret at 1.
    erewrite bind_ok; [|by apply setitem_insert_same].
    done.
Qed.

(** ** The first loop *)

Lemma seed_idemp d : seed (seed d) = seed d.
Proof.
  unfold seed. destruct (d !! "relevant_publications") as [p|] eqn:Hp.
  - rewrite lookup_insert_ne by done. rewrite Hp. by rewrite insert_insert_eq.
  - by rewrite Hp.
Qed.

Lemma seed_lookup_ne d f : f <> "combined_score" -> seed d !! f = d !! f.
Proof.
  intros Hf. unfold seed. destruct (d !! "relevant_publications"); [|done].
  by rewrite lookup_insert_ne.
Qed.

Lemma obj_name_insert (h : heap) e d d' r :
  h !! e = Some d -> name_of d' = name_of d ->
  obj_name (<[e := d']> h) r = obj_name h r.
Proof.
  intros He Hn. unfold obj_name. rewrite (heap_lookup_insert _ _ _ d) by done.
  case_decide; [subst; rewrite He; simpl; done|done].
Qed.

Lemma seed_keys_ext h h' m l :
  (forall r, obj_name h' r = obj_name h r) -> seed_keys h' m l = seed_keys h m l.
Proof.
  intros Hext. revert m. induction l as [|r l IH]; intros m; simpl; [done|].
  unfold seed_keys in *. simpl. rewrite Hext. apply IH.
Qed.

Lemma loop1_run l : forall m h,
  Forall (fun r => exists d, h !! r = Some d /\ readable1 d) l ->
  exists h', for_each l add_db1_expert m h = (Ok (seed_keys h m l), h')
    /\ forall r, h' !! r = if decide (r ∈ l) then seed <$> h !! r else h !! r.
Proof.
  induction l as [|e l IH]; intros m h Hl.
  - exists h. split; [done|]. intros r. rewrite decide_False; [done|].
    apply not_elem_of_nil.
  - apply Forall_cons in Hl as [(d & He & [k Hk] & Hp) Hl].
    set (h1 := <[e := seed d]> h).
    assert (Hlook : forall r, h1 !! r = if decide (e = r) then Some (seed d) else h !! r).
    { intros r. by apply heap_lookup_insert with d. }
    assert (Hnames : forall r, obj_name h1 r = obj_name h r).
    { intros r. apply obj_name_insert with d; [done|apply name_of_seed]. }
    destruct (IH (dict_set m k e) h1) as (h' & Hrun & Hh').
    { eapply Forall_impl; [exact Hl|]. intros r (dr & Hr & Hn & Hpr). simpl.
      rewrite Hlook. case_decide as Her.
      - exists (seed d). split; [done|]. split.
        + rewrite name_of_seed. eauto.
        + rewrite seed_lookup_ne by done. done.
      - exists dr. done. }
    exists h'. split.
    + simpl. rewrite (bind_ok _ _ _ _ _ (add_db1_expert_run m e h d k He Hk Hp)).
      fold h1. rewrite Hrun. f_equal. f_equal.
      rewrite (seed_keys_ext h h1) by done.
      unfold seed_keys. simpl.
      assert (obj_name h e = Some k) as ->; [|done].
      unfold obj_name. rewrite He. done.
    + intros r. rewrite Hh', Hlook.
      destruct (decide (r ∈ e :: l)) as [H1|H1], (decide (r ∈ l)) as [H2|H2],
        (decide (e = r)) as [H3|H3];
        subst; rewrite ?He; simpl; rewrite ?seed_idemp; try done; set_solver.
Qed.

(** ** [merged] after the first loop *)

Lemma names_app h l1 l2 : names h (l1 ++ l2) = names h l1 ++ names h l2.
Proof. unfold names. apply omap_app. Qed.

Lemma names_cons h r l k :
  obj_name h r = Some k -> names h (r :: l) = k :: names h l.
Proof. intros H. unfold names. simpl. by rewrite H. Qed.

Lemma elem_of_names h l k :
  k ∈ names h l <-> exists r, r ∈ l /\ obj_name h r = Some k.
Proof. unfold names. apply list_elem_of_omap. Qed.

Lemma seed_keys_nodup h l : forall m,
  NoDup (map fst m) -> NoDup (map fst (seed_keys h m l)).
Proof.
  induction l as [|r l IH]; intros m Hm; [done|].
  unfold seed_keys in *. simpl. apply IH.
  destruct (obj_name h r); [by apply dict_set_keys_nodup|done].
Qed.

Lemma seed_keys_elem h l : forall m k,
  k ∈ map fst (seed_keys h m l) <-> k ∈ map fst m \/ k ∈ names h l.
Proof.
  induction l as [|r l IH]; intros m k.
  - unfold names. simpl. set_solver.
  - unfold seed_keys in *. cbn [foldl]. rewrite IH.
    destruct (obj_name h r) as [k'|] eqn:Hr.
    + rewrite (names_cons _ _ _ k') by done. rewrite dict_set_keys_elem. set_solver.
    + unfold names. cbn [omap list_omap]. rewrite Hr. done.
Qed.

Lemma seed_keys_get h l : forall m k r,
  dict_get (seed_keys h m l) k = Some r ->
  dict_get m k = Some r \/ (r ∈ l /\ obj_name h r = Some k).
Proof.
  induction l as [|e l IH]; intros m k r Hg; [by left|].
  unfold seed_keys in *. simpl in Hg. apply IH in Hg as [Hg|[Hin Hn]].
  - destruct (obj_name h e) as [k'|] eqn:He; [|by left].
    rewrite dict_get_set in Hg. case_decide; [|by left].
    simplify_eq. right. split; [apply list_elem_of_here|done].
  - right. split; [by apply list_elem_of_further|done].
Qed.

Lemma seed_keys_length h l : forall m,
  length (seed_keys h m l) <= length m + length l.
Proof.
  induction l as [|e l IH]; intros m; simpl; [unfold seed_keys; simpl; lia|].
  unfold seed_keys in *. simpl.
  etrans; [apply IH|]. destruct (obj_name h e); [|lia].
  pose proof (dict_set_length m k e). lia.
Qed.

(** ** Records after an iteration of the second loop *)

Lemma records_named_snoc h k l e d :
  h !! e = Some d ->
  records_named h k (l ++ [e]) =
  records_named h k l ++ (if decide (name_of d = Some k) then [d] else []).
Proof.
  intros He. unfold records_named. rewrite omap_app. f_equal.
  cbn [omap list_omap]. rewrite He. simpl. by case_decide.
Qed.

Lemma names_snoc h l e k :
  obj_name h e = Some k -> names h (l ++ [e]) = names h l ++ [k].
Proof. intros He. rewrite names_app. f_equal. by apply names_cons. Qed.

Lemma source_is_insert (d : pydict) tag : source_is (<["source" := VStr tag]> d) tag = true.
Proof. unfold source_is. rewrite lookup_insert_eq. apply String.eqb_refl. Qed.

Lemma source_is_insert_ne (d : pydict) f v tag :
  f <> "source" -> source_is (<[f := v]> d) tag = source_is d tag.
Proof. intros Hf. unfold source_is. by rewrite lookup_insert_ne. Qed.

Lemma absorb_readable_eq dr de :
  readable2 de = true -> is_Some (count_of dr "combined_score") ->
  exists roles theses samples qt qs,
    de !! "roles" = Some roles /\ de !! "relevant_theses" = Some theses /\
    de !! "sample_theses" = Some samples /\ number theses = Some qt /\
    count_of de "relevant_theses" = Some qt /\
    count_of dr "combined_score" = Some qs /\
    absorb dr de =
      <["source" := VStr "both_databases"]>
        (<["combined_score" := VFloat (qs + qt * half)%Q]>
           (<["sample_theses" := samples]>
              (<["relevant_theses" := theses]>
                 (<["thesis_roles" := roles]> dr)))).
Proof.
  intros (_ & [roles Hro] & [qt Ht] & [samples Hsa])%readable2_spec [qs Hqs].
  pose proof Ht as Hc. unfold count_of in Ht.
  destruct (de !! "relevant_theses") as [t|] eqn:Hrt; [|done]. simpl in Ht.
  exists roles, t, samples, qt, qs. split_and!; try done.
  by apply absorb_eq.
Qed.

Lemma absorb_score dr de :
  readable2 de = true -> is_Some (count_of dr "combined_score") ->
  is_Some (count_of (absorb dr de) "combined_score").
Proof.
  intros Hr Hs.
  destruct (absorb_readable_eq dr de Hr Hs)
    as (roles & t & samples & qt & qs & _ & _ & _ & _ & _ & _ & ->).
  rewrite count_of_insert_ne by done. rewrite count_of_insert_eq. simpl. eauto.
Qed.

Lemma absorb_tag dr de :
  readable2 de = true -> is_Some (count_of dr "combined_score") ->
  source_is (absorb dr de) "both_databases" = true.
Proof.
  intros Hr Hs.
  destruct (absorb_readable_eq dr de Hr Hs)
    as (roles & t & samples & qt & qs & _ & _ & _ & _ & _ & _ & ->).
  apply source_is_insert.
Qed.

Lemma absorb_dom dr de :
  dom (absorb dr de) ⊆
  dom dr ∪ {[ "source"; "combined_score"; "sample_theses"; "relevant_theses";
             "thesis_roles" ]}.
Proof.
  unfold absorb. repeat case_match; rewrite ?dom_insert_L; set_solver.
Qed.

Lemma half_score_lookup_ne d f : f <> "combined_score" -> half_score d !! f = d !! f.
Proof.
  intros Hf. unfold half_score. case_match; [|done]. by rewrite lookup_insert_ne.
Qed.

Lemma half_score_score d :
  readable2 d = true -> is_Some (count_of (half_score d) "combined_score").
Proof.
  intros (_ & _ & [qt Ht] & _)%readable2_spec. unfold half_score. rewrite Ht.
  rewrite count_of_insert_eq. simpl. eauto.
Qed.

Lemma half_score_dom d : dom (half_score d) ⊆ dom d ∪ {[ "combined_score" ]}.
Proof.
  unfold half_score. case_match; [|set_solver]. rewrite dom_insert_L. set_solver.
Qed.

Lemma half_score_source d tag : source_is (half_score d) tag = source_is d tag.
Proof. unfold source_is. by rewrite half_score_lookup_ne. Qed.

Lemma is_db2_record_spec d :
  is_db2_record d = true <->
  readable2 d = true /\ source_is d "database_2" = true.
Proof. unfold is_db2_record, readable2. rewrite !andb_true_iff. naive_solver. Qed.

Lemma source_is_dom d tag : source_is d tag = true -> "source" ∈ dom d.
Proof.
  unfold source_is. destruct (d !! "source") eqn:Hs; [|done].
  intros _. apply elem_of_dom. eauto.
Qed.

Lemma readable2_dom d :
  readable2 d = true -> "relevant_theses" ∈ dom d /\ "sample_theses" ∈ dom d.
Proof.
  intros (_ & _ & [qt Ht] & Hs)%readable2_spec. rewrite !elem_of_dom.
  split; [|done]. unfold count_of in Ht.
  destruct (d !! "relevant_theses"); [eauto|done].
Qed.

Lemma holds_at_spec h P r :
  holds_at h P r = true <-> exists d, h !! r = Some d /\ P d = true.
Proof.
  unfold holds_at. destruct (h !! r) as [d|]; [|naive_solver].
  split; [eauto|]. by intros (d' & [= <-] & H).
Qed.

Lemma obj_name_Some h r k :
  obj_name h r = Some k <-> exists d, h !! r = Some d /\ name_of d = Some k.
Proof.
  unfold obj_name. destruct (h !! r) as [d|]; simpl; [|naive_solver].
  split; [eauto|]. by intros (d' & [= <-] & H).
Qed.

Lemma filter_named_nil h k (l : list ref) :
  k ∉ names h l -> filter (fun e => obj_name h e = Some k) l = [].
Proof.
  intros Hk. induction l as [|e l IH]; [done|].
  rewrite filter_cons. case_decide as He.
  - exfalso. apply Hk. apply elem_of_names. exists e. split; [left|done].
  - apply IH. intros Hin. apply Hk. apply elem_of_names.
    apply elem_of_names in Hin as (r & Hr & Hn). exists r. split; [by right|done].
Qed.

Lemma filter_snoc_named h k (l : list ref) e :
  filter (fun e' => obj_name h e' = Some k) (l ++ [e]) =
  filter (fun e' => obj_name h e' = Some k) l
    ++ (if decide (obj_name h e = Some k) then [e] else []).
Proof. rewrite filter_app. f_equal. Qed.

(** ** The second loop *)

Section second_loop.
Variables (h1 : heap) (m1 : merged_dict).
Hypothesis Hnd1 : NoDup (map fst m1).
Hypothesis Hnamed1 : forall k r, dict_get m1 k = Some r -> obj_name h1 r = Some k.
Hypothesis Hscore1 : forall k r, dict_get m1 k = Some r ->
  exists d, h1 !! r = Some d /\ is_Some (count_of d "combined_score").
Hypothesis Htag1 : forall k r, dict_get m1 k = Some r ->
  exists d, h1 !! r = Some d /\ is_source_tag d = true.

Lemma loop2_inv_init : loop2_inv h1 m1 [] m1 h1.
Proof.
  constructor; try done.
  - intros e d1 He Hr. eauto.
  - intros k. unfold names. simpl. set_solver.
  - intros k r H1 H2. congruence.
  - intros k r H1 H2. congruence.
Qed.

Lemma loop2_step_hit done m h e d k r :
  loop2_inv h1 m1 done m h ->
  holds_at h1 is_db2_record e = true ->
  (forall k' r', dict_get m1 k' = Some r' -> r' <> e) ->
  h !! e = Some d -> name_of d = Some k -> readable2 d = true ->
  dict_get m k = Some r ->
  exists dr, h !! r = Some dr /\
    merge_db2_expert m e h = (Ok m, <[r := absorb dr d]> h) /\
    loop2_inv h1 m1 (done ++ [e]) m (<[r := absorb dr d]> h).
Proof.
  intros Inv Hrec Hfresh He Hn Hrd Hm.
  destruct (inv_score _ _ _ _ _ Inv k r Hm) as (dr & Hr & Hsc).
  exists dr. split; [done|]. split; [by eapply merge_db2_expert_hit|].
  set (h' := <[r := absorb dr d]> h).
  assert (Hlook : forall x, h' !! x =
            if decide (r = x) then Some (absorb dr d) else h !! x).
  { intros x. by apply heap_lookup_insert with dr. }
  assert (Hek : obj_name h1 e = Some k).
  { rewrite <- (inv_names _ _ _ _ _ Inv). apply obj_name_Some. eauto. }
  assert (Hrk : obj_name h1 r = Some k) by (by eapply inv_named).
  apply obj_name_Some in Hek as Hek'. destruct Hek' as (d1e & Hd1e & Hn1e).
  constructor.
  - apply Forall_app. split; [by eapply inv_done|]. by apply Forall_singleton.
  - intros x. rewrite <- (inv_names _ _ _ _ _ Inv).
    apply obj_name_insert with dr; [done|apply name_of_absorb].
  - intros x d1 Hx Hrx. rewrite Hlook.
    destruct (inv_readable _ _ _ _ _ Inv x d1 Hx Hrx) as (dx & Hdx & Hrdx).
    case_decide as Hrx'; [|eauto]. subst x.
    exists (absorb dr d). split; [done|]. apply readable2_absorb. congruence.
  - by eapply inv_keys_nodup.
  - intros k'. rewrite (names_snoc _ _ _ k) by done.
    rewrite (inv_keys _ _ _ _ _ Inv). rewrite elem_of_app, list_elem_of_singleton.
    split; [tauto|]. intros [?|[?| ->]]; [tauto|tauto|].
    apply (inv_keys _ _ _ _ _ Inv). apply dict_get_is_Some. eauto.
  - by eapply inv_named.
  - by eapply inv_old.
  - intros k' r' H1 H2. apply elem_of_app. left. by eapply inv_new.
  - intros k' r' Hg. rewrite Hlook. case_decide as Hrr.
    + exists (absorb dr d). split; [done|]. by apply absorb_score.
    + by eapply inv_score.
  - intros x kx Hx Hkx. rewrite (names_snoc _ _ _ k) in Hkx by done.
    rewrite Hlook. rewrite decide_False.
    + eapply inv_untouched; [done..|]. set_solver.
    + intros ->. set_solver.
  - intros x kx Hx Hkx. rewrite Hlook. rewrite decide_False.
    + by eapply inv_nontarget.
    + intros ->. congruence.
  - intros k' r' d1 Hg Hr'.
    rewrite (records_named_snoc _ _ _ _ d1e) by done.
    rewrite Hlook. pose proof (inv_hit _ _ _ _ _ Inv _ _ _ Hg Hr') as Hh.
    pose proof (inv_old _ _ _ _ _ Inv _ _ Hg) as Hg'.
    rewrite Hn1e. destruct (decide (Some k = Some k')) as [Hkk|Hkk].
    + assert (k' = k) as -> by congruence.
      assert (r' = r) as -> by congruence.
      rewrite decide_True by done. rewrite foldl_snoc.
      assert (h !! e = h1 !! e) as Heq; [|congruence].
      eapply inv_nontarget; [done..|]. rewrite Hm. intros [= ->].
      by eapply Hfresh.
    + rewrite app_nil_r. rewrite decide_False; [done|].
      intros <-. apply (inv_named _ _ _ _ _ Inv) in Hg'. congruence.
  - intros k' e' d1 Hg Hf Hd1. rewrite filter_snoc_named in Hf.
    rewrite Hek in Hf. case_decide as Hkk.
    + assert (k' = k) as -> by congruence.
      pose proof (inv_new _ _ _ _ _ Inv _ _ Hg Hm) as Hin.
      assert (r ∈ filter (fun e' => obj_name h1 e' = Some k) done) as Hrf.
      { by apply list_elem_of_filter. }
      apply list_elem_of_split in Hrf as (l1 & l2 & Hrf). rewrite Hrf in Hf.
      apply (f_equal length) in Hf. rewrite !length_app in Hf. simpl in Hf. lia.
    + rewrite app_nil_r in Hf.
      destruct (inv_miss _ _ _ _ _ Inv _ _ _ Hg Hf Hd1) as [Hh Hg'].
      split; [|done]. rewrite Hlook. rewrite decide_False; [done|].
      intros <-. apply (inv_named _ _ _ _ _ Inv) in Hg'. congruence.
  - intros k' r' Hg. rewrite Hlook. case_decide as Hrr.
    + exists (absorb dr d). split; [done|]. unfold is_source_tag.
      rewrite absorb_tag by done. apply orb_true_r.
    + by eapply inv_tag.
  - intros k' e' Hg1 Hg. rewrite Hlook.
    destruct (inv_dom _ _ _ _ _ Inv _ _ Hg1 Hg) as (d1 & dx & Hd1 & Hdx & Hdom).
    exists d1. case_decide as Hrr; [|eauto].
    exists (absorb dr d). split_and!; [done..|]. subst e'.
    assert (dx = dr) as -> by congruence.
    pose proof (inv_new _ _ _ _ _ Inv _ _ Hg1 Hg) as Hin.
    pose proof (inv_done _ _ _ _ _ Inv) as Hdone.
    rewrite Forall_forall in Hdone. apply Hdone in Hin.
    apply holds_at_spec in Hin as (d1' & Hd1' & [Hrd1 Hs1]%is_db2_record_spec).
    assert (d1' = d1) as -> by congruence.
    apply source_is_dom in Hs1. apply readable2_dom in Hrd1 as [Ht1 Hsa1].
    pose proof (absorb_dom dr d). unfold merge_fields. set_solver.
Qed.


Lemma loop2_step_miss done m h e d k :
  loop2_inv h1 m1 done m h ->
  holds_at h1 is_db2_record e = true ->
  h !! e = Some d -> name_of d = Some k -> readable2 d = true ->
  dict_get m k = None ->
  merge_db2_expert m e h = (Ok (dict_set m k e), <[e := half_score d]> h) /\
  loop2_inv h1 m1 (done ++ [e]) (dict_set m k e) (<[e := half_score d]> h).
Proof.
  intros Inv Hrec He Hn Hrd Hm.
  split; [by eapply merge_db2_expert_miss|].
  set (h' := <[e := half_score d]> h).
  assert (Hlook : forall x, h' !! x =
            if decide (e = x) then Some (half_score d) else h !! x).
  { intros x. by apply heap_lookup_insert with d. }
  assert (Hek : obj_name h1 e = Some k).
  { rewrite <- (inv_names _ _ _ _ _ Inv). apply obj_name_Some. eauto. }
  assert (Hkdone : k ∉ names h1 done).
  { intros Hin. apply dict_get_None in Hm. apply Hm.
    apply (inv_keys _ _ _ _ _ Inv). by right. }
  assert (Hk1 : dict_get m1 k = None).
  { apply dict_get_None. intros Hin. apply dict_get_None in Hm. apply Hm.
    apply (inv_keys _ _ _ _ _ Inv). by left. }
  assert (He1 : h1 !! e = Some d).
  { rewrite <- He. symmetry. by eapply inv_untouched. }
  apply holds_at_spec in Hrec as Hrec'.
  destruct Hrec' as (d' & Hd' & [_ Hsrc]%is_db2_record_spec).
  assert (d' = d) as -> by congruence. clear Hd'.
  constructor.
  - apply Forall_app. split; [by eapply inv_done|]. by apply Forall_singleton.
  - intros x. rewrite <- (inv_names _ _ _ _ _ Inv).
    apply obj_name_insert with d; [done|apply name_of_half_score].
  - intros x d1 Hx Hrx. rewrite Hlook.
    destruct (inv_readable _ _ _ _ _ Inv x d1 Hx Hrx) as (dx & Hdx & Hrdx).
    destruct (decide (e = x)) as [->|Hne]; [|eauto].
    exists (half_score d). split; [done|]. by apply readable2_half_score.
  - apply dict_set_keys_nodup. by eapply inv_keys_nodup.
  - intros k'. rewrite (names_snoc _ _ _ k) by done.
    rewrite dict_set_keys_elem, (inv_keys _ _ _ _ _ Inv).
    rewrite elem_of_app, list_elem_of_singleton. tauto.
  - intros k' r'. rewrite dict_get_set.
    destruct (decide (k = k')) as [->|Hne]; [by intros [= <-]|].
    by eapply inv_named.
  - intros k' r' Hg. rewrite dict_get_set.
    destruct (decide (k = k')) as [->|Hne]; [congruence|].
    by eapply inv_old.
  - intros k' r' Hg1. rewrite dict_get_set.
    destruct (decide (k = k')) as [->|Hne].
    + intros [= <-]. apply elem_of_app. right. apply list_elem_of_here.
    + intros Hg. apply elem_of_app. left. by eapply inv_new.
  - intros k' r'. rewrite dict_get_set, Hlook.
    destruct (decide (k = k')) as [->|Hne].
    + intros [= <-]. rewrite decide_True by done.
      exists (half_score d). split; [done|]. by apply half_score_score.
    + intros Hg. rewrite decide_False; [by eapply inv_score|].
      intros <-. apply (inv_named _ _ _ _ _ Inv) in Hg. congruence.
  - intros x kx Hx Hkx. rewrite (names_snoc _ _ _ k) in Hkx by done.
    rewrite Hlook. rewrite decide_False.
    + eapply inv_untouched; [done..|]. set_solver.
    + intros ->. set_solver.
  - intros x kx Hx. rewrite dict_get_set, Hlook.
    destruct (decide (e = x)) as [<-|Hne].
    + assert (kx = k) as -> by congruence. by rewrite decide_True.
    + intros Hg. eapply inv_nontarget; [done..|].
      destruct (decide (k = kx)) as [->|Hne']; [congruence|done].
  - intros k' r' d1 Hg Hr'.
    rewrite (records_named_snoc _ _ _ _ d) by done. rewrite Hn.
    assert (k <> k') as Hne by congruence.
    rewrite decide_False by congruence. rewrite app_nil_r, Hlook.
    rewrite decide_False; [by eapply inv_hit|].
    intros <-. apply Hnamed1 in Hg. congruence.
  - intros k' e' d1 Hg Hf Hd1. rewrite filter_snoc_named in Hf.
    rewrite Hek in Hf. rewrite dict_get_set, Hlook.
    destruct (decide (k = k')) as [<-|Hne].
    + rewrite decide_True in Hf by done.
      rewrite (filter_named_nil _ _ _ Hkdone) in Hf. simpl in Hf.
      injection Hf as <-. rewrite decide_True by done.
      split; [|done]. congruence.
    + rewrite decide_False in Hf by congruence. rewrite app_nil_r in Hf.
      destruct (inv_miss _ _ _ _ _ Inv _ _ _ Hg Hf Hd1) as [Hh Hg'].
      split; [|done]. rewrite decide_False; [done|].
      intros <-. apply (inv_named _ _ _ _ _ Inv) in Hg'. congruence.
  - intros k' r'. rewrite dict_get_set, Hlook.
    destruct (decide (k = k')) as [->|Hne].
    + intros [= <-]. rewrite decide_True by done.
      exists (half_score d). split; [done|]. unfold is_source_tag.
      rewrite !half_score_source, Hsrc. by rewrite orb_true_r.
    + intros Hg. rewrite decide_False; [by eapply inv_tag|].
      intros <-. apply (inv_named _ _ _ _ _ Inv) in Hg. congruence.
  - intros k' e' Hg1. rewrite dict_get_set, Hlook.
    destruct (decide (k = k')) as [->|Hne].
    + intros [= <-]. rewrite decide_True by done.
      exists d, (half_score d). split_and!; [done..|].
      pose proof (half_score_dom d). unfold merge_fields. set_solver.
    + intros Hg. rewrite decide_False; [by eapply inv_dom|].
      intros <-. apply (inv_named _ _ _ _ _ Inv) in Hg. congruence.
Qed.

Lemma loop2_run l : forall done m h,
  loop2_inv h1 m1 done m h ->
  Forall (fun e => holds_at h1 is_db2_record e = true) l ->
  (forall k r, dict_get m1 k = Some r -> r ∉ l) ->
  exists m' h', for_each l merge_db2_expert m h = (Ok m', h') /\
                loop2_inv h1 m1 (done ++ l) m' h'.
Proof.
  induction l as [|e l IH]; intros done m h Inv Hl Hfresh.
  - exists m, h. by rewrite app_nil_r.
  - apply Forall_cons in Hl as [He Hl].
    apply holds_at_spec in He as He'.
    destruct He' as (d1 & Hd1 & [Hrd1 _]%is_db2_record_spec).
    destruct (inv_readable _ _ _ _ _ Inv e d1 Hd1 Hrd1) as (d & Hd & Hrd).
    assert (exists k, name_of d = Some k) as [k Hk].
    { apply readable2_spec in Hrd as ([k Hk] & _). eauto. }
    assert (exists m2 h2, merge_db2_expert m e h = (Ok m2, h2) /\
              loop2_inv h1 m1 (done ++ [e]) m2 h2) as (m2 & h2 & Hrun & Inv2).
    { destruct (dict_get m k) as [r|] eqn:Hm.
      - destruct (loop2_step_hit done m h e d k r) as (dr & _ & Hrun & Inv2);
          try done.
        + intros k' r' Hg <-. apply (Hfresh _ _ Hg). apply list_elem_of_here.
        + eauto.
      - destruct (loop2_step_miss done m h e d k) as [Hrun Inv2]; try done.
        eauto. }
    destruct (IH (done ++ [e]) m2 h2 Inv2 Hl) as (m' & h' & Hrun' & Inv').
    { intros k' r' Hg Hin. apply (Hfresh _ _ Hg). by apply list_elem_of_further. }
    exists m', h'. split.
    + simpl. rewrite (bind_ok _ _ _ _ _ Hrun). done.
    + by rewrite <- app_assoc in Inv'.
Qed.
End second_loop.

(** ** Sorting *)

Lemma Qltb_lt a b : Qltb a b = true <-> (a < b)%Q.
Proof. unfold Qltb, Qlt. apply Z.ltb_lt. Qed.

Lemma insert_desc_perm {A} (x : Q * A) l : insert_desc x l ≡ₚ x :: l.
Proof.
  induction l as [|y l IH]; simpl; [done|].
  destruct (Qltb (fst x) (fst y)); [|done].
  rewrite IH. apply Permutation_swap.
Qed.

Lemma sort_desc_perm {A} (l : list (Q * A)) : sort_desc l ≡ₚ l.
Proof.
  induction l as [|x l IH]; [done|].
  unfold sort_desc in *. simpl. rewrite insert_desc_perm. by rewrite IH.
Qed.

Lemma non_increasing_inv q qs :
  non_increasing (q :: qs) -> Forall (fun q' => (q' <= q)%Q) qs /\ non_increasing qs.
Proof. by inversion 1. Qed.

Lemma insert_desc_sorted {A} (x : Q * A) l :
  non_increasing (map fst l) -> non_increasing (map fst (insert_desc x l)).
Proof.
  induction l as [|y l IH]; simpl; intros Hs.
  - constructor; [constructor|constructor].
  - apply non_increasing_inv in Hs as [Hle Hs].
    destruct (Qltb (fst x) (fst y)) eqn:Hlt; simpl.
    + apply Qltb_lt in Hlt. constructor; [|by apply IH].
      assert (Hp : map fst (insert_desc x l) ≡ₚ fst x :: map fst l).
      { change (fst x :: map fst l) with (map fst (x :: l)).
        apply fmap_Permutation, insert_desc_perm. }
      rewrite Hp. constructor; [by apply Qlt_le_weak|done].
    + assert (Hyx : (fst y <= fst x)%Q).
      { apply Qnot_lt_le. intros Hlt'%Qltb_lt. congruence. }
      constructor; [|by constructor].
      constructor; [done|].
      eapply Forall_impl; [exact Hle|]. intros q Hq. simpl in Hq.
      by apply Qle_trans with (fst y).
Qed.

Lemma sort_desc_sorted {A} (l : list (Q * A)) : non_increasing (map fst (sort_desc l)).
Proof.
  induction l as [|x l IH]; [constructor|].
  unfold sort_desc in *. simpl. by apply insert_desc_sorted.
Qed.

(** ** Reading the records back *)

Lemma map_m_deref h l :
  Forall (fun r => is_Some (h !! r)) l ->
  exists ds, map_m deref l h = (Ok ds, h) /\ Forall2 (fun r d => h !! r = Some d) l ds.
Proof.
  induction l as [|r l IH]; intros Hl.
  - exists []. split; [done|constructor].
  - apply Forall_cons in Hl as [[d Hd] Hl]. destruct (IH Hl) as (ds & Hrun & Hds).
    exists (d :: ds). split; [|by constructor].
    simpl. rewrite (bind_ok _ _ _ _ _ (deref_ok _ _ _ Hd)).
    rewrite (bind_ok _ _ _ _ _ Hrun). done.
Qed.

Lemma sort_key_ok h r d q :
  h !! r = Some d -> count_of d "combined_score" = Some q ->
  sort_key r h = (Ok q, h).
Proof.
  intros Hr Hq. unfold count_of in Hq.
  destruct (d !! "combined_score") as [v|] eqn:Hv; [|done]. simpl in Hq.
  unfold sort_key. rewrite (bind_ok _ _ _ _ _ (getitem_ok _ _ _ _ _ Hr Hv)).
  by rewrite Hq.
Qed.

Lemma map_m_sort_key h l :
  Forall (fun r => exists d, h !! r = Some d /\ is_Some (count_of d "combined_score")) l ->
  exists qs, map_m sort_key l h = (Ok qs, h) /\
    Forall2 (fun r q => exists d, h !! r = Some d /\ count_of d "combined_score" = Some q) l qs.
Proof.
  induction l as [|r l IH]; intros Hl.
  - exists []. split; [done|constructor].
  - apply Forall_cons in Hl as [(d & Hd & [q Hq]) Hl].
    destruct (IH Hl) as (qs & Hrun & Hqs).
    exists (q :: qs). split; [|constructor; eauto].
    simpl. rewrite (bind_ok _ _ _ _ _ (sort_key_ok _ _ _ _ Hd Hq)).
    rewrite (bind_ok _ _ _ _ _ Hrun). done.
Qed.

(** ** The whole call *)

Lemma is_db1_record_spec d :
  is_db1_record d = true <->
  is_Some (name_of d) /\ is_Some (count_of d "relevant_publications") /\
  source_is d "database_1" = true.
Proof.
  unfold is_db1_record. rewrite !andb_true_iff, !bool_decide_eq_true. naive_solver.
Qed.

Lemma source_is_inj d tag1 tag2 :
  source_is d tag1 = true -> source_is d tag2 = true -> tag1 = tag2.
Proof.
  unfold source_is. destruct (d !! "source") as [[]|]; try done.
  intros H1%String.eqb_eq H2%String.eqb_eq. congruence.
Qed.

Lemma count_of_is_Some d f : is_Some (count_of d f) -> is_Some (d !! f).
Proof. unfold count_of. destruct (d !! f); [eauto|by intros [? ?]]. Qed.

Lemma seed_source d tag : source_is (seed d) tag = source_is d tag.
Proof. unfold source_is. by rewrite seed_lookup_ne. Qed.

Lemma seed_score d :
  is_Some (count_of d "relevant_publications") ->
  count_of (seed d) "combined_score" = count_of d "relevant_publications".
Proof.
  intros [q Hq]. unfold seed, count_of in *.
  destruct (d !! "relevant_publications") as [p|]; [|done].
  by rewrite lookup_insert_eq.
Qed.

Lemma well_formed_spec h db1 db2 :
  well_formed h db1 db2 = true <->
  Forall (fun r => holds_at h is_db1_record r = true) db1 /\
  Forall (fun r => holds_at h is_db2_record r = true) db2.
Proof.
  unfold well_formed. rewrite andb_true_iff, !forallb_forall, !Forall_forall.
  split; intros [H1 H2]; split; intros x Hx.
  - apply H1. by apply list_elem_of_In.
  - apply H2. by apply list_elem_of_In.
  - apply H1. by apply list_elem_of_In.
  - apply H2. by apply list_elem_of_In.
Qed.

Lemma scores_of_sorted (h : heap) (sorted : list (Q * ref)) ds :
  Forall (fun qr => exists d, h !! qr.2 = Some d /\
            count_of d "combined_score" = Some qr.1) sorted ->
  Forall2 (fun r d => h !! r = Some d) (map snd sorted) ds ->
  Forall2 (fun d q => count_of d "combined_score" = Some q) ds (map fst sorted).
Proof.
  revert ds. induction sorted as [|[q r] l IH]; intros ds Hsorted Hds.
  - apply Forall2_nil_inv_l in Hds as ->. constructor.
  - apply Forall_cons in Hsorted as [(d & Hd & Hq) Hl].
    simpl in Hds. apply Forall2_cons_inv_l in Hds as (d' & ds' & Hd' & Hds' & ->).
    simpl in *. constructor; [congruence|]. by apply IH.
Qed.

Lemma merge_outcome h0 db1 db2 :
  well_formed h0 db1 db2 = true ->
  exists h1 m2 h2 out ds qs, outcome h0 db1 db2 h1 m2 h2 out ds qs.
Proof.
  intros [Hdb1 Hdb2]%well_formed_spec.
  rewrite Forall_forall in Hdb1. rewrite Forall_forall in Hdb2.
  assert (Hdisj : forall r, r ∈ db1 -> r ∈ db2 -> False).
  { intros r (d & Hd & (_ & _ & Hs1)%is_db1_record_spec)%Hdb1%holds_at_spec
             (d' & Hd' & (_ & Hs2)%is_db2_record_spec)%Hdb2%holds_at_spec.
    assert (d' = d) as -> by congruence.
    by pose proof (source_is_inj _ _ _ Hs1 Hs2). }
  destruct (loop1_run db1 [] h0) as (h1 & Hrun1 & Hh1).
  { apply Forall_forall. intros r (d & Hd & (Hn & Hp & _)%is_db1_record_spec)
      %Hdb1%holds_at_spec.
    exists d. split; [done|]. split; [done|by apply count_of_is_Some]. }
  set (m1 := seed_keys h0 [] db1) in *.
  assert (Hnames1 : forall r, obj_name h1 r = obj_name h0 r).
  { intros r. unfold obj_name. rewrite Hh1. case_decide; [|done].
    destruct (h0 !! r) as [d|]; [|done]. simpl. apply name_of_seed. }
  assert (Hm1 : forall k r, dict_get m1 k = Some r -> r ∈ db1 /\ obj_name h0 r = Some k).
  { intros k r Hg. by apply seed_keys_get in Hg as [Hg|Hg]. }
  assert (Hin1 : forall r, r ∈ db1 -> exists d, h0 !! r = Some d /\
            h1 !! r = Some (seed d) /\ is_db1_record d = true).
  { intros r Hr. pose proof Hr as (d & Hd & Hrec)%Hdb1%holds_at_spec.
    exists d. split_and!; [done| |done]. rewrite Hh1, decide_True by done.
    by rewrite Hd. }
  assert (Hnd1 : NoDup (map fst m1)).
  { apply seed_keys_nodup. constructor. }
  assert (Hnamed1 : forall k r, dict_get m1 k = Some r -> obj_name h1 r = Some k).
  { intros k r [Hr Hn]%Hm1. by rewrite Hnames1. }
  assert (Hscore1 : forall k r, dict_get m1 k = Some r ->
            exists d, h1 !! r = Some d /\ is_Some (count_of d "combined_score")).
  { intros k r [Hr Hn]%Hm1.
    destruct (Hin1 r Hr) as (d & Hd & Hd1 & (_ & Hp & _)%is_db1_record_spec).
    exists (seed d). split; [done|]. by rewrite seed_score. }
  assert (Htag1 : forall k r, dict_get m1 k = Some r ->
            exists d, h1 !! r = Some d /\ is_source_tag d = true).
  { intros k r [Hr Hn]%Hm1.
    destruct (Hin1 r Hr) as (d & Hd & Hd1 & (_ & _ & Hs)%is_db1_record_spec).
    exists (seed d). split; [done|]. unfold is_source_tag.
    by rewrite !seed_source, Hs. }
  destruct (loop2_run h1 m1 Hnd1 Hnamed1 Hscore1 Htag1 db2 [] m1 h1)
    as (m2 & h2 & Hrun2 & Inv).
  - by apply loop2_inv_init.
  - apply Forall_forall. intros e He. pose proof (Hdb2 e He) as Hrec.
    unfold holds_at in *. rewrite Hh1. rewrite decide_False; [done|].
    intros Hin. by eapply Hdisj.
  - intros k r [Hr Hn]%Hm1 Hin. by eapply Hdisj.
  - simpl in Inv.
    destruct (map_m_sort_key h2 (dict_values m2)) as (keys & Hkeys & Hscores).
    { apply Forall_forall. intros r Hr. unfold dict_values in Hr.
      apply list_elem_of_fmap in Hr as ([k r'] & -> & Hin). simpl.
      apply (inv_score _ _ _ _ _ Inv k).
      apply dict_elem_get; [by eapply inv_keys_nodup|done]. }
    set (sorted := sort_desc (zip keys (dict_values m2))).
    assert (Hlen : length keys = length (dict_values m2)).
    { symmetry. by eapply Forall2_length. }
    assert (Hsorted : Forall (fun qr => exists d, h2 !! qr.2 = Some d /\
              count_of d "combined_score" = Some qr.1) sorted).
    { unfold sorted. rewrite sort_desc_perm. apply Forall_forall.
      intros [q r] Hin. simpl. apply list_elem_of_lookup in Hin as [i Hi].
      apply lookup_zip_with_Some in Hi as (q' & r' & [= <- <-] & Hq & Hr).
      by eapply Forall2_lookup_lr in Hscores. }
    destruct (map_m_deref h2 (map snd sorted)) as (ds & Hderef & Hds).
    { apply Forall_fmap. eapply Forall_impl; [exact Hsorted|].
      intros [q r] (d & Hd & _). simpl in *. eauto. }
    exists h1, m2, h2, (map snd sorted), ds, (map fst sorted).
    assert (Hmerge : _merge_expert_results db1 db2 h0 = (Ok (map snd sorted), h2)).
    { unfold _merge_expert_results. fold m1.
      rewrite (bind_ok _ _ _ _ _ Hrun1). rewrite (bind_ok _ _ _ _ _ Hrun2).
      rewrite (bind_ok _ _ _ _ _ Hkeys). done. }
    constructor; try done.
    + unfold returned_records. rewrite (bind_ok _ _ _ _ _ Hmerge). done.
    + unfold sorted. rewrite sort_desc_perm. rewrite snd_zip; [done|].
      rewrite Hlen. done.
    + by eapply scores_of_sorted.
    + apply sort_desc_sorted.
Qed.

(** ** Entries of the returned list *)

Lemma filter_unique {A B} `{EqDecision B} (f : A -> B) (l : list A) x b :
  NoDup (f <$> l) -> x ∈ l -> f x = b -> filter (fun y => f y = b) l = [x].
Proof.
  induction l as [|y l IH]; intros Hnd Hin Hfx.
  - by apply elem_of_nil in Hin.
  - rewrite fmap_cons in Hnd. apply NoDup_cons in Hnd as [Hy Hnd].
    rewrite filter_cons. apply elem_of_cons in Hin as [->|Hin].
    + rewrite decide_True by done. f_equal.
      destruct (filter (fun y => f y = b) l) as [|z l'] eqn:Hf; [done|].
      assert (z ∈ filter (fun y => f y = b) l) as Hz by (rewrite Hf; left).
      apply list_elem_of_filter in Hz as [Hfz Hz]. exfalso. apply Hy.
      rewrite Hfx, <- Hfz. by apply list_elem_of_fmap_2.
    + rewrite decide_False; [by apply IH|].
      intros Hfy. apply Hy. rewrite Hfy, <- Hfx. by apply list_elem_of_fmap_2.
Qed.

Lemma names_of_records (h : heap) (l : list ref) (ds : list pydict) :
  Forall2 (fun r d => h !! r = Some d) l ds -> name_of <$> ds = obj_name h <$> l.
Proof.
  induction 1 as [|r d l l' Hr Hl IH]; [done|].
  rewrite !fmap_cons, IH. f_equal. unfold obj_name. by rewrite Hr.
Qed.

Lemma names_of_values (h : heap) (m : merged_dict) :
  (forall k r, (k, r) ∈ m -> obj_name h r = Some k) ->
  obj_name h <$> map snd m = Some <$> map fst m.
Proof.
  induction m as [|[k r] m IH]; intros Hm; [done|]. simpl.
  rewrite (Hm k r) by left. f_equal. apply IH.
  intros k' r' Hin. apply Hm. by right.
Qed.

Section outcome.
Context {h0 : heap} {db1 db2 : list ref} {h1 : heap} {m2 : merged_dict}
  {h2 : heap} {out : list ref} {ds : list pydict} {qs : list Q}.
Hypothesis Hout : outcome h0 db1 db2 h1 m2 h2 out ds qs.

Lemma outcome_target_name k r : dict_get m2 k = Some r -> obj_name h2 r = Some k.
Proof.
  pose proof (out_inv _ _ _ _ _ _ _ _ _ Hout) as Inv.
  intros Hg. rewrite (inv_names _ _ _ _ _ Inv). by eapply inv_named.
Qed.

Lemma outcome_names : name_of <$> ds ≡ₚ Some <$> (map fst m2).
Proof.
  pose proof (out_inv _ _ _ _ _ _ _ _ _ Hout) as Inv.
  rewrite (names_of_records h2 out ds) by apply Hout.
  rewrite (out_perm _ _ _ _ _ _ _ _ _ Hout).
  rewrite (names_of_values h2 m2); [done|].
  intros k r Hin. apply outcome_target_name.
  apply dict_elem_get; [by eapply inv_keys_nodup|done].
Qed.

Lemma outcome_names_nodup : NoDup (name_of <$> ds).
Proof.
  pose proof (out_inv _ _ _ _ _ _ _ _ _ Hout) as Inv.
  rewrite outcome_names. apply NoDup_fmap; [apply _|]. by eapply inv_keys_nodup.
Qed.

Lemma outcome_length : length ds = length m2.
Proof.
  pose proof (out_inv _ _ _ _ _ _ _ _ _ Hout) as Inv.
  rewrite <- (length_fmap name_of ds), outcome_names. by rewrite !length_fmap.
Qed.

Lemma outcome_entry k r :
  dict_get m2 k = Some r ->
  exists d, h2 !! r = Some d /\ name_of d = Some k /\ named k ds = [d].
Proof.
  pose proof (out_inv _ _ _ _ _ _ _ _ _ Hout) as Inv.
  intros Hg. assert (r ∈ out) as Hin.
  { rewrite (out_perm _ _ _ _ _ _ _ _ _ Hout).
    apply dict_get_elem in Hg. change r with (snd (k, r)).
    by apply list_elem_of_fmap_2. }
  apply list_elem_of_lookup in Hin as [i Hi].
  pose proof (out_deref _ _ _ _ _ _ _ _ _ Hout) as Hd.
  destruct (Forall2_lookup_l _ _ _ _ _ Hd Hi) as (d & Hdi & Hrd).
  exists d. pose proof (outcome_target_name _ _ Hg) as Hn.
  apply obj_name_Some in Hn as (d' & Hd' & Hn).
  assert (d' = d) as -> by congruence.
  split_and!; [done..|]. unfold named.
  apply filter_unique; [apply outcome_names_nodup| |done].
  by eapply list_elem_of_lookup_2.
Qed.

Lemma outcome_entry_inv d :
  d ∈ ds -> exists k r, dict_get m2 k = Some r /\ h2 !! r = Some d.
Proof.
  pose proof (out_inv _ _ _ _ _ _ _ _ _ Hout) as Inv.
  intros Hin. apply list_elem_of_lookup in Hin as [i Hi].
  pose proof (out_deref _ _ _ _ _ _ _ _ _ Hout) as Hd.
  destruct (Forall2_lookup_r _ _ _ _ _ Hd Hi) as (r & Hri & Hrd).
  assert (r ∈ map snd m2) as Hr.
  { rewrite <- (out_perm _ _ _ _ _ _ _ _ _ Hout). by eapply list_elem_of_lookup_2. }
  apply list_elem_of_fmap in Hr as ([k r'] & -> & Hkr). simpl in *.
  exists k, r'. split; [|done].
  apply dict_elem_get; [by eapply inv_keys_nodup|done].
Qed.

Lemma outcome_names1 r : obj_name h1 r = obj_name h0 r.
Proof.
  pose proof (out_inv _ _ _ _ _ _ _ _ _ Hout) as Inv.
  unfold obj_name. rewrite (out_h1 _ _ _ _ _ _ _ _ _ Hout). case_decide; [|done].
  destruct (h0 !! r) as [d|]; [|done]. simpl. apply name_of_seed.
Qed.

Lemma outcome_keys k : k ∈ map fst m2 <-> k ∈ names h0 db1 \/ k ∈ names h0 db2.
Proof.
  pose proof (out_inv _ _ _ _ _ _ _ _ _ Hout) as Inv.
  rewrite (inv_keys _ _ _ _ _ Inv). rewrite seed_keys_elem. simpl.
  assert (Hn : forall l, names h1 l = names h0 l).
  { intros l. unfold names. induction l as [|r l IH]; [done|].
    cbn [omap list_omap]. by rewrite outcome_names1, IH. }
  rewrite Hn. set_solver.
Qed.
End outcome.

(** ** A record of database 1 after several records of database 2 *)

Lemma absorb_lookup_pubs dr de :
  absorb dr de !! "relevant_publications" = dr !! "relevant_publications".
Proof. unfold absorb. repeat case_match; try done. by rewrite !lookup_insert_ne. Qed.

Lemma foldl_absorb_pubs l : forall d1,
  foldl absorb d1 l !! "relevant_publications" = d1 !! "relevant_publications".
Proof.
  induction l as [|e l IH]; intros d1; [done|]. simpl.
  by rewrite IH, absorb_lookup_pubs.
Qed.

Lemma absorb_keeps_tag dr de :
  source_is dr "both_databases" = true ->
  source_is (absorb dr de) "both_databases" = true.
Proof.
  intros Hs. unfold absorb. repeat case_match; try done. apply source_is_insert.
Qed.

Lemma foldl_absorb_tag l : forall d1,
  source_is d1 "both_databases" = true ->
  source_is (foldl absorb d1 l) "both_databases" = true.
Proof.
  induction l as [|e l IH]; intros d1 Hs; [done|]. simpl.
  by apply IH, absorb_keeps_tag.
Qed.

Lemma absorb_float dr de q :
  readable2 de = true -> dr !! "combined_score" = Some (VFloat q) ->
  exists qt, count_of de "relevant_theses" = Some qt /\
    absorb dr de !! "combined_score" = Some (VFloat (q + qt * half)%Q).
Proof.
  intros Hr Hq.
  destruct (absorb_readable_eq dr de Hr)
    as (roles & t & samples & qt & qs & _ & _ & _ & _ & Hc & Hqs & ->).
  { unfold count_of. rewrite Hq. simpl. eauto. }
  exists qt. split; [done|]. rewrite lookup_insert_ne by done.
  rewrite lookup_insert_eq. unfold count_of in Hqs. rewrite Hq in Hqs.
  simpl in Hqs. by injection Hqs as ->.
Qed.

Lemma foldl_absorb_float l : forall d1 q,
  Forall (fun d => readable2 d = true) l ->
  d1 !! "combined_score" = Some (VFloat q) ->
  foldl absorb d1 l !! "combined_score" =
  Some (VFloat (accumulate q (omap (fun d => count_of d "relevant_theses") l))).
Proof.
  induction l as [|e l IH]; intros d1 q Hl Hq; [done|].
  apply Forall_cons in Hl as [He Hl].
  destruct (absorb_float d1 e q He Hq) as (qt & Hqt & Hq').
  simpl. rewrite (IH _ _ Hl Hq'). cbn [omap list_omap]. rewrite Hqt. done.
Qed.

Lemma foldl_absorb_score e l d1 q :
  Forall (fun d => readable2 d = true) (e :: l) ->
  count_of d1 "combined_score" = Some q ->
  foldl absorb d1 (e :: l) !! "combined_score" =
  Some (VFloat (accumulate q (omap (fun d => count_of d "relevant_theses") (e :: l))))
  /\ source_is (foldl absorb d1 (e :: l)) "both_databases" = true.
Proof.
  intros [He Hl]%Forall_cons Hq.
  destruct (absorb_readable_eq d1 e He)
    as (roles & t & samples & qt & qs & _ & _ & _ & _ & Hc & Hqs & Heq); [eauto|].
  assert (qs = q) as -> by congruence.
  assert (Hcs : absorb d1 e !! "combined_score" = Some (VFloat (q + qt * half)%Q)).
  { rewrite Heq. rewrite lookup_insert_ne by done. by rewrite lookup_insert_eq. }
  split.
  - simpl. rewrite (foldl_absorb_float _ _ _ Hl Hcs).
    cbn [omap list_omap]. rewrite Hc. done.
  - simpl. apply foldl_absorb_tag. by apply absorb_tag; eauto.
Qed.

Lemma accumulate_sum ts : forall p,
  (accumulate p ts == p + half * Qsum ts)%Q.
Proof.
  induction ts as [|t ts IH]; intros p; simpl.
  - unfold accumulate, Qsum. simpl. ring.
  - unfold accumulate in *. simpl. rewrite IH. unfold Qsum. simpl. ring.
Qed.

Lemma theses_of_records h k l :
  theses_named h k l =
  omap (fun d => count_of d "relevant_theses") (records_named h k l).
Proof.
  unfold theses_named, records_named. induction l as [|e l IH]; [done|].
  cbn [omap list_omap]. rewrite IH.
  destruct (h !! e) as [d|]; simpl; [|done].
  case_decide; [|done]. simpl. by destruct (count_of d "relevant_theses").
Qed.

(** ** Well-formed arguments *)

Section well_formed.
Context {h0 : heap} {db1 db2 : list ref} {h1 : heap} {m2 : merged_dict}
  {h2 : heap} {out : list ref} {ds : list pydict} {qs : list Q}.
Hypothesis Hwf : well_formed h0 db1 db2 = true.
Hypothesis Hout : outcome h0 db1 db2 h1 m2 h2 out ds qs.

Lemma wf_db1 r :
  r ∈ db1 -> exists d, h0 !! r = Some d /\ h1 !! r = Some (seed d) /\
                       is_db1_record d = true.
Proof.
  intros Hr. apply well_formed_spec in Hwf as [H1 _].
  rewrite Forall_forall in H1. apply H1 in Hr as Hd.
  apply holds_at_spec in Hd as (d & Hd & Hrec). exists d.
  split_and!; [done| |done].
  rewrite (out_h1 _ _ _ _ _ _ _ _ _ Hout), decide_True by done. by rewrite Hd.
Qed.

Lemma wf_db2 e :
  e ∈ db2 -> exists d, h0 !! e = Some d /\ h1 !! e = Some d /\
                       is_db2_record d = true.
Proof.
  intros He. pose proof Hwf as [H1 H2]%well_formed_spec.
  rewrite Forall_forall in H2. apply H2 in He as Hd.
  apply holds_at_spec in Hd as (d & Hd & Hrec). exists d.
  split_and!; [done| |done].
  rewrite (out_h1 _ _ _ _ _ _ _ _ _ Hout), decide_False; [done|].
  intros (d' & Hd' & _ & (_ & _ & Hs1)%is_db1_record_spec)%wf_db1.
  assert (d' = d) as -> by congruence.
  apply is_db2_record_spec in Hrec as [_ Hs2].
  by pose proof (source_is_inj _ _ _ Hs1 Hs2).
Qed.

Lemma wf_records_named k : records_named h1 k db2 = records_named h0 k db2.
Proof.
  unfold records_named.
  assert (forall l : list ref, (forall e, e ∈ l -> e ∈ db2) ->
    omap (fun e => h1 !! e ≫= fun d =>
            if decide (name_of d = Some k) then Some d else None) l =
    omap (fun e => h0 !! e ≫= fun d =>
            if decide (name_of d = Some k) then Some d else None) l) as H.
  { induction l as [|e l IH]; intros Hl; [done|]. cbn [omap list_omap].
    destruct (wf_db2 e) as (d & Hd0 & Hd1 & _); [apply Hl; left|].
    rewrite Hd0, Hd1, IH; [done|]. intros e' He'. apply Hl. by right. }
  by apply H.
Qed.

Lemma wf_records_readable k :
  Forall (fun d => readable2 d = true) (records_named h0 k db2).
Proof.
  apply Forall_forall. intros d Hd. unfold records_named in Hd.
  apply list_elem_of_omap in Hd as (e & He & Hd).
  destruct (wf_db2 e He) as (d' & Hd0 & _ & [Hr _]%is_db2_record_spec).
  rewrite Hd0 in Hd. simpl in Hd. case_decide; [|done]. by injection Hd as <-.
Qed.

Lemma wf_target1 k :
  k ∈ names h0 db1 ->
  exists r d0, dict_get (seed_keys h0 [] db1) k = Some r /\ r ∈ db1 /\
    h0 !! r = Some d0 /\ h1 !! r = Some (seed d0) /\ name_of d0 = Some k /\
    is_db1_record d0 = true.
Proof.
  intros Hk.
  assert (is_Some (dict_get (seed_keys h0 [] db1) k)) as [r Hg].
  { apply dict_get_is_Some, seed_keys_elem. by right. }
  pose proof Hg as Hg'. apply seed_keys_get in Hg' as [?|[Hr Hn]]; [done|].
  destruct (wf_db1 r Hr) as (d0 & Hd0 & Hd1 & Hrec).
  exists r, d0. split_and!; try done.
  apply obj_name_Some in Hn as (d' & Hd' & Hn). congruence.
Qed.

Lemma wf_absent1 k :
  k ∉ names h0 db1 -> dict_get (seed_keys h0 [] db1) k = None.
Proof.
  intros Hk. apply dict_get_None. rewrite seed_keys_elem. simpl.
  intros [?|?]; [by eapply elem_of_nil|done].
Qed.

Lemma wf_names1 l : names h1 l = names h0 l.
Proof.
  unfold names. induction l as [|r l IH]; [done|].
  cbn [omap list_omap]. by rewrite (outcome_names1 Hout), IH.
Qed.
End well_formed.

Lemma wf_names_length h db1 db2 :
  well_formed h db1 db2 = true ->
  length (names h db1) = length db1 /\ length (names h db2) = length db2.
Proof.
  intros [H1 H2]%well_formed_spec.
  assert (Hgen : forall (P : pydict -> bool) (l : list ref),
            (forall d, P d = true -> is_Some (name_of d)) ->
            Forall (fun r => holds_at h P r = true) l -> length (names h l) = length l).
  { intros P l HP. induction 1 as [|r l Hr Hl IH]; [done|].
    apply holds_at_spec in Hr as (d & Hd & [k Hk]%HP).
    rewrite (names_cons _ _ _ k); [simpl; by rewrite IH|].
    apply obj_name_Some. eauto. }
  split; eapply Hgen; try done.
  - by intros d (? & _)%is_db1_record_spec.
  - intros d [(? & _)%readable2_spec _]%is_db2_record_spec. done.
Qed.

Lemma merge_returns h db1 db2 :
  well_formed h db1 db2 = true ->
  exists ds, fst (returned_records db1 db2 h) = Ok ds.
Proof.
  intros (h1 & m2 & h2 & out & ds & qs & Hout)%merge_outcome.
  exists ds. by rewrite (out_records _ _ _ _ _ _ _ _ _ Hout).
Qed.

(** ** Inverting a call that returned *)

Lemma map_m_sort_key_inv l : forall h qs h',
  map_m sort_key l h = (Ok qs, h') ->
  h' = h /\
  Forall2 (fun r q => exists d, h !! r = Some d /\ count_of d "combined_score" = Some q) l qs.
Proof.
  induction l as [|r l IH]; intros h qs h' Hrun.
  - injection Hrun as <- <-. split; [done|constructor].
  - simpl in Hrun. unfold bind at 1 in Hrun.
    destruct (sort_key r h) as [[q|e] h1] eqn:Hk; [|done].
    unfold sort_key, bind, getitem in Hk.
    destruct (h !! r) as [d|] eqn:Hr; [|done].
    destruct (d !! "combined_score") as [v|] eqn:Hv; [|done].
    destruct (number v) as [q'|] eqn:Hq; [|done].
    injection Hk as <- <-.
    unfold bind at 1 in Hrun.
    destruct (map_m sort_key l h) as [[qs'|e] h2] eqn:Hl; [|done].
    injection Hrun as <- <-. apply IH in Hl as [-> Hl].
    split; [done|]. constructor; [|done].
    exists d. split; [done|]. unfold count_of. by rewrite Hv.
Qed.

Lemma map_m_deref_inv l : forall (h : heap) ds h',
  map_m deref l h = (Ok ds, h') ->
  h' = h /\ Forall2 (fun r d => h !! r = Some d) l ds.
Proof.
  induction l as [|r l IH]; intros h ds h' Hrun.
  - injection Hrun as <- <-. split; [done|constructor].
  - simpl in Hrun. unfold bind at 1 in Hrun. unfold deref at 1 in Hrun.
    destruct (h !! r) as [d|] eqn:Hr; [|done].
    unfold bind at 1 in Hrun.
    destruct (map_m deref l h) as [[ds'|e] h2] eqn:Hl; [|done].
    injection Hrun as <- <-. apply IH in Hl as [-> Hl].
    split; [done|]. by constructor.
Qed.

Lemma sorted_scores (h : heap) (values : list ref) keys ds :
  Forall2 (fun r q => exists d, h !! r = Some d /\ count_of d "combined_score" = Some q)
    values keys ->
  Forall2 (fun r d => h !! r = Some d) (map snd (sort_desc (zip keys values))) ds ->
  Forall2 (fun d q => count_of d "combined_score" = Some q) ds
    (map fst (sort_desc (zip keys values))).
Proof.
  intros Hscores Hds. eapply scores_of_sorted; [|done].
  rewrite sort_desc_perm. apply Forall_forall.
  intros [q r] Hin. simpl. apply list_elem_of_lookup in Hin as [i Hi].
  apply lookup_zip_with_Some in Hi as (q' & r' & [= <- <-] & Hq & Hr).
  by eapply Forall2_lookup_lr in Hscores.
Qed.

Lemma returned_records_sorted db1 db2 h ds h' :
  returned_records db1 db2 h = (Ok ds, h') ->
  exists qs, Forall2 (fun d q => count_of d "combined_score" = Some q) ds qs /\
             non_increasing qs.
Proof.
  unfold returned_records, _merge_expert_results. intros Hrun.
  unfold bind at 1 in Hrun. unfold bind at 1 in Hrun.
  destruct (for_each db1 add_db1_expert [] h) as [[m1|e] h1]; [|done].
  unfold bind at 1 in Hrun.
  destruct (for_each db2 merge_db2_expert m1 h1) as [[m2|e] h2]; [|done].
  unfold bind at 1 in Hrun.
  destruct (map_m sort_key (dict_values m2) h2) as [[keys|e] h3] eqn:Hkeys; [|done].
  apply map_m_sort_key_inv in Hkeys as [-> Hscores].
  unfold ret at 1 in Hrun.
  apply map_m_deref_inv in Hrun as [-> Hds].
  exists (map fst (sort_desc (zip keys (dict_values m2)))).
  split; [by eapply sorted_scores|apply sort_desc_sorted].
Qed.

(** ** Names found in one list only, or in both *)

Lemma records_named_nil h k (l : list ref) :
  Forall (fun e => is_Some (h !! e)) l ->
  records_named h k l = [] -> k ∉ names h l.
Proof.
  induction l as [|e l IH]; intros Hl Hnil; [apply not_elem_of_nil|].
  apply Forall_cons in Hl as [[d Hd] Hl].
  unfold records_named in Hnil. cbn [omap list_omap] in Hnil.
  rewrite Hd in Hnil. simpl in Hnil.
  destruct (decide (name_of d = Some k)) as [Hn|Hn]; [done|].
  unfold names. cbn [omap list_omap]. unfold obj_name at 1. rewrite Hd. simpl.
  destruct (name_of d) as [k'|] eqn:Hk'.
  - apply not_elem_of_cons. split; [congruence|]. by apply IH.
  - by apply IH.
Qed.

Lemma records_named_none h k (l : list ref) :
  filter (fun e' => obj_name h e' = Some k) l = [] -> records_named h k l = [].
Proof.
  induction l as [|e l IH]; intros Hf; [done|].
  rewrite filter_cons in Hf. case_decide as He; [done|].
  unfold records_named. cbn [omap list_omap]. fold (records_named h k l).
  rewrite (IH Hf). unfold obj_name in He.
  destruct (h !! e) as [d|]; simpl in *; [|done].
  by rewrite decide_False.
Qed.

Lemma records_named_once h k (l : list ref) e d2 :
  filter (fun e' => obj_name h e' = Some k) l = [e] ->
  h !! e = Some d2 -> records_named h k l = [d2].
Proof.
  induction l as [|e' l IH]; intros Hf Hd2; [done|].
  rewrite filter_cons in Hf. unfold records_named. cbn [omap list_omap].
  fold (records_named h k l). case_decide as He.
  - injection Hf as -> Hf. rewrite (records_named_none _ _ _ Hf).
    unfold obj_name in He. rewrite Hd2 in *. simpl in *.
    by rewrite decide_True.
  - rewrite (IH Hf Hd2). unfold obj_name in He.
    destruct (h !! e') as [d|]; simpl in *; [|done].
    by rewrite decide_False.
Qed.

Section entries.
Context {h0 : heap} {db1 db2 : list ref} {h1 : heap} {m2 : merged_dict}
  {h2 : heap} {out : list ref} {ds : list pydict} {qs : list Q}.
Hypothesis Hwf : well_formed h0 db1 db2 = true.
Hypothesis Hout : outcome h0 db1 db2 h1 m2 h2 out ds qs.

Lemma entry_both k :
  k ∈ names h0 db1 -> k ∈ names h0 db2 ->
  exists d r d0 p,
    named k ds = [d] /\ r ∈ db1 /\ h0 !! r = Some d0 /\ name_of d0 = Some k /\
    d0 !! "relevant_publications" = d !! "relevant_publications" /\
    count_of d "relevant_publications" = Some p /\
    source_is d "both_databases" = true /\
    d !! "combined_score" =
      Some (VFloat (accumulate p (theses_named h0 k db2))).
Proof.
  pose proof (out_inv _ _ _ _ _ _ _ _ _ Hout) as Inv.
  intros Hk1 Hk2.
  destruct (wf_target1 Hwf Hout k Hk1) as (r & d0 & Hg1 & Hr & Hd0 & Hd1 & Hn0 & Hrec).
  pose proof (inv_old _ _ _ _ _ Inv _ _ Hg1) as Hg2.
  destruct (outcome_entry Hout k r Hg2) as (d & Hd & Hn & Hnamed).
  pose proof (inv_hit _ _ _ _ _ Inv _ _ _ Hg1 Hd1) as Hhit.
  rewrite (wf_records_named Hwf Hout) in Hhit.
  apply is_db1_record_spec in Hrec as (_ & [p Hp] & Hs1).
  assert (Hseed : count_of (seed d0) "combined_score" = Some p).
  { rewrite seed_score; [done|eauto]. }
  assert (d = foldl absorb (seed d0) (records_named h0 k db2)) as Heq by congruence.
  destruct (records_named h0 k db2) as [|e l] eqn:Hrecs.
  { exfalso. eapply records_named_nil; [|exact Hrecs|exact Hk2].
    apply Forall_forall. intros e He.
    destruct (wf_db2 Hwf Hout e He) as (de & Hde & _). eauto. }
  destruct (foldl_absorb_score e l (seed d0) p) as [Hcs Hsrc]; [|done|].
  { rewrite <- Hrecs. apply (wf_records_readable Hwf Hout). }
  assert (Hpubs : d !! "relevant_publications" = d0 !! "relevant_publications").
  { rewrite Heq, foldl_absorb_pubs. by apply seed_lookup_ne. }
  exists d, r, d0, p. split_and!; try done.
  - unfold count_of. rewrite Hpubs. exact Hp.
  - by rewrite Heq.
  - rewrite theses_of_records, Hrecs, Heq. exact Hcs.
Qed.

Lemma entry_both_once k e :
  k ∈ names h0 db1 ->
  filter (fun e' => obj_name h0 e' = Some k) db2 = [e] ->
  exists d p d2 t,
    named k ds = [d] /\
    count_of d "relevant_publications" = Some p /\
    h0 !! e = Some d2 /\
    count_of d2 "relevant_theses" = Some t /\
    count_of d "relevant_theses" = Some t /\
    d !! "combined_score" = Some (VFloat (p + t * half)%Q).
Proof.
  pose proof (out_inv _ _ _ _ _ _ _ _ _ Hout) as Inv.
  intros Hk1 Hf.
  assert (e ∈ db2) as He.
  { assert (e ∈ filter (fun e' => obj_name h0 e' = Some k) db2) as Hin
      by (rewrite Hf; left).
    apply list_elem_of_filter in Hin. tauto. }
  destruct (wf_db2 Hwf Hout e He) as (d2 & Hd2 & _ & [Hrd2 _]%is_db2_record_spec).
  destruct (wf_target1 Hwf Hout k Hk1) as (r & d0 & Hg1 & Hr & Hd0 & Hd1 & Hn0 & Hrec).
  pose proof (inv_old _ _ _ _ _ Inv _ _ Hg1) as Hg2.
  destruct (outcome_entry Hout k r Hg2) as (d & Hd & Hn & Hnamed).
  pose proof (inv_hit _ _ _ _ _ Inv _ _ _ Hg1 Hd1) as Hhit.
  rewrite (wf_records_named Hwf Hout) in Hhit.
  rewrite (records_named_once _ _ _ _ _ Hf Hd2) in Hhit. simpl in Hhit.
  apply is_db1_record_spec in Hrec as (_ & [p Hp] & Hs1).
  assert (d = absorb (seed d0) d2) as -> by congruence.
  destruct (absorb_readable_eq (seed d0) d2 Hrd2)
    as (roles & th & samples & qt & q0 & _ & Hth & _ & Hqt & Hct & Hq0 & Heq).
  { rewrite seed_score; eauto. }
  rewrite seed_score in Hq0 by eauto.
  assert (q0 = p) as -> by congruence.
  exists (absorb (seed d0) d2), p, d2, qt. split_and!; try done.
  - unfold count_of. rewrite absorb_lookup_pubs, seed_lookup_ne by done. exact Hp.
  - rewrite Heq. unfold count_of. rewrite !lookup_insert_ne by done.
    rewrite lookup_insert_eq. simpl. exact Hqt.
  - rewrite Heq. rewrite lookup_insert_ne by done. by rewrite lookup_insert_eq.
Qed.

Lemma entry_db1_only k :
  k ∈ names h0 db1 -> k ∉ names h0 db2 ->
  exists d r d0 p,
    named k ds = [d] /\ r ∈ db1 /\ h0 !! r = Some d0 /\ name_of d0 = Some k /\
    d0 !! "relevant_publications" = Some p /\
    d = <["combined_score" := p]> d0 /\
    source_is d0 "database_1" = true.
Proof.
  pose proof (out_inv _ _ _ _ _ _ _ _ _ Hout) as Inv.
  intros Hk1 Hk2.
  destruct (wf_target1 Hwf Hout k Hk1) as (r & d0 & Hg1 & Hr & Hd0 & Hd1 & Hn0 & Hrec).
  pose proof (inv_old _ _ _ _ _ Inv _ _ Hg1) as Hg2.
  destruct (outcome_entry Hout k r Hg2) as (d & Hd & Hn & Hnamed).
  assert (h2 !! r = h1 !! r) as Hsame.
  { eapply (inv_untouched _ _ _ _ _ Inv r k).
    - rewrite (outcome_names1 Hout). apply obj_name_Some. eauto.
    - by rewrite (wf_names1 Hout). }
  apply is_db1_record_spec in Hrec as (_ & Hp & Hs1).
  apply count_of_is_Some in Hp as [p Hp].
  exists d, r, d0, p. split_and!; try done.
  assert (d = seed d0) as -> by congruence.
  unfold seed. by rewrite Hp.
Qed.

Lemma entry_db2_once k e :
  k ∉ names h0 db1 ->
  filter (fun e' => obj_name h0 e' = Some k) db2 = [e] ->
  exists d d0 t,
    named k ds = [d] /\ h0 !! e = Some d0 /\ name_of d0 = Some k /\
    count_of d0 "relevant_theses" = Some t /\
    d = <["combined_score" := VFloat (t * half)%Q]> d0 /\
    source_is d0 "database_2" = true.
Proof.
  pose proof (out_inv _ _ _ _ _ _ _ _ _ Hout) as Inv.
  intros Hk1 Hf.
  assert (e ∈ db2 /\ obj_name h0 e = Some k) as [He Hek].
  { assert (e ∈ filter (fun e' => obj_name h0 e' = Some k) db2) as Hin
      by (rewrite Hf; left).
    apply list_elem_of_filter in Hin. tauto. }
  destruct (wf_db2 Hwf Hout e He) as (d0 & Hd0 & Hd1 & Hrec).
  assert (Hf1 : filter (fun e' => obj_name h1 e' = Some k) db2 = [e]).
  { rewrite <- Hf. apply list_filter_iff. intros x.
    by rewrite (outcome_names1 Hout). }
  destruct (inv_miss _ _ _ _ _ Inv k e d0 (wf_absent1 k Hk1) Hf1 Hd1) as [Hh Hg2].
  destruct (outcome_entry Hout k e Hg2) as (d & Hd & Hn & Hnamed).
  apply is_db2_record_spec in Hrec as [Hrd Hs2].
  pose proof Hrd as (_ & _ & [t Ht] & _)%readable2_spec.
  exists d, d0, t. split_and!; try done.
  - apply obj_name_Some in Hek as (d' & Hd' & Hn'). congruence.
  - assert (d = half_score d0) as -> by congruence.
    unfold half_score. by rewrite Ht.
Qed.

Lemma entry_db2_only k :
  k ∉ names h0 db1 -> k ∈ names h0 db2 ->
  exists d e d0,
    named k ds = [d] /\ e ∈ db2 /\ h0 !! e = Some d0 /\ name_of d0 = Some k /\
    dom d ⊆ dom d0 ∪ merge_fields.
Proof.
  pose proof (out_inv _ _ _ _ _ _ _ _ _ Hout) as Inv.
  intros Hk1 Hk2.
  assert (is_Some (dict_get m2 k)) as [e Hg2].
  { apply dict_get_is_Some, (outcome_keys Hout). by right. }
  pose proof (wf_absent1 (h0 := h0) (db1 := db1) k Hk1) as Hg1.
  pose proof (inv_new _ _ _ _ _ Inv _ _ Hg1 Hg2) as He.
  destruct (inv_dom _ _ _ _ _ Inv _ _ Hg1 Hg2) as (d1 & d & Hd1 & Hd & Hdom).
  destruct (wf_db2 Hwf Hout e He) as (d0 & Hd0 & Hd1' & Hrec).
  assert (d1 = d0) as -> by congruence.
  destruct (outcome_entry Hout k e Hg2) as (d' & Hd' & Hn & Hnamed).
  assert (d' = d) as -> by congruence.
  exists d, e, d0. split_and!; try done.
  pose proof (outcome_target_name Hout _ _ Hg2) as Hname.
  rewrite (inv_names _ _ _ _ _ Inv), (outcome_names1 Hout) in Hname.
  apply obj_name_Some in Hname as (d'' & Hd'' & Hn''). congruence.
Qed.

Lemma entries_scored :
  Forall (fun d => is_Some (count_of d "combined_score") /\
                   is_source_tag d = true) ds.
Proof.
  pose proof (out_inv _ _ _ _ _ _ _ _ _ Hout) as Inv.
  apply Forall_forall. intros d Hd.
  destruct (outcome_entry_inv Hout d Hd) as (k & r & Hg & Hr).
  destruct (inv_score _ _ _ _ _ Inv _ _ Hg) as (d1 & Hd1 & Hsc).
  destruct (inv_tag _ _ _ _ _ Inv _ _ Hg) as (d2 & Hd2 & Htag).
  assert (d1 = d) as -> by congruence. assert (d2 = d) as -> by congruence.
  done.
Qed.

Lemma entries_length :
  length ds = length (remove_dups (names h0 db1 ++ names h0 db2)) /\
  length ds <= length db1 + length db2 /\
  (NoDup (names h0 db1) -> NoDup (names h0 db2) ->
   Nat.max (length db1) (length db2) <= length ds).
Proof.
  pose proof (out_inv _ _ _ _ _ _ _ _ _ Hout) as Inv.
  pose proof (wf_names_length _ _ _ Hwf) as [Hl1 Hl2].
  assert (Hkeys : map fst m2 ≡ₚ remove_dups (names h0 db1 ++ names h0 db2)).
  { apply NoDup_Permutation; [by eapply inv_keys_nodup|apply NoDup_remove_dups|].
    intros k. rewrite (outcome_keys Hout), elem_of_remove_dups, elem_of_app. done. }
  assert (Hlen : length ds = length (map fst m2)).
  { rewrite (outcome_length Hout). by rewrite length_map. }
  assert (Hsub : forall l : list key, NoDup l -> (forall k, k ∈ l -> k ∈ map fst m2) ->
            length l <= length ds).
  { intros l Hnd Hin. rewrite Hlen. apply submseteq_length.
    by apply NoDup_submseteq. }
  split_and!.
  - by rewrite Hlen, Hkeys.
  - rewrite Hlen, Hkeys. rewrite <- Hl1, <- Hl2, <- length_app.
    apply submseteq_length, NoDup_submseteq; [apply NoDup_remove_dups|].
    intros x. by rewrite elem_of_remove_dups.
  - intros Hnd1 Hnd2. apply Nat.max_lub.
    + rewrite <- Hl1. apply Hsub; [done|]. intros k Hk.
      apply (outcome_keys Hout). by left.
    + rewrite <- Hl2. apply Hsub; [done|]. intros k Hk.
      apply (outcome_keys Hout). by right.
Qed.
End entries.

(** * The claims about [_merge_expert_results] *)

(** C1, as amended.  For well-formed argument lists, a name found in both
    lists has exactly one entry in the returned list.  Its source tag is
    "both_databases" and its relevant-publication count [p] is that of a
    record of the first list with that name.  When the name occurs once in
    the second list, with relevant-theses count [t], the entry carries that
    count and its combined score is [p + 0.5 * t]. *)
Theorem merge_name_in_both (h : heap) (db1 db2 : list ref) (k : key) :
  well_formed h db1 db2 = true ->
  k ∈ names h db1 -> k ∈ names h db2 ->
  exists ds d p,
    fst (returned_records db1 db2 h) = Ok ds /\
    named k ds = [d] /\
    source_is d "both_databases" = true /\
    count_of d "relevant_publications" = Some p /\
    (exists r d0, r ∈ db1 /\ h !! r = Some d0 /\ name_of d0 = Some k /\
       d0 !! "relevant_publications" = d !! "relevant_publications") /\
    (forall e, filter (fun e' => obj_name h e' = Some k) db2 = [e] ->
       exists d2 t,
         h !! e = Some d2 /\
         count_of d2 "relevant_theses" = Some t /\
         count_of d "relevant_theses" = Some t /\
         d !! "combined_score" = Some (VFloat (p + t * half)%Q)).
Proof.
  intros Hwf Hk1 Hk2.
  destruct (merge_outcome _ _ _ Hwf) as (h1 & m2 & h2 & out & ds & qs & Hout).
  destruct (entry_both Hwf Hout k Hk1 Hk2)
    as (d & r & d0 & p & Hnamed & Hr & Hd0 & Hn0 & Hpubs & Hp & Hsrc & Hcs).
  exists ds, d, p. split_and!; try done.
  - by rewrite (out_records _ _ _ _ _ _ _ _ _ Hout).
  - eauto 10.
  - intros e He.
    destruct (entry_both_once Hwf Hout k e Hk1 He)
      as (d' & p' & d2 & t & Hnamed' & Hp' & Hd2 & Ht2 & Ht & Hcs').
    assert (d' = d) as -> by congruence.
    assert (p' = p) as -> by congruence.
    exists d2, t. done.
Qed.

Lemma merge_name_in_both_witness :
  well_formed heap_a4_a2 [0] [1] = true /\
  KStr "A" ∈ names heap_a4_a2 [0] /\
  KStr "A" ∈ names heap_a4_a2 [1] /\
  exists ds d p t,
    fst (returned_records [0] [1] heap_a4_a2) = Ok ds /\
    named (KStr "A") ds = [d] /\
    source_is d "both_databases" = true /\
    count_of d "relevant_publications" = Some p /\
    count_of d "relevant_theses" = Some t /\
    d !! "combined_score" = Some (VFloat (p + t * half)%Q).
Proof.
  assert (H1 : well_formed heap_a4_a2 [0] [1] = true) by (vm_compute; reflexivity).
  assert (H2 : KStr "A" ∈ names heap_a4_a2 [0]) by (vm_compute; constructor).
  assert (H3 : KStr "A" ∈ names heap_a4_a2 [1]) by (vm_compute; constructor).
  split_and!; [exact H1|exact H2|exact H3|].
  destruct (merge_name_in_both heap_a4_a2 [0] [1] (KStr "A") H1 H2 H3)
    as (ds & d & p & Hret & Hnamed & Hsrc & Hp & _ & Hone).
  destruct (Hone 1) as (d2 & t & _ & _ & Ht & Hcs); [vm_compute; reflexivity|].
  exists ds, d, p, t.
  split_and!; [exact Hret|exact Hnamed|exact Hsrc|exact Hp|exact Ht|exact Hcs].
Defined.

(** C1 as stated fails: with one record of database 1 (4 publications) and
    two rows of database 2 for the same name (2 and 3 theses), the call
    returns a single entry with relevant-theses count 3 and score 26/4 = 6.5,
    not [4 + 0.5 * 3]. *)
Lemma merge_name_in_both_counterexample :
  well_formed heap_a4_a2_a3 [0] [1; 2] = true /\
  KStr "A" ∈ names heap_a4_a2_a3 [0] /\
  KStr "A" ∈ names heap_a4_a2_a3 [1; 2] /\
  returned_ok (returned_records [0] [1; 2] heap_a4_a2_a3) = true /\
  map observe (returned_list (returned_records [0] [1; 2] heap_a4_a2_a3)) =
    [(Some (KStr "A"), Some (inject_Z 4), Some (inject_Z 3), Some (26 # 4)%Q,
      Some (VStr "both_databases"))] /\
  ~ (26 # 4 == inject_Z 4 + half * inject_Z 3)%Q.
Proof.
  split_and!; [vm_compute; reflexivity|vm_compute; constructor
              |vm_compute; constructor|vm_compute; reflexivity
              |vm_compute; reflexivity|].
  intros H. vm_compute in H. discriminate H.
Qed.

(** C2, as amended.  For well-formed argument lists the returned list has
    one entry for each distinct name: its length is the number of distinct
    names of the two lists together, hence at most [|db1| + |db2|], and it
    is at least [max |db1| |db2|] when no name occurs twice within one
    list. *)
Theorem merge_length (h : heap) (db1 db2 : list ref) :
  well_formed h db1 db2 = true ->
  exists ds,
    fst (returned_records db1 db2 h) = Ok ds /\
    length ds = length (remove_dups (names h db1 ++ names h db2)) /\
    length ds <= length db1 + length db2 /\
    (NoDup (names h db1) -> NoDup (names h db2) ->
     Nat.max (length db1) (length db2) <= length ds).
Proof.
  intros Hwf.
  destruct (merge_outcome _ _ _ Hwf) as (h1 & m2 & h2 & out & ds & qs & Hout).
  exists ds. split; [by rewrite (out_records _ _ _ _ _ _ _ _ _ Hout)|].
  apply (entries_length Hwf Hout).
Qed.

Lemma merge_length_witness :
  well_formed heap_b3_c5 [0] [1] = true /\
  exists ds,
    fst (returned_records [0] [1] heap_b3_c5) = Ok ds /\
    length ds <= 2 /\ 1 <= length ds.
Proof.
  assert (H1 : well_formed heap_b3_c5 [0] [1] = true) by (vm_compute; reflexivity).
  split; [exact H1|].
  destruct (merge_length heap_b3_c5 [0] [1] H1) as (ds & Hret & _ & Hle & Hge).
  exists ds. split_and!; [exact Hret|exact Hle|].
  apply Hge; vm_compute; repeat constructor; by intros ?%elem_of_nil.
Defined.

(** C2 as stated fails: two records of database 1 with the same name and an
    empty second list give one entry, fewer than [max 2 0]. *)
Lemma merge_length_counterexample :
  well_formed heap_a4_a7 [0; 1] [] = true /\
  returned_ok (returned_records [0; 1] [] heap_a4_a7) = true /\
  length (returned_list (returned_records [0; 1] [] heap_a4_a7)) = 1 /\
  ~ (Nat.max (length [0; 1]) (length (@nil ref))
     <= length (returned_list (returned_records [0; 1] [] heap_a4_a7))).
Proof.
  assert (H : length (returned_list (returned_records [0; 1] [] heap_a4_a7)) = 1)
    by (vm_compute; reflexivity).
  split_and!; [vm_compute; reflexivity|vm_compute; reflexivity|exact H|].
  rewrite H. simpl. lia.
Qed.

(** C3, as amended.  For well-formed argument lists: a name found only in
    the first list has one entry, which is a record of the first list with
    that name plus a combined score equal to its relevant-publication count,
    tagged "database_1"; a name found only in the second list, and there
    once, has one entry, which is its record plus a combined score of 0.5
    times its relevant-theses count, tagged "database_2". *)
Theorem merge_name_in_one (h : heap) (db1 db2 : list ref) :
  well_formed h db1 db2 = true ->
  exists ds,
    fst (returned_records db1 db2 h) = Ok ds /\
    (forall k, k ∈ names h db1 -> k ∉ names h db2 ->
       exists d r d0 p,
         named k ds = [d] /\
         r ∈ db1 /\ h !! r = Some d0 /\ name_of d0 = Some k /\
         d0 !! "relevant_publications" = Some p /\
         d = <["combined_score" := p]> d0 /\
         d !! "combined_score" = Some p /\
         source_is d "database_1" = true) /\
    (forall k e, k ∉ names h db1 ->
       filter (fun e' => obj_name h e' = Some k) db2 = [e] ->
       exists d d0 t,
         named k ds = [d] /\
         h !! e = Some d0 /\ name_of d0 = Some k /\
         count_of d0 "relevant_theses" = Some t /\
         d = <["combined_score" := VFloat (t * half)%Q]> d0 /\
         d !! "combined_score" = Some (VFloat (t * half)%Q) /\
         source_is d "database_2" = true).
Proof.
  intros Hwf.
  destruct (merge_outcome _ _ _ Hwf) as (h1 & m2 & h2 & out & ds & qs & Hout).
  exists ds. split; [by rewrite (out_records _ _ _ _ _ _ _ _ _ Hout)|]. split.
  - intros k Hk1 Hk2.
    destruct (entry_db1_only Hwf Hout k Hk1 Hk2)
      as (d & r & d0 & p & Hnamed & Hr & Hd0 & Hn & Hp & -> & Hs).
    exists (<["combined_score" := p]> d0), r, d0, p. split_and!; try done.
    + apply lookup_insert_eq.
    + by rewrite source_is_insert_ne.
  - intros k e Hk1 Hf.
    destruct (entry_db2_once Hwf Hout k e Hk1 Hf)
      as (d & d0 & t & Hnamed & Hd0 & Hn & Ht & -> & Hs).
    exists (<["combined_score" := VFloat (t * half)%Q]> d0), d0, t.
    split_and!; try done.
    + apply lookup_insert_eq.
    + by rewrite source_is_insert_ne.
Qed.

Lemma merge_name_in_one_witness :
  well_formed heap_b3_c5 [0] [1] = true /\
  exists ds,
    fst (returned_records [0] [1] heap_b3_c5) = Ok ds /\
    (exists d, named (KStr "B") ds = [d] /\
               d !! "combined_score" = Some (VInt 3) /\
               source_is d "database_1" = true) /\
    (exists d, named (KStr "C") ds = [d] /\
               d !! "combined_score" = Some (VFloat (inject_Z 5 * half)%Q) /\
               source_is d "database_2" = true).
Proof.
  assert (H1 : well_formed heap_b3_c5 [0] [1] = true) by (vm_compute; reflexivity).
  split; [exact H1|].
  destruct (merge_name_in_one heap_b3_c5 [0] [1] H1) as (ds & Hret & Hone & Htwo).
  exists ds. split; [exact Hret|]. split.
  - destruct (Hone (KStr "B")) as (d & r & d0 & p & Hn & Hr & Hd0 & _ & Hp & _ & Hcs & Hs).
    { vm_compute. constructor. }
    { vm_compute. intros H. inversion H as [|? ? ? H']; subst; inversion H'. }
    exists d. split_and!; [exact Hn| |exact Hs].
    apply list_elem_of_singleton in Hr. subst r.
    injection Hd0 as <-. rewrite Hcs, <- Hp. vm_compute. reflexivity.
  - destruct (Htwo (KStr "C") 1) as (d & d0 & t & Hn & Hd0 & _ & Ht & _ & Hcs & Hs).
    { vm_compute. intros H. inversion H as [|? ? ? H']; subst; inversion H'. }
    { vm_compute. reflexivity. }
    exists d. split_and!; [exact Hn| |exact Hs].
    injection Hd0 as <-. rewrite Hcs. vm_compute in Ht. injection Ht as <-.
    reflexivity.
Defined.

(** C3 as stated fails: two rows of database 2 for one name (2 and 3 theses)
    and an empty first list give one entry, tagged "both_databases", with
    relevant-theses count 3 and score 10/4 = 2.5, not [0.5 * 3]. *)
Lemma merge_name_in_one_counterexample :
  well_formed heap_a2_a3 [] [0; 1] = true /\
  (KStr "A" ∉ names heap_a2_a3 []) /\
  KStr "A" ∈ names heap_a2_a3 [0; 1] /\
  returned_ok (returned_records [] [0; 1] heap_a2_a3) = true /\
  map observe (returned_list (returned_records [] [0; 1] heap_a2_a3)) =
    [(Some (KStr "A"), None, Some (inject_Z 3), Some (10 # 4)%Q,
      Some (VStr "both_databases"))] /\
  ~ (10 # 4 == half * inject_Z 3)%Q.
Proof.
  split_and!; [vm_compute; reflexivity|vm_compute; by intros ?%elem_of_nil
              |vm_compute; constructor|vm_compute; reflexivity
              |vm_compute; reflexivity|].
  intros H. vm_compute in H. discriminate H.
Qed.

(** C4.  Whatever the two argument lists, a list that
    [_merge_expert_results] returns is in non-increasing order of combined
    score; and on well-formed lists the call does return. *)
Theorem merge_sorted (h : heap) (db1 db2 : list ref) :
  (forall ds h', returned_records db1 db2 h = (Ok ds, h') -> sorted_by_score ds) /\
  (well_formed h db1 db2 = true ->
   exists ds, fst (returned_records db1 db2 h) = Ok ds /\ sorted_by_score ds).
Proof.
  split.
  - intros ds h' Hrun. by eapply returned_records_sorted.
  - intros Hwf.
    destruct (merge_outcome _ _ _ Hwf) as (h1 & m2 & h2 & out & ds & qs & Hout).
    exists ds. split; [by rewrite (out_records _ _ _ _ _ _ _ _ _ Hout)|].
    eapply returned_records_sorted. apply Hout.
Qed.

Lemma merge_sorted_witness :
  well_formed heap_b3_c5 [0] [1] = true /\
  exists ds, fst (returned_records [0] [1] heap_b3_c5) = Ok ds /\ sorted_by_score ds.
Proof.
  assert (H1 : well_formed heap_b3_c5 [0] [1] = true) by (vm_compute; reflexivity).
  split; [exact H1|].
  exact (proj2 (merge_sorted heap_b3_c5 [0] [1]) H1).
Defined.

(** C5.  Two empty lists give the empty list.  Well-formed argument lists
    never raise, and either list may be empty.  A name found in one list only
    gets one entry: for the first list it is a record of that list with that
    name plus its combined score, equal to its publication count, with
    nothing added for the theses it does not have; for the second list it
    carries the fields of a record of that list with that name and, at most,
    the two fields the merge adds. *)
Theorem merge_edge_cases (h : heap) (db1 db2 : list ref) :
  returned_records [] [] h = (Ok [], h) /\
  (well_formed h db1 [] = true ->
   exists ds, fst (returned_records db1 [] h) = Ok ds) /\
  (well_formed h [] db2 = true ->
   exists ds, fst (returned_records [] db2 h) = Ok ds) /\
  (well_formed h db1 db2 = true ->
   exists ds,
     fst (returned_records db1 db2 h) = Ok ds /\
     (forall k, k ∈ names h db1 -> k ∉ names h db2 ->
        exists d r d0 p,
          named k ds = [d] /\
          r ∈ db1 /\ h !! r = Some d0 /\ name_of d0 = Some k /\
          d0 !! "relevant_publications" = Some p /\
          d = <["combined_score" := p]> d0 /\
          theses_named h k db2 = [] /\
          count_of d "combined_score" = count_of d0 "relevant_publications") /\
     (forall k, k ∉ names h db1 -> k ∈ names h db2 ->
        exists d e d0,
          named k ds = [d] /\
          e ∈ db2 /\ h !! e = Some d0 /\ name_of d0 = Some k /\
          dom d ⊆ dom d0 ∪ merge_fields)).
Proof.
  split_and!; [done|apply merge_returns|apply merge_returns|]. intros Hwf.
  destruct (merge_outcome _ _ _ Hwf) as (h1 & m2 & h2 & out & ds & qs & Hout).
  exists ds. split; [by rewrite (out_records _ _ _ _ _ _ _ _ _ Hout)|]. split.
  - intros k Hk1 Hk2.
    destruct (entry_db1_only Hwf Hout k Hk1 Hk2)
      as (d & r & d0 & p & Hnamed & Hr & Hd0 & Hn & Hp & Hd & Hs).
    exists d, r, d0, p. split_and!; try done.
    + rewrite theses_of_records.
      rewrite records_named_none; [done|]. by apply filter_named_nil.
    + subst d. unfold count_of. by rewrite lookup_insert_eq, Hp.
  - intros k Hk1 Hk2. apply (entry_db2_only Hwf Hout k Hk1 Hk2).
Qed.

Lemma merge_edge_cases_witness :
  well_formed heap_b3_c5 [0] [] = true /\
  well_formed heap_b3_c5 [] [1] = true /\
  well_formed heap_b3_c5 [0] [1] = true /\
  (exists ds, fst (returned_records [0] [] heap_b3_c5) = Ok ds) /\
  (exists ds, fst (returned_records [] [1] heap_b3_c5) = Ok ds) /\
  (exists ds, fst (returned_records [0] [1] heap_b3_c5) = Ok ds).
Proof.
  assert (H1 : well_formed heap_b3_c5 [0] [] = true) by (vm_compute; reflexivity).
  assert (H2 : well_formed heap_b3_c5 [] [1] = true) by (vm_compute; reflexivity).
  assert (H3 : well_formed heap_b3_c5 [0] [1] = true) by (vm_compute; reflexivity).
  destruct (merge_edge_cases heap_b3_c5 [0] [1]) as (_ & Hleft & Hright & Hboth).
  destruct (Hboth H3) as (ds & Hret & _).
  split_and!; [exact H1|exact H2|exact H3|exact (Hleft H1)|exact (Hright H2)|].
  exists ds. exact Hret.
Defined.

(** C10.  For well-formed argument lists, every record of the returned list
    has a numeric combined score and a source tag among "database_1",
    "database_2" and "both_databases". *)
Theorem merge_records_scored (h : heap) (db1 db2 : list ref) :
  well_formed h db1 db2 = true ->
  exists ds,
    fst (returned_records db1 db2 h) = Ok ds /\
    Forall (fun d => is_Some (count_of d "combined_score") /\
                     is_source_tag d = true) ds.
Proof.
  intros Hwf.
  destruct (merge_outcome _ _ _ Hwf) as (h1 & m2 & h2 & out & ds & qs & Hout).
  exists ds. split; [by rewrite (out_records _ _ _ _ _ _ _ _ _ Hout)|].
  apply (entries_scored Hout).
Qed.

Lemma merge_records_scored_witness :
  well_formed heap_a4_a2_a3 [0] [1; 2] = true /\
  exists ds,
    fst (returned_records [0] [1; 2] heap_a4_a2_a3) = Ok ds /\
    Forall (fun d => is_Some (count_of d "combined_score") /\
                     is_source_tag d = true) ds.
Proof.
  assert (H1 : well_formed heap_a4_a2_a3 [0] [1; 2] = true)
    by (vm_compute; reflexivity).
  split; [exact H1|].
  exact (merge_records_scored heap_a4_a2_a3 [0] [1; 2] H1).
Defined.

(** ** The two merge scenarios of the specification *)

(** db1 = [A: 4 publications], db2 = [A: 2 theses]: one entry, score 5.0,
    tagged "both_databases". *)
Example merge_scenario_both :
  map observe (returned_list (returned_records [0] [1] heap_a4_a2)) =
    [(Some (KStr "A"), Some (inject_Z 4), Some (inject_Z 2), Some (10 # 2)%Q,
      Some (VStr "both_databases"))]
  /\ (10 # 2 == inject_Z 5)%Q.
Proof. split; vm_compute; reflexivity. Qed.

(** db1 = [B: 3 publications], db2 = []: one entry, score 3, tagged
    "database_1", with no thesis count. *)
Example merge_scenario_db1_only :
  map observe (returned_list (returned_records [0] [] heap_b3_c5)) =
    [(Some (KStr "B"), Some (inject_Z 3), None, Some (inject_Z 3),
      Some (VStr "database_1"))].
Proof. vm_compute. reflexivity. Qed.

(** * The orchestrator *)

(** ** [ai_query] *)

Lemma ai_query_returns self prompt max_tokens w :
  exists v, ai_query self prompt max_tokens w =
            (Ok v, logged (build_request self prompt max_tokens) w).
Proof.
  unfold ai_query, try_except, bind, post, lift_result, ret.
  destruct (requests_post _ _ _) as [e|response]; [eauto|].
  destruct (Response.status_code response =? 200)%Z; [|eauto].
  destruct (Response.json response) as [body|e]; [|eauto].
  destruct (first_choice_content body) as [v|e]; eauto.
Qed.

Lemma ai_query_failed self prompt max_tokens w detail :
  llm_failed (requests_post self (llm_requests w)
                (build_request self prompt max_tokens)) detail ->
  ai_query self prompt max_tokens w =
  (Ok (VStr ("AI Error: " +:+ detail)),
   logged (build_request self prompt max_tokens) w).
Proof.
  unfold ai_query, try_except, bind, post, lift_result, ret.
  intros Hfail. inversion Hfail as [e He|resp Hst He|resp e Hst Hj He
                                    |resp body e Hst Hj Hc He]; subst.
  - done.
  - apply Z.eqb_neq in Hst. by rewrite Hst.
  - apply Z.eqb_eq in Hst. by rewrite Hst, Hj.
  - apply Z.eqb_eq in Hst. by rewrite Hst, Hj, Hc.
Qed.

(** ** [lookup_person] *)

Lemma lookup_person_run self name w rows1 rows2 :
  db1_profile_query self name = Ok rows1 ->
  db2_activity_query self name = Ok rows2 ->
  let data := combined_before_ai name (map profile_of_row rows1)
                (map activity_of_row rows2) in
  let w1 := printed ("🔍 Looking up: " +:+ name) w in
  lookup_person self name w =
  if CombinedData.found_in_db1 data || CombinedData.found_in_db2 data then
    match ai_query self (_create_person_analysis_prompt self data)
            default_max_tokens w1 with
    | (Ok analysis, w2) => (Ok (CombinedData.set_ai_analysis data analysis), w2)
    | (Raise e, w2) => (Raise e, w2)
    end
  else (Ok (CombinedData.set_ai_analysis data (VStr not_found_message)), w1).
Proof.
  intros H1 H2. simpl.
  unfold lookup_person, _get_researcher_profile_db1, _get_thesis_activities_db2.
  unfold bind at 1. unfold print at 1.
  unfold bind at 1. unfold bind at 1. unfold lift_result at 1. rewrite H1.
  unfold ret at 1.
  unfold bind at 1. unfold bind at 1. unfold lift_result at 1. rewrite H2.
  unfold ret at 1. fold (combined_before_ai name (map profile_of_row rows1)
                          (map activity_of_row rows2)).
  destruct (_ || _); [|done]. unfold bind, ret. done.
Qed.

Lemma len_pos {A} (l : list A) : (len l >? 0)%Z = true <-> l <> [].
Proof.
  unfold len. destruct l; simpl; [split; [done|congruence]|].
  split; [done|]. intros _. apply Z.gtb_lt. lia.
Qed.

Lemma lookup_person_inv self name w cd w' :
  lookup_person self name w = (Ok cd, w') ->
  exists rows1 rows2,
    db1_profile_query self name = Ok rows1 /\
    db2_activity_query self name = Ok rows2.
Proof.
  unfold lookup_person, _get_researcher_profile_db1, _get_thesis_activities_db2.
  unfold bind at 1. unfold print at 1.
  unfold bind at 1. unfold bind at 1. unfold lift_result at 1.
  destruct (db1_profile_query self name) as [rows1|e]; [|done].
  unfold ret at 1.
  unfold bind at 1. unfold bind at 1. unfold lift_result at 1.
  destruct (db2_activity_query self name) as [rows2|e]; [|done].
  eauto.
Qed.

(** * The claims about [lookup_person] and [ai_query] *)

(** C6.  When both graph adapters return the empty list for a name,
    [lookup_person] returns a result whose two found flags are false and
    whose analysis is the fixed not-found message, and no request to the LLM
    endpoint is posted. *)
Theorem lookup_person_not_found (self : researchbook) (name : string) (w : world) :
  (forall w0, _get_researcher_profile_db1 self name w0 = (Ok [], w0)) ->
  (forall w0, _get_thesis_activities_db2 self name w0 = (Ok [], w0)) ->
  exists cd w',
    lookup_person self name w = (Ok cd, w') /\
    CombinedData.found_in_db1 cd = false /\
    CombinedData.found_in_db2 cd = false /\
    CombinedData.ai_analysis cd = Some (VStr "Person not found in either database") /\
    llm_requests w' = llm_requests w.
Proof.
  intros H1 H2. unfold lookup_person.
  unfold bind at 1. unfold print at 1.
  unfold bind at 1. rewrite H1.
  unfold bind at 1. rewrite H2. simpl.
  eexists _, _. split; [reflexivity|]. done.
Qed.

Lemma lookup_person_not_found_witness :
  (forall w0, _get_researcher_profile_db1 (sample_self http_500) "Nobody" w0
              = (Ok [], w0)) /\
  (forall w0, _get_thesis_activities_db2 (sample_self http_500) "Nobody" w0
              = (Ok [], w0)) /\
  exists cd w',
    lookup_person (sample_self http_500) "Nobody" empty_world = (Ok cd, w') /\
    CombinedData.found_in_db1 cd = false /\
    CombinedData.found_in_db2 cd = false /\
    CombinedData.ai_analysis cd = Some (VStr "Person not found in either database") /\
    llm_requests w' = llm_requests empty_world.
Proof.
  assert (H1 : forall w0, _get_researcher_profile_db1 (sample_self http_500)
                            "Nobody" w0 = (Ok [], w0)) by (intros w0; reflexivity).
  assert (H2 : forall w0, _get_thesis_activities_db2 (sample_self http_500)
                            "Nobody" w0 = (Ok [], w0)) by (intros w0; reflexivity).
  split; [exact H1|]. split; [exact H2|].
  exact (lookup_person_not_found (sample_self http_500) "Nobody" empty_world H1 H2).
Defined.

(** C7.  [ai_query] never raises.  When the call to the endpoint fails
    (the transport raises, the status is not 200, or the body does not decode
    to the expected shape) it returns the string "AI Error: " followed by the
    detail of the failure.  [lookup_person], having found data, then still
    returns the records of both stores, with that string as its analysis. *)
Theorem ai_failure_is_tagged (self : researchbook) :
  (forall prompt max_tokens w,
     exists v w', ai_query self prompt max_tokens w = (Ok v, w')) /\
  (forall prompt max_tokens w detail,
     llm_failed (requests_post self (llm_requests w)
                   (build_request self prompt max_tokens)) detail ->
     fst (ai_query self prompt max_tokens w) = Ok (VStr ("AI Error: " +:+ detail))) /\
  (forall name w rows1 rows2 detail,
     db1_profile_query self name = Ok rows1 ->
     db2_activity_query self name = Ok rows2 ->
     rows1 <> [] \/ rows2 <> [] ->
     llm_failed (requests_post self (llm_requests w)
                   (lookup_request self name (map profile_of_row rows1)
                      (map activity_of_row rows2))) detail ->
     exists cd,
       fst (lookup_person self name w) = Ok cd /\
       CombinedData.researcher_data cd = map profile_of_row rows1 /\
       CombinedData.thesis_data cd = map activity_of_row rows2 /\
       CombinedData.ai_analysis cd = Some (VStr ("AI Error: " +:+ detail))).
Proof.
  split_and!.
  - intros prompt max_tokens w.
    destruct (ai_query_returns self prompt max_tokens w) as [v Hv]. eauto.
  - intros prompt max_tokens w detail Hfail.
    by rewrite (ai_query_failed _ _ _ _ _ Hfail).
  - intros name w rows1 rows2 detail H1 H2 Hfound Hfail.
    rewrite (lookup_person_run _ _ _ _ _ H1 H2).
    assert (CombinedData.found_in_db1
              (combined_before_ai name (map profile_of_row rows1)
                 (map activity_of_row rows2))
            || CombinedData.found_in_db2
                 (combined_before_ai name (map profile_of_row rows1)
                    (map activity_of_row rows2)) = true) as ->.
    { simpl. apply orb_true_iff.
      destruct Hfound as [Hr|Hr]; [left|right]; apply len_pos;
        by destruct rows1, rows2. }
    rewrite (ai_query_failed self _ _ _ detail); [|exact Hfail].
    eexists. split; [reflexivity|]. done.
Qed.

Lemma ai_failure_is_tagged_witness :
  db1_profile_query (sample_self http_500) "Anders" = Ok [sample_profile_row] /\
  db2_activity_query (sample_self http_500) "Anders" = Ok [] /\
  ([sample_profile_row] <> [] \/ @nil ActivityRow.t <> []) /\
  llm_failed http_500 "500" /\
  exists cd,
    fst (lookup_person (sample_self http_500) "Anders" empty_world) = Ok cd /\
    CombinedData.researcher_data cd = [profile_of_row sample_profile_row] /\
    CombinedData.thesis_data cd = [] /\
    CombinedData.ai_analysis cd = Some (VStr "AI Error: 500").
Proof.
  assert (H1 : db1_profile_query (sample_self http_500) "Anders"
               = Ok [sample_profile_row]) by reflexivity.
  assert (H2 : db2_activity_query (sample_self http_500) "Anders" = Ok [])
    by reflexivity.
  assert (H3 : [sample_profile_row] <> [] \/ @nil ActivityRow.t <> [])
    by (left; discriminate).
  assert (H4 : llm_failed http_500 "500").
  { change "500" with (pretty 500%Z).
    apply (failed_status {| Response.status_code := 500;
                            Response.json := Raise (ExternalError "Expecting value") |}).
    simpl. lia. }
  split_and!; [exact H1|exact H2|exact H3|exact H4|].
  exact (proj2 (proj2 (ai_failure_is_tagged (sample_self http_500)))
           "Anders" empty_world [sample_profile_row] [] "500" H1 H2 H3 H4).
Defined.

(** C9.  In every result [lookup_person] returns, [found_in_db1] is true
    exactly when [researcher_data] is a non-empty list and [found_in_db2]
    exactly when [thesis_data] is one; and it returns whenever both stores
    answer. *)
Theorem lookup_person_found_flags (self : researchbook) (name : string) (w : world) :
  (forall cd w', lookup_person self name w = (Ok cd, w') ->
     (CombinedData.found_in_db1 cd = true <-> CombinedData.researcher_data cd <> []) /\
     (CombinedData.found_in_db2 cd = true <-> CombinedData.thesis_data cd <> [])) /\
  (forall rows1 rows2,
     db1_profile_query self name = Ok rows1 ->
     db2_activity_query self name = Ok rows2 ->
     exists cd w', lookup_person self name w = (Ok cd, w')).
Proof.
  split.
  - intros cd w' Hrun.
    destruct (lookup_person_inv _ _ _ _ _ Hrun) as (rows1 & rows2 & H1 & H2).
    rewrite (lookup_person_run _ _ _ _ _ H1 H2) in Hrun.
    set (data := combined_before_ai name (map profile_of_row rows1)
                   (map activity_of_row rows2)) in *.
    assert (exists v, cd = CombinedData.set_ai_analysis data v) as [v ->].
    { destruct (_ || _).
      - destruct (ai_query _ _ _ _) as [[v|e] w2]; [|done].
        injection Hrun as <- _. eauto.
      - injection Hrun as <- _. eauto. }
    simpl. split; apply len_pos.
  - intros rows1 rows2 H1 H2. rewrite (lookup_person_run _ _ _ _ _ H1 H2).
    destruct (_ || _); [|eauto].
    destruct (ai_query_returns self
                (_create_person_analysis_prompt self
                   (combined_before_ai name (map profile_of_row rows1)
                      (map activity_of_row rows2)))
                default_max_tokens (printed ("🔍 Looking up: " +:+ name) w))
      as [v ->]. eauto.
Qed.

Lemma lookup_person_found_flags_witness :
  exists cd w',
    lookup_person (sample_self http_500) "Anders" empty_world = (Ok cd, w') /\
    (CombinedData.found_in_db1 cd = true <-> CombinedData.researcher_data cd <> []) /\
    (CombinedData.found_in_db2 cd = true <-> CombinedData.thesis_data cd <> []).
Proof.
  eexists _, _. split; [vm_compute; reflexivity|].
  eapply (proj1 (lookup_person_found_flags (sample_self http_500) "Anders"
                   empty_world)).
  vm_compute. reflexivity.
Defined.

(** ** [find_expert] *)

Lemma expert_of_db1_row_wf row :
  hashable (Db1ExpertRow.name row) = true ->
  is_db1_record (expert_of_db1_row row) = true.
Proof.
  unfold hashable. intros Hh.
  destruct (hash_key (Db1ExpertRow.name row)) as [k|] eqn:Hk; [|done].
  apply is_db1_record_spec. unfold name_of, count_of, source_is, expert_of_db1_row, dict_of.
  simpl. split_and!.
  - rewrite lookup_insert_eq. rewrite Hk. eauto.
  - rewrite !lookup_insert_ne by done. rewrite lookup_insert_eq. simpl. eauto.
  - rewrite !lookup_insert_ne by done. rewrite lookup_insert_eq. done.
Qed.

Lemma expert_of_db2_row_wf row :
  hashable (Db2ExpertRow.name row) = true ->
  is_db2_record (expert_of_db2_row row) = true.
Proof.
  unfold hashable. intros Hh.
  destruct (hash_key (Db2ExpertRow.name row)) as [k|] eqn:Hk; [|done].
  apply is_db2_record_spec. split.
  - apply readable2_spec.
    unfold name_of, count_of, expert_of_db2_row, dict_of. simpl. split_and!.
    + rewrite lookup_insert_eq. rewrite Hk. eauto.
    + rewrite !lookup_insert_ne by done. rewrite lookup_insert_eq. eauto.
    + rewrite !lookup_insert_ne by done. rewrite lookup_insert_eq. simpl. eauto.
    + rewrite !lookup_insert_ne by done. rewrite lookup_insert_eq. eauto.
  - unfold source_is, expert_of_db2_row, dict_of. simpl.
    rewrite !lookup_insert_ne by done. rewrite lookup_insert_eq. done.
Qed.

Lemma map_m_alloc {A} (f : A -> pydict) (rows : list A) : forall h,
  map_m (fun record => alloc (f record)) rows h =
  (Ok (seq (length h) (length rows)), h ++ map f rows).
Proof.
  induction rows as [|row rows IH]; intros h; simpl.
  - by rewrite app_nil_r.
  - unfold bind at 1. unfold alloc at 1. unfold bind at 1. rewrite IH.
    unfold ret. rewrite length_app. simpl. rewrite Nat.add_1_r.
    by rewrite <- app_assoc.
Qed.

Lemma holds_at_alloc {A} (P : pydict -> bool) (f : A -> pydict)
    (pre : heap) (rows : list A) (post : heap) :
  Forall (fun row => P (f row) = true) rows ->
  Forall (fun r => holds_at (pre ++ map f rows ++ post) P r = true)
    (seq (length pre) (length rows)).
Proof.
  intros Hrows. apply Forall_forall. intros r [Hge Hlt]%elem_of_seq.
  apply holds_at_spec.
  destruct (lookup_lt_is_Some_2 rows (r - length pre)) as [row Hrow]; [lia|].
  exists (f row). split.
  - rewrite lookup_app_r by lia. rewrite lookup_app_l by (rewrite length_map; lia).
    change (map f rows) with (f <$> rows). by rewrite list_lookup_fmap, Hrow.
  - rewrite Forall_forall in Hrows. apply Hrows. by eapply list_elem_of_lookup_2.
Qed.

Lemma allocated_well_formed (h : heap) rows1 rows2 :
  forallb (fun row => hashable (Db1ExpertRow.name row)) rows1 = true ->
  forallb (fun row => hashable (Db2ExpertRow.name row)) rows2 = true ->
  well_formed
    ((h ++ map expert_of_db1_row rows1) ++ map expert_of_db2_row rows2)
    (seq (length h) (length rows1))
    (seq (length (h ++ map expert_of_db1_row rows1)) (length rows2)) = true.
Proof.
  intros H1 H2. apply well_formed_spec. split.
  - rewrite <- app_assoc. apply holds_at_alloc. apply Forall_forall.
    intros row Hrow. apply expert_of_db1_row_wf.
    rewrite forallb_forall in H1. apply H1. by apply list_elem_of_In.
  - rewrite <- (app_nil_r (map expert_of_db2_row rows2)).
    apply holds_at_alloc. apply Forall_forall.
    intros row Hrow. apply expert_of_db2_row_wf.
    rewrite forallb_forall in H2. apply H2. by apply list_elem_of_In.
Qed.

Lemma search_experts_db1_run self topic limit w rows :
  db1_topic_query self topic limit = Ok rows ->
  _search_experts_db1 self topic limit w =
  (Ok (seq (length (objects w)) (length rows)),
   with_objects (objects w ++ map expert_of_db1_row rows) w).
Proof.
  intros Hq. unfold _search_experts_db1, bind, lift_result, lift_heap.
  rewrite Hq. by rewrite map_m_alloc.
Qed.

Lemma search_experts_db2_run self topic limit w rows :
  db2_topic_query self topic limit = Ok rows ->
  _search_experts_db2 self topic limit w =
  (Ok (seq (length (objects w)) (length rows)),
   with_objects (objects w ++ map expert_of_db2_row rows) w).
Proof.
  intros Hq. unfold _search_experts_db2, bind, lift_result, lift_heap.
  rewrite Hq. by rewrite map_m_alloc.
Qed.

Lemma len_seq a n : len (seq a n) = Z.of_nat n.
Proof. unfold len. by rewrite length_seq. Qed.

(** * The claim about [find_expert] *)

(** C8.  A result that [find_expert] returns holds the topic, the length of
    the merged list as [experts_found], the lengths of the two search-result
    lists as [db1_matches] and [db2_matches], the merged list itself, and the
    ranking text: the answer of [ai_query] to the ranking prompt, or the
    fixed message when the merged list is empty.  And [find_expert] does
    return whenever both stores answer with rows whose names can be keys. *)
Theorem find_expert_result (self : researchbook) (topic : string) (limit : Z)
    (w : world) :
  (forall r w', find_expert self topic limit w = (Ok r, w') ->
     exists db1_experts db2_experts w1 w2 w3,
       _search_experts_db1 self topic limit
         (printed ("🎯 Finding experts on: " +:+ topic) w) = (Ok db1_experts, w1) /\
       _search_experts_db2 self topic limit w1 = (Ok db2_experts, w2) /\
       lift_heap (_merge_expert_results db1_experts db2_experts) w2
         = (Ok (ExpertResult.expert_list r), w3) /\
       ExpertResult.topic r = topic /\
       ExpertResult.experts_found r = len (ExpertResult.expert_list r) /\
       ExpertResult.db1_matches r = len db1_experts /\
       ExpertResult.db2_matches r = len db2_experts /\
       ((ExpertResult.expert_list r = [] /\
         ExpertResult.ai_ranking r = VStr ("No experts found for topic: " +:+ topic) /\
         w' = w3) \/
        (ExpertResult.expert_list r <> [] /\
         exists prompt w4,
           lift_heap (_create_expert_ranking_prompt self topic
                        (ExpertResult.expert_list r)) w3 = (Ok prompt, w4) /\
           ai_query self prompt 1500 w4 = (Ok (ExpertResult.ai_ranking r), w')))) /\
  (forall rows1 rows2,
     db1_topic_query self topic limit = Ok rows1 ->
     db2_topic_query self topic limit = Ok rows2 ->
     forallb (fun row => hashable (Db1ExpertRow.name row)) rows1 = true ->
     forallb (fun row => hashable (Db2ExpertRow.name row)) rows2 = true ->
     exists r w',
       find_expert self topic limit w = (Ok r, w') /\
       ExpertResult.db1_matches r = len rows1 /\
       ExpertResult.db2_matches r = len rows2).
Proof.
  split.
  - intros r w' Hrun. unfold find_expert in Hrun.
    unfold bind at 1 in Hrun. unfold print at 1 in Hrun.
    fold (printed ("🎯 Finding experts on: " +:+ topic) w) in Hrun.
    change (snd (_ : result unit * world)) with
      (printed ("🎯 Finding experts on: " +:+ topic) w) in Hrun.
    unfold bind at 1 in Hrun.
    destruct (_search_experts_db1 self topic limit _) as [[db1|e] w1] eqn:H1; [|done].
    unfold bind at 1 in Hrun.
    destruct (_search_experts_db2 self topic limit w1) as [[db2|e] w2] eqn:H2; [|done].
    unfold bind at 1 in Hrun.
    destruct (lift_heap (_merge_expert_results db1 db2) w2) as [[out|e] w3] eqn:H3;
      [|done].
    unfold bind at 1 in Hrun.
    exists db1, db2, w1, w2, w3.
    destruct out as [|r0 out].
    + unfold ret in Hrun. injection Hrun as <- <-. simpl.
      split_and!; try done. by left.
    + unfold bind at 1 in Hrun.
      destruct (lift_heap (_create_expert_ranking_prompt self topic (r0 :: out)) w3)
        as [[prompt|e] w4] eqn:H4; [|done].
      destruct (ai_query self prompt 1500 w4) as [[v|e] w5] eqn:H5; [|done].
      unfold ret in Hrun. injection Hrun as <- <-. simpl.
      split_and!; try done. right. split; [done|]. eauto.
  - intros rows1 rows2 Hq1 Hq2 Hn1 Hn2. unfold find_expert.
    unfold bind at 1. unfold print at 1.
    unfold bind at 1. rewrite (search_experts_db1_run _ _ _ _ _ Hq1).
    unfold bind at 1. rewrite (search_experts_db2_run _ _ _ _ _ Hq2).
    cbn [objects with_objects].
    pose proof (allocated_well_formed (objects w) rows1 rows2 Hn1 Hn2) as Hwf.
    destruct (merge_outcome _ _ _ Hwf) as (h1 & m2 & h2 & out & ds & qs & Hout).
    unfold bind at 1. unfold lift_heap at 1. cbn [objects with_objects].
    rewrite (out_run _ _ _ _ _ _ _ _ _ Hout).
    unfold bind at 1.
    destruct out as [|r0 out].
    + unfold ret. eexists _, _. split; [reflexivity|]. simpl.
      by rewrite !len_seq.
    + unfold bind at 1. unfold lift_heap at 1. cbn [objects with_objects].
      unfold _create_expert_ranking_prompt. unfold bind at 1.
      destruct (map_m_deref h2 (r0 :: out)) as (ds' & Hderef & _).
      { pose proof (out_deref _ _ _ _ _ _ _ _ _ Hout) as Hd.
        apply Forall_forall. intros r Hr.
        apply list_elem_of_lookup in Hr as [i Hi].
        destruct (Forall2_lookup_l _ _ _ _ _ Hd Hi) as (d & _ & Hrd). eauto. }
      rewrite Hderef. unfold ret at 1.
      match goal with
      | |- context [ai_query self ?p 1500 ?w0] =>
          destruct (ai_query_returns self p 1500 w0) as [v ->]
      end.
      unfold ret. eexists _, _. split; [reflexivity|]. simpl.
      by rewrite !len_seq.
Qed.

Lemma find_expert_result_witness :
  exists r w',
    find_expert (sample_self http_500) "machine learning" default_limit empty_world
      = (Ok r, w') /\
    ExpertResult.topic r = "machine learning" /\
    ExpertResult.experts_found r = 1%Z /\
    ExpertResult.db1_matches r = 1%Z /\
    ExpertResult.db2_matches r = 1%Z /\
    ExpertResult.expert_list r = [0] /\
    ExpertResult.ai_ranking r = VStr "AI Error: 500".
Proof.
  destruct (proj2 (find_expert_result (sample_self http_500) "machine learning"
                     default_limit empty_world)
              [sample_db1_row "A" 4] [sample_db2_row "A" "SUPERVISED" 2])
    as (r & w' & Hrun & _); try reflexivity.
  exists r, w'. split; [exact Hrun|].
  assert (Hcalc : exists r0 w0,
            find_expert (sample_self http_500) "machine learning" default_limit
              empty_world = (Ok r0, w0) /\
            r0 = {| ExpertResult.topic := "machine learning";
                    ExpertResult.experts_found := 1;
                    ExpertResult.db1_matches := 1;
                    ExpertResult.db2_matches := 1;
                    ExpertResult.expert_list := [0];
                    ExpertResult.ai_ranking := VStr "AI Error: 500" |}).
  { eexists _, _. split; vm_compute; reflexivity. }
  destruct Hcalc as (r0 & w0 & Hrun0 & ->).
  rewrite Hrun in Hrun0. injection Hrun0 as -> _. done.
Defined.

(** * Further properties of the orchestrator *)

(** ** [ai_query] *)

(** Whatever the endpoint does, one call of [ai_query] posts exactly one
    request, the one built from its arguments, and touches neither the
    records nor the console: there is no retry. *)
Theorem ai_query_posts_once (self : researchbook) (prompt : string)
    (max_tokens : Z) (w : world) :
  let w' := snd (ai_query self prompt max_tokens w) in
  llm_requests w' = llm_requests w ++ [build_request self prompt max_tokens] /\
  Request.content (build_request self prompt max_tokens) = prompt /\
  Request.max_tokens (build_request self prompt max_tokens) = max_tokens /\
  objects w' = objects w /\
  stdout w' = stdout w.
Proof.
  destruct (ai_query_returns self prompt max_tokens w) as [v Hv].
  simpl. rewrite Hv. done.
Qed.

(** A value [ai_query] returns is either the content of the first choice of
    a decoded reply with status 200, or the tagged string of a failure. *)
Theorem ai_query_result (self : researchbook) (prompt : string)
    (max_tokens : Z) (w : world) (v : value) :
  fst (ai_query self prompt max_tokens w) = Ok v ->
  (exists response body,
     requests_post self (llm_requests w) (build_request self prompt max_tokens)
       = PostReturned response /\
     Response.status_code response = 200%Z /\
     Response.json response = Ok body /\
     first_choice_content body = Ok v) \/
  (exists detail,
     llm_failed (requests_post self (llm_requests w)
                   (build_request self prompt max_tokens)) detail /\
     v = VStr ("AI Error: " +:+ detail)).
Proof.
  unfold ai_query, try_except, bind, post, lift_result, ret.
  destruct (requests_post _ _ _) as [e|response] eqn:Hpost; simpl.
  - intros [= <-]. right. eexists. split; [constructor|done].
  - destruct (Response.status_code response =? 200)%Z eqn:Hst; simpl.
    + apply Z.eqb_eq in Hst.
      destruct (Response.json response) as [body|e] eqn:Hj; simpl.
      * destruct (first_choice_content body) as [c|e] eqn:Hc; simpl.
        -- intros [= <-]. left. exists response, body. done.
        -- intros [= <-]. right. eexists. split; [|done].
           by eapply failed_shape.
      * intros [= <-]. right. eexists. split; [|done]. by eapply failed_decode.
    + apply Z.eqb_neq in Hst. intros [= <-]. right. eexists. split; [|done].
      by apply failed_status.
Qed.

Lemma ai_query_result_witness :
  fst (ai_query (sample_self http_500) "hello" 10 empty_world)
    = Ok (VStr "AI Error: 500") /\
  exists detail,
    llm_failed http_500 detail /\ VStr "AI Error: 500" = VStr ("AI Error: " +:+ detail).
Proof.
  assert (H : fst (ai_query (sample_self http_500) "hello" 10 empty_world)
              = Ok (VStr "AI Error: 500")) by (vm_compute; reflexivity).
  split; [exact H|].
  destruct (ai_query_result (sample_self http_500) "hello" 10 empty_world _ H)
    as [(response & body & Hpost & Hst & _)|Hfail].
  - exfalso. simpl in Hpost. injection Hpost as <-. simpl in Hst. lia.
  - exact Hfail.
Defined.

(** A reply with status 200 whose body is a JSON object with a non-empty
    list of choices, the first of which has a message with a content, makes
    [ai_query] return that content as it is. *)
Theorem ai_query_success (self : researchbook) (prompt : string)
    (max_tokens : Z) (w : world) (response : Response.t)
    (body choice message : pydict) (rest : list value) (content : value) :
  requests_post self (llm_requests w) (build_request self prompt max_tokens)
    = PostReturned response ->
  Response.status_code response = 200%Z ->
  Response.json response = Ok (VDict body) ->
  body !! "choices" = Some (VList (VDict choice :: rest)) ->
  choice !! "message" = Some (VDict message) ->
  message !! "content" = Some content ->
  fst (ai_query self prompt max_tokens w) = Ok content.
Proof.
  intros Hpost Hst Hj Hb Hc Hm.
  unfold ai_query, try_except, bind, post, lift_result, ret.
  rewrite Hpost. simpl. apply Z.eqb_eq in Hst. rewrite Hst, Hj. simpl.
  unfold first_choice_content, bind_result, subscript, subscript_0.
  by rewrite Hb, Hc, Hm.
Qed.

Lemma ai_query_success_witness :
  fst (ai_query (sample_self (reply_with (VStr "A summary."))) "hello" 10 empty_world)
    = Ok (VStr "A summary.").
Proof.
  eapply (ai_query_success (sample_self (reply_with (VStr "A summary."))) "hello"
            10 empty_world _ _ _ _ [] (VStr "A summary.")).
  - reflexivity.
  - reflexivity.
  - reflexivity.
  - apply lookup_insert_eq.
  - apply lookup_insert_eq.
  - apply lookup_insert_eq.
Defined.

(** A reply with status 200 whose body lacks the expected shape is turned
    into a tagged string that names what is missing: the key, for a JSON
    object without "choices"; the index error, for an empty list of
    choices. *)
Theorem ai_query_malformed_reply (self : researchbook) (prompt : string)
    (max_tokens : Z) (w : world) (response : Response.t) (body : pydict) :
  requests_post self (llm_requests w) (build_request self prompt max_tokens)
    = PostReturned response ->
  Response.status_code response = 200%Z ->
  Response.json response = Ok (VDict body) ->
  (body !! "choices" = None ->
   fst (ai_query self prompt max_tokens w) = Ok (VStr "AI Error: 'choices'")) /\
  (body !! "choices" = Some (VList []) ->
   fst (ai_query self prompt max_tokens w)
     = Ok (VStr "AI Error: list index out of range")).
Proof.
  intros Hpost Hst Hj. split; intros Hb.
  - rewrite (ai_query_failed self prompt max_tokens w "'choices'"); [done|].
    rewrite Hpost. apply (failed_shape response (VDict body) (KeyError "'choices'"));
      [done..|].
    unfold first_choice_content, subscript. by rewrite Hb.
  - rewrite (ai_query_failed self prompt max_tokens w "list index out of range");
      [done|].
    rewrite Hpost.
    apply (failed_shape response (VDict body) (IndexError "list index out of range"));
      [done..|].
    unfold first_choice_content, subscript. by rewrite Hb.
Qed.

Lemma ai_query_malformed_reply_witness :
  fst (ai_query
         (sample_self (PostReturned {| Response.status_code := 200;
                                       Response.json := Ok (VDict ∅) |}))
         "hello" 10 empty_world)
    = Ok (VStr "AI Error: 'choices'").
Proof.
  apply (proj1 (ai_query_malformed_reply
                  (sample_self (PostReturned {| Response.status_code := 200;
                                                Response.json := Ok (VDict ∅) |}))
                  "hello" 10 empty_world
                  {| Response.status_code := 200; Response.json := Ok (VDict ∅) |}
                  ∅ eq_refl eq_refl eq_refl)).
  apply lookup_empty.
Defined.

(** ** [lookup_person] *)

(** What a returning [lookup_person] has done: it kept the queried name,
    attached an analysis, printed its one line, left the records alone, and
    posted a request to the LLM endpoint exactly when one of the two found
    flags is set (then one request, carrying the profile prompt). *)
Theorem lookup_person_effects (self : researchbook) (name : string) (w : world)
    (cd : CombinedData.t) (w' : world) :
  lookup_person self name w = (Ok cd, w') ->
  CombinedData.name cd = name /\
  is_Some (CombinedData.ai_analysis cd) /\
  stdout w' = stdout w ++ [lookup_line name] /\
  objects w' = objects w /\
  llm_requests w' =
    llm_requests w ++
    (if CombinedData.found_in_db1 cd || CombinedData.found_in_db2 cd
     then [lookup_request self name (CombinedData.researcher_data cd)
             (CombinedData.thesis_data cd)]
     else []) /\
  exists rows1 rows2,
    db1_profile_query self name = Ok rows1 /\
    db2_activity_query self name = Ok rows2 /\
    CombinedData.researcher_data cd = map profile_of_row rows1 /\
    CombinedData.thesis_data cd = map activity_of_row rows2.
Proof.
  intros Hrun.
  destruct (lookup_person_inv _ _ _ _ _ Hrun) as (rows1 & rows2 & H1 & H2).
  rewrite (lookup_person_run _ _ _ _ _ H1 H2) in Hrun.
  set (data := combined_before_ai name (map profile_of_row rows1)
                 (map activity_of_row rows2)) in *.
  destruct (CombinedData.found_in_db1 data || CombinedData.found_in_db2 data)
    eqn:Hfound.
  - destruct (ai_query_returns self (_create_person_analysis_prompt self data)
                default_max_tokens (printed (lookup_line name) w)) as [v Hv].
    unfold lookup_line in Hv. rewrite Hv in Hrun. injection Hrun as <- <-.
    subst data. simpl in *. rewrite Hfound. split_and!; try done; eauto.
    exists rows1, rows2. done.
  - injection Hrun as <- <-. subst data. simpl in *. rewrite Hfound.
    split_and!; try done; eauto.
    + by rewrite app_nil_r.
    + exists rows1, rows2. done.
Qed.

Lemma lookup_person_effects_witness :
  exists cd w',
    lookup_person (sample_self (reply_with (VStr "A summary."))) "Anders" empty_world
      = (Ok cd, w') /\
    CombinedData.ai_analysis cd = Some (VStr "A summary.") /\
    length (llm_requests w') = 1 /\
    stdout w' = [lookup_line "Anders"].
Proof.
  assert (Hrun : exists cd w',
            lookup_person (sample_self (reply_with (VStr "A summary."))) "Anders"
              empty_world = (Ok cd, w') /\
            CombinedData.ai_analysis cd = Some (VStr "A summary.") /\
            CombinedData.found_in_db1 cd = true).
  { eexists _, _. split; [vm_compute; reflexivity|]. split; reflexivity. }
  destruct Hrun as (cd & w' & Hrun & Hai & Hfound).
  destruct (lookup_person_effects _ _ _ _ _ Hrun) as (_ & _ & Hout & _ & Hreq & _).
  exists cd, w'. split_and!; [exact Hrun|exact Hai| |exact Hout].
  rewrite Hreq, Hfound. reflexivity.
Defined.



(** ** [find_expert] *)

Lemma find_expert_run self topic limit w rows1 rows2 :
  db1_topic_query self topic limit = Ok rows1 ->
  db2_topic_query self topic limit = Ok rows2 ->
  forallb (fun row => hashable (Db1ExpertRow.name row)) rows1 = true ->
  forallb (fun row => hashable (Db2ExpertRow.name row)) rows2 = true ->
  exists h1 m2 h2 out ds qs r w',
    well_formed
      ((objects w ++ map expert_of_db1_row rows1) ++ map expert_of_db2_row rows2)
      (seq (length (objects w)) (length rows1))
      (seq (length (objects w ++ map expert_of_db1_row rows1)) (length rows2))
      = true /\
    outcome
      ((objects w ++ map expert_of_db1_row rows1) ++ map expert_of_db2_row rows2)
      (seq (length (objects w)) (length rows1))
      (seq (length (objects w ++ map expert_of_db1_row rows1)) (length rows2))
      h1 m2 h2 out ds qs /\
    find_expert self topic limit w = (Ok r, w') /\
    ExpertResult.expert_list r = out /\
    ExpertResult.topic r = topic /\
    ExpertResult.experts_found r = len out /\
    ExpertResult.db1_matches r = len rows1 /\
    ExpertResult.db2_matches r = len rows2 /\
    objects w' = h2 /\
    stdout w' = stdout w ++ [find_line topic] /\
    (out = [] ->
     ExpertResult.ai_ranking r = VStr (no_experts_message topic) /\
     llm_requests w' = llm_requests w) /\
    (out <> [] ->
     exists prompt,
       llm_requests w' = llm_requests w ++ [build_request self prompt 1500]).
Proof.
  intros Hq1 Hq2 Hn1 Hn2.
  pose proof (allocated_well_formed (objects w) rows1 rows2 Hn1 Hn2) as Hwf.
  destruct (merge_outcome _ _ _ Hwf) as (h1 & m2 & h2 & out & ds & qs & Hout).
  exists h1, m2, h2, out, ds, qs.
  unfold find_expert.
  unfold bind at 1. unfold print at 1.
  unfold bind at 1. rewrite (search_experts_db1_run _ _ _ _ _ Hq1).
  unfold bind at 1. rewrite (search_experts_db2_run _ _ _ _ _ Hq2).
  cbn [objects with_objects].
  unfold bind at 1. unfold lift_heap at 1. cbn [objects with_objects].
  rewrite (out_run _ _ _ _ _ _ _ _ _ Hout).
  unfold bind at 1.
  destruct out as [|r0 out].
  - unfold ret. eexists _, _. split_and!; try done; simpl.
    + by rewrite !len_seq.
    + by rewrite !len_seq.
  - unfold bind at 1. unfold lift_heap at 1. cbn [objects with_objects].
    unfold _create_expert_ranking_prompt. unfold bind at 1.
    destruct (map_m_deref h2 (r0 :: out)) as (ds' & Hderef & _).
    { pose proof (out_deref _ _ _ _ _ _ _ _ _ Hout) as Hd.
      apply Forall_forall. intros r Hr.
      apply list_elem_of_lookup in Hr as [i Hi].
      destruct (Forall2_lookup_l _ _ _ _ _ Hd Hi) as (d & _ & Hrd). eauto. }
    rewrite Hderef. unfold ret at 1.
    match goal with
    | |- context [ai_query self ?p 1500 ?w0] =>
        destruct (ai_query_returns self p 1500 w0) as [v Hv]; rewrite Hv
    end.
    unfold ret. eexists _, _. split_and!; try done; simpl.
    + by rewrite !len_seq.
    + by rewrite !len_seq.
    + intros _. eexists. reflexivity.
Qed.

(** When neither store has a match for the topic, [find_expert] returns
    zero counts, the empty list and the fixed message that names the topic;
    it posts nothing to the LLM endpoint and creates no record. *)
Theorem find_expert_no_matches (self : researchbook) (topic : string) (limit : Z)
    (w : world) :
  db1_topic_query self topic limit = Ok [] ->
  db2_topic_query self topic limit = Ok [] ->
  exists r w',
    find_expert self topic limit w = (Ok r, w') /\
    ExpertResult.experts_found r = 0%Z /\
    ExpertResult.db1_matches r = 0%Z /\
    ExpertResult.db2_matches r = 0%Z /\
    ExpertResult.expert_list r = [] /\
    ExpertResult.ai_ranking r = VStr ("No experts found for topic: " +:+ topic) /\
    llm_requests w' = llm_requests w /\
    objects w' = objects w.
Proof.
  intros Hq1 Hq2. unfold find_expert.
  unfold bind at 1. unfold print at 1.
  unfold bind at 1. rewrite (search_experts_db1_run _ _ _ _ _ Hq1).
  unfold bind at 1. rewrite (search_experts_db2_run _ _ _ _ _ Hq2).
  simpl. eexists _, _. split; [reflexivity|]. simpl.
  split_and!; try done. by rewrite !app_nil_r.
Qed.

Lemma find_expert_no_matches_witness :
  db1_topic_query (sample_self http_500) "alchemy" default_limit = Ok [] /\
  db2_topic_query (sample_self http_500) "alchemy" default_limit = Ok [] /\
  exists r w',
    find_expert (sample_self http_500) "alchemy" default_limit empty_world
      = (Ok r, w') /\
    ExpertResult.experts_found r = 0%Z /\
    ExpertResult.ai_ranking r = VStr "No experts found for topic: alchemy" /\
    llm_requests w' = [].
Proof.
  assert (H1 : db1_topic_query (sample_self http_500) "alchemy" default_limit
               = Ok []) by reflexivity.
  assert (H2 : db2_topic_query (sample_self http_500) "alchemy" default_limit
               = Ok []) by reflexivity.
  split; [exact H1|]. split; [exact H2|].
  destruct (find_expert_no_matches (sample_self http_500) "alchemy" default_limit
              empty_world H1 H2)
    as (r & w' & Hrun & Hf & _ & _ & _ & Hai & Hreq & _).
  exists r, w'. split_and!; [exact Hrun|exact Hf|exact Hai|exact Hreq].
Defined.




(** The list [find_expert] returns refers to records that, read in the store
    it leaves behind, are in non-increasing order of combined score, carry
    pairwise different names, and each have a numeric score and one of the
    three source tags. *)
Theorem find_expert_ranked (self : researchbook) (topic : string) (limit : Z)
    (w : world) (rows1 : list Db1ExpertRow.t) (rows2 : list Db2ExpertRow.t) :
  db1_topic_query self topic limit = Ok rows1 ->
  db2_topic_query self topic limit = Ok rows2 ->
  forallb (fun row => hashable (Db1ExpertRow.name row)) rows1 = true ->
  forallb (fun row => hashable (Db2ExpertRow.name row)) rows2 = true ->
  exists r w' ds,
    find_expert self topic limit w = (Ok r, w') /\
    map_m deref (ExpertResult.expert_list r) (objects w') = (Ok ds, objects w') /\
    sorted_by_score ds /\
    NoDup (name_of <$> ds) /\
    Forall (fun d => is_Some (name_of d) /\
                     is_Some (count_of d "combined_score") /\
                     is_source_tag d = true) ds.
Proof.
  intros Hq1 Hq2 Hn1 Hn2.
  destruct (find_expert_run self topic limit w rows1 rows2 Hq1 Hq2 Hn1 Hn2)
    as (h1 & m2 & h2 & out & ds & qs & r & w' & Hwf & Hout & Hrun & Hlist & _
        & _ & _ & _ & Hobj & _).
  exists r, w', ds. split; [exact Hrun|]. rewrite Hlist, Hobj.
  destruct (map_m_deref h2 out) as (ds' & Hderef & Hds').
  { pose proof (out_deref _ _ _ _ _ _ _ _ _ Hout) as Hd.
    apply Forall_forall. intros r0 Hr.
    apply list_elem_of_lookup in Hr as [i Hi].
    destruct (Forall2_lookup_l _ _ _ _ _ Hd Hi) as (d & _ & Hrd). eauto. }
  assert (ds' = ds) as ->.
  { pose proof (out_deref _ _ _ _ _ _ _ _ _ Hout) as Hd.
    apply list_eq. intros i.
    destruct (out !! i) as [r0|] eqn:Hi.
    - destruct (Forall2_lookup_l _ _ _ _ _ Hd Hi) as (d & -> & Hrd).
      destruct (Forall2_lookup_l _ _ _ _ _ Hds' Hi) as (d' & -> & Hrd').
      congruence.
    - apply lookup_ge_None in Hi.
      rewrite (proj2 (lookup_ge_None ds' i)), (proj2 (lookup_ge_None ds i)); [done|..].
      + by rewrite <- (Forall2_length _ _ _ Hd).
      + by rewrite <- (Forall2_length _ _ _ Hds'). }
  split; [exact Hderef|]. split_and!.
  - exists qs. split; apply Hout.
  - apply (outcome_names_nodup Hout).
  - pose proof (entries_scored Hout) as Hsc. rewrite Forall_forall in Hsc.
    apply Forall_forall. intros d Hd. destruct (Hsc d Hd) as [H1 H2].
    split_and!; [|done..].
    destruct (outcome_entry_inv Hout d Hd) as (k & r0 & Hg & Hr0).
    destruct (outcome_entry Hout k r0 Hg) as (d' & Hd' & Hn & _).
    assert (d' = d) as -> by congruence. eauto.
Qed.

Lemma find_expert_ranked_witness :
  exists r w' ds,
    find_expert (sample_self http_500) "machine learning" default_limit empty_world
      = (Ok r, w') /\
    map_m deref (ExpertResult.expert_list r) (objects w') = (Ok ds, objects w') /\
    sorted_by_score ds.
Proof.
  destruct (find_expert_ranked (sample_self http_500) "machine learning"
              default_limit empty_world
              [sample_db1_row "A" 4] [sample_db2_row "A" "SUPERVISED" 2])
    as (r & w' & ds & Hrun & Hderef & Hsorted & _); try reflexivity.
  exists r, w', ds. split_and!; [exact Hrun|exact Hderef|exact Hsorted].
Defined.

(** A failure of a store surfaces from [find_expert] as it is: if the first
    topic query raises, [find_expert] raises the same exception having
    created no record; if the second raises after the first answered, it
    raises that exception.  In both cases nothing was posted to the LLM
    endpoint. *)
Theorem find_expert_store_error (self : researchbook) (topic : string) (limit : Z)
    (w : world) (e : exn) :
  (db1_topic_query self topic limit = Raise e ->
   fst (find_expert self topic limit w) = Raise e /\
   objects (snd (find_expert self topic limit w)) = objects w /\
   llm_requests (snd (find_expert self topic limit w)) = llm_requests w) /\
  (forall rows1,
     db1_topic_query self topic limit = Ok rows1 ->
     db2_topic_query self topic limit = Raise e ->
     fst (find_expert self topic limit w) = Raise e /\
     llm_requests (snd (find_expert self topic limit w)) = llm_requests w).
Proof.
  split.
  - intros Hq1.
    assert (Hrun : find_expert self topic limit w
                   = (Raise e, printed (find_line topic) w)).
    { unfold find_expert.
      unfold bind at 1. unfold print at 1.
      unfold bind at 1. unfold _search_experts_db1 at 1.
      unfold bind at 1. unfold lift_result at 1. rewrite Hq1. done. }
    rewrite Hrun. done.
  - intros rows1 Hq1 Hq2.
    assert (Hrun : exists w', find_expert self topic limit w = (Raise e, w') /\
                              llm_requests w' = llm_requests w).
    { unfold find_expert.
      unfold bind at 1. unfold print at 1.
      unfold bind at 1. rewrite (search_experts_db1_run _ _ _ _ _ Hq1).
      unfold bind at 1. unfold _search_experts_db2 at 1.
      unfold bind at 1. unfold lift_result at 1. rewrite Hq2.
      eexists. split; [reflexivity|done]. }
    destruct Hrun as (w' & -> & Hreq). done.
Qed.

Lemma find_expert_store_error_witness :
  fst (find_expert (sample_self_db1_down service_unavailable) "machine learning"
         default_limit empty_world) = Raise service_unavailable /\
  llm_requests (snd (find_expert (sample_self_db1_down service_unavailable)
                       "machine learning" default_limit empty_world)) = [].
Proof.
  destruct (proj1 (find_expert_store_error
                     (sample_self_db1_down service_unavailable)
                     "machine learning" default_limit empty_world
                     service_unavailable) eq_refl) as (H1 & _ & H3).
  split; [exact H1|exact H3].
Defined.

(** ** The adapters of the four queries *)

(** [_get_researcher_profile_db1] returns one profile per row of the answer,
    in order, and changes nothing.  The affiliations of a profile are those
    of its row whose organization is truthy, in the row's order: an
    affiliation without organization, such as the all-null one an optional
    match collects, never reaches a profile. *)
Theorem researcher_profiles_affiliations (self : researchbook) (name : string)
    (w : world) (rows : list ProfileRow.t) :
  db1_profile_query self name = Ok rows ->
  exists profiles,
    _get_researcher_profile_db1 self name w = (Ok profiles, w) /\
    Forall2 (fun row p =>
      p !! "name" = Some (ProfileRow.name row) /\
      p !! "total_publications" = Some (VInt (ProfileRow.total_publications row)) /\
      exists affs,
        p !! "affiliations" = Some (VList affs) /\
        sublist affs (map affiliation_value (ProfileRow.affiliations row)) /\
        Forall (fun a => exists d o, a = VDict d /\
                           d !! "organization" = Some o /\ truthy o = true) affs /\
        (forall aff, aff ∈ ProfileRow.affiliations row ->
           truthy (Affiliation.organization aff) = true ->
           affiliation_value aff ∈ affs)) rows profiles.
Proof.
  intros Hq. exists (map profile_of_row rows). split.
  { unfold _get_researcher_profile_db1, bind, lift_result, ret. by rewrite Hq. }
  clear Hq. induction rows as [|row rows IH]; [constructor|].
  simpl. constructor; [|exact IH].
  unfold profile_of_row, dict_of. simpl. split_and!.
  - by rewrite lookup_insert_eq.
  - rewrite !lookup_insert_ne by done. by rewrite lookup_insert_eq.
  - eexists. split_and!.
    + rewrite !lookup_insert_ne by done. by rewrite lookup_insert_eq.
    + apply (fmap_sublist affiliation_value). apply sublist_filter.
    + apply Forall_forall. intros a Ha.
      apply list_elem_of_fmap in Ha as (aff & -> & Haff).
      apply list_elem_of_filter in Haff as [Ht _].
      unfold affiliation_value, dict_of. simpl.
      eexists _, (Affiliation.organization aff). split_and!; [reflexivity| |done].
      by rewrite lookup_insert_eq.
    + intros aff Hin Ht. apply list_elem_of_fmap. exists aff. split; [done|].
      apply list_elem_of_filter. done.
Qed.

Lemma researcher_profiles_affiliations_witness :
  exists profiles,
    _get_researcher_profile_db1
      (sample_self_answering [sample_affiliated_row] [] [] []) "Anders" empty_world
      = (Ok profiles, empty_world) /\
    Forall2 (fun row p =>
      p !! "name" = Some (ProfileRow.name row) /\
      p !! "total_publications" = Some (VInt (ProfileRow.total_publications row)) /\
      exists affs,
        p !! "affiliations" = Some (VList affs) /\
        sublist affs (map affiliation_value (ProfileRow.affiliations row)) /\
        Forall (fun a => exists d o, a = VDict d /\
                           d !! "organization" = Some o /\ truthy o = true) affs /\
        (forall aff, aff ∈ ProfileRow.affiliations row ->
           truthy (Affiliation.organization aff) = true ->
           affiliation_value aff ∈ affs)) [sample_affiliated_row] profiles.
Proof.
  apply (researcher_profiles_affiliations
           (sample_self_answering [sample_affiliated_row] [] [] [])
           "Anders" empty_world [sample_affiliated_row]).
  reflexivity.
Defined.

(** [_get_thesis_activities_db2] returns one activity per row of the answer,
    in order, and changes nothing.  The keywords and the abstract of an
    activity are never null: a value of the row that is falsy, null above
    all, is replaced by the empty list and the empty string, and any other
    value is kept. *)
Theorem thesis_activities_defaults (self : researchbook) (name : string)
    (w : world) (rows : list ActivityRow.t) :
  db2_activity_query self name = Ok rows ->
  exists activities,
    _get_thesis_activities_db2 self name w = (Ok activities, w) /\
    Forall2 (fun row a =>
      a !! "person_name" = Some (ActivityRow.person_name row) /\
      a !! "role" = Some (ActivityRow.relationship_type row) /\
      exists kw ab,
        a !! "keywords" = Some kw /\ a !! "abstract" = Some ab /\
        kw <> VNone /\ ab <> VNone /\
        (truthy (ActivityRow.keywords row) = true -> kw = ActivityRow.keywords row) /\
        (truthy (ActivityRow.keywords row) = false -> kw = VList []) /\
        (truthy (ActivityRow.abstract row) = true -> ab = ActivityRow.abstract row) /\
        (truthy (ActivityRow.abstract row) = false -> ab = VStr EmptyString))
      rows activities.
Proof.
  intros Hq. exists (map activity_of_row rows). split.
  { unfold _get_thesis_activities_db2, bind, lift_result, ret. by rewrite Hq. }
  clear Hq. induction rows as [|row rows IH]; [constructor|].
  simpl. constructor; [|exact IH].
  unfold activity_of_row, dict_of. simpl. split_and!.
  - by rewrite lookup_insert_eq.
  - rewrite !lookup_insert_ne by done. by rewrite lookup_insert_eq.
  - eexists _, _. split_and!.
    + rewrite !lookup_insert_ne by done. by rewrite lookup_insert_eq.
    + rewrite !lookup_insert_ne by done. by rewrite lookup_insert_eq.
    + unfold py_or. destruct (ActivityRow.keywords row); simpl; try done.
      all: by case_match.
    + unfold py_or. destruct (ActivityRow.abstract row); simpl; try done.
      all: by case_match.
    + unfold py_or. by intros ->.
    + unfold py_or. by intros ->.
    + unfold py_or. by intros ->.
    + unfold py_or. by intros ->.
Qed.

Lemma thesis_activities_defaults_witness :
  exists activities,
    _get_thesis_activities_db2
      (sample_self_answering [] [sample_activity_row] [] []) "Anders" empty_world
      = (Ok activities, empty_world) /\
    Forall2 (fun row a =>
      a !! "person_name" = Some (ActivityRow.person_name row) /\
      a !! "role" = Some (ActivityRow.relationship_type row) /\
      exists kw ab,
        a !! "keywords" = Some kw /\ a !! "abstract" = Some ab /\
        kw <> VNone /\ ab <> VNone /\
        (truthy (ActivityRow.keywords row) = true -> kw = ActivityRow.keywords row) /\
        (truthy (ActivityRow.keywords row) = false -> kw = VList []) /\
        (truthy (ActivityRow.abstract row) = true -> ab = ActivityRow.abstract row) /\
        (truthy (ActivityRow.abstract row) = false -> ab = VStr EmptyString))
      [sample_activity_row] activities.
Proof.
  apply (thesis_activities_defaults
           (sample_self_answering [] [sample_activity_row] [] [])
           "Anders" empty_world [sample_activity_row]).
  reflexivity.
Defined.

Lemma allocated_records {A} (f : A -> pydict) (h : heap) (rows : list A) :
  Forall2 (fun row r => (h ++ map f rows) !! r = Some (f row))
    rows (seq (length h) (length rows)).
Proof.
  revert h. induction rows as [|row rows IH]; intros h; [constructor|].
  simpl. constructor.
  - rewrite lookup_app_r by lia. by rewrite Nat.sub_diag.
  - specialize (IH (h ++ [f row])).
    rewrite length_app in IH. simpl in IH.
    rewrite <- app_assoc in IH. simpl in IH.
    by replace (length h + 1) with (S (length h)) in IH by lia.
Qed.

(** The two topic searches turn each row of the answer into one new record,
    in order: the references they return are pairwise different and were not
    in use before, the records already in the store stay as they were, and
    each new record carries the name and the count of its row, the tag of its
    database and no combined score yet.  Nothing is printed or posted.  When
    the query raises, the search raises the same exception and the world is
    as before. *)
Theorem search_experts_fresh_records (self : researchbook) (topic : string)
    (limit : Z) (w : world) :
  (forall rows, db1_topic_query self topic limit = Ok rows ->
     exists refs w',
       _search_experts_db1 self topic limit w = (Ok refs, w') /\
       NoDup refs /\
       (forall r, r < length (objects w) ->
          (r ∉ refs) /\ objects w' !! r = objects w !! r) /\
       Forall2 (fun row r => exists d,
           objects w' !! r = Some d /\
           d !! "name" = Some (Db1ExpertRow.name row) /\
           d !! "relevant_publications" = Some (VInt (Db1ExpertRow.relevant_pubs row)) /\
           d !! "source" = Some (VStr "database_1") /\
           d !! "combined_score" = None) rows refs /\
       stdout w' = stdout w /\ llm_requests w' = llm_requests w) /\
  (forall rows, db2_topic_query self topic limit = Ok rows ->
     exists refs w',
       _search_experts_db2 self topic limit w = (Ok refs, w') /\
       NoDup refs /\
       (forall r, r < length (objects w) ->
          (r ∉ refs) /\ objects w' !! r = objects w !! r) /\
       Forall2 (fun row r => exists d,
           objects w' !! r = Some d /\
           d !! "name" = Some (Db2ExpertRow.name row) /\
           d !! "relevant_theses" = Some (VInt (Db2ExpertRow.relevant_theses row)) /\
           d !! "source" = Some (VStr "database_2") /\
           d !! "combined_score" = None) rows refs /\
       stdout w' = stdout w /\ llm_requests w' = llm_requests w) /\
  (forall e, db1_topic_query self topic limit = Raise e ->
     _search_experts_db1 self topic limit w = (Raise e, w)) /\
  (forall e, db2_topic_query self topic limit = Raise e ->
     _search_experts_db2 self topic limit w = (Raise e, w)).
Proof.
  split_and!.
  - intros rows Hq. eexists _, _. split; [apply (search_experts_db1_run _ _ _ _ _ Hq)|].
    simpl. split_and!; try done.
    + apply NoDup_seq.
    + intros r Hr. split.
      * rewrite elem_of_seq. lia.
      * by rewrite lookup_app_l.
    + eapply Forall2_impl; [apply allocated_records|].
      intros row r Hr. simpl in Hr. eexists. split; [exact Hr|].
      unfold expert_of_db1_row, dict_of. simpl. split_and!.
      * by rewrite lookup_insert_eq.
      * rewrite !lookup_insert_ne by done. by rewrite lookup_insert_eq.
      * rewrite !lookup_insert_ne by done. by rewrite lookup_insert_eq.
      * rewrite !lookup_insert_ne by done. done.
  - intros rows Hq. eexists _, _. split; [apply (search_experts_db2_run _ _ _ _ _ Hq)|].
    simpl. split_and!; try done.
    + apply NoDup_seq.
    + intros r Hr. split.
      * rewrite elem_of_seq. lia.
      * by rewrite lookup_app_l.
    + eapply Forall2_impl; [apply allocated_records|].
      intros row r Hr. simpl in Hr. eexists. split; [exact Hr|].
      unfold expert_of_db2_row, dict_of. simpl. split_and!.
      * by rewrite lookup_insert_eq.
      * rewrite !lookup_insert_ne by done. by rewrite lookup_insert_eq.
      * rewrite !lookup_insert_ne by done. by rewrite lookup_insert_eq.
      * rewrite !lookup_insert_ne by done. done.
  - intros e Hq. unfold _search_experts_db1, bind, lift_result. by rewrite Hq.
  - intros e Hq. unfold _search_experts_db2, bind, lift_result. by rewrite Hq.
Qed.

Lemma search_experts_fresh_records_witness :
  exists refs w',
    _search_experts_db1 (sample_self http_500) "machine learning" default_limit
      empty_world = (Ok refs, w') /\
    NoDup refs /\
    Forall2 (fun row r => exists d,
        objects w' !! r = Some d /\
        d !! "name" = Some (Db1ExpertRow.name row) /\
        d !! "relevant_publications" = Some (VInt (Db1ExpertRow.relevant_pubs row)) /\
        d !! "source" = Some (VStr "database_1") /\
        d !! "combined_score" = None) [sample_db1_row "A" 4] refs.
Proof.
  destruct (proj1 (search_experts_fresh_records (sample_self http_500)
                     "machine learning" default_limit empty_world)
              [sample_db1_row "A" 4] eq_refl)
    as (refs & w' & Hrun & Hnd & _ & Hrec & _).
  exists refs, w'. done.
Defined.

(** * Further properties of the merge *)

(** ** What the merge can reach *)

Lemma touches_only_refl l h : touches_only l h h.
Proof.
  split_and!; [done|done|]. intros r d Hd. exists d. done.
Qed.

Lemma touches_only_trans l h1 h2 h3 :
  touches_only l h1 h2 -> touches_only l h2 h3 -> touches_only l h1 h3.
Proof.
  intros (Hl1 & Hf1 & Hd1) (Hl2 & Hf2 & Hd2). split_and!.
  - congruence.
  - intros r Hr. rewrite Hf2, Hf1; done.
  - intros r d Hd.
    destruct (Hd1 r d Hd) as (d' & Hd' & Hdom' & Hfld').
    destruct (Hd2 r d' Hd') as (d'' & Hd'' & Hdom'' & Hfld'').
    exists d''. split_and!; [done|set_solver|].
    intros f Hf. rewrite Hfld'', Hfld'; done.
Qed.

Lemma confined_ret {A} l (a : A) (Q : A -> Prop) : Q a -> confined l (ret a) Q.
Proof. intros Ha h. simpl. split; [apply touches_only_refl|done]. Qed.

Lemma confined_bind {A B} l (m : M heap A) (k : A -> M heap B)
    (P : A -> Prop) (Q : B -> Prop) :
  confined l m P -> (forall a, P a -> confined l (k a) Q) ->
  confined l (bind m k) Q.
Proof.
  intros Hm Hk h. unfold bind. specialize (Hm h).
  destruct (m h) as [[a|e] h'] eqn:Hrun; simpl in Hm.
  - destruct Hm as [Ht Ha]. destruct (Hk a Ha h') as [Ht' Hq].
    split; [|done]. eapply touches_only_trans; done.
  - simpl. split; [apply Hm|done].
Qed.

Lemma confined_weaken {A} l (m : M heap A) (P Q : A -> Prop) :
  confined l m P -> (forall a, P a -> Q a) -> confined l m Q.
Proof.
  intros Hm HPQ h. destruct (Hm h) as [Ht Hp]. split; [done|].
  destruct (fst (m h)); [by apply HPQ|done].
Qed.

Lemma confined_lift_result {A} l (r : result A) :
  confined l (lift_result r) (fun _ => True).
Proof.
  intros h. unfold lift_result. simpl. split; [apply touches_only_refl|].
  by destruct r.
Qed.

Lemma confined_getitem l r f : confined l (getitem r f) (fun _ => True).
Proof.
  intros h. unfold getitem.
  destruct (h !! r) as [d|]; [destruct (d !! f)|]; simpl;
    (split; [apply touches_only_refl|done]).
Qed.

Lemma confined_setitem l r f v :
  r ∈ l -> f ∈ written_fields -> confined l (setitem r f v) (fun _ => True).
Proof.
  intros Hr Hf h. unfold setitem.
  destruct (h !! r) as [d|] eqn:Hd; simpl;
    [|split; [apply touches_only_refl|done]].
  split; [|done]. split_and!.
  - apply length_insert.
  - intros r' Hr'. rewrite (heap_lookup_insert _ _ _ _ _ Hd).
    destruct (decide (r = r')); [by subst|done].
  - intros r' d0 Hd0. rewrite (heap_lookup_insert _ _ _ _ _ Hd).
    destruct (decide (r = r')) as [<-|Hne].
    + assert (d0 = d) as -> by congruence.
      eexists. split_and!; [reflexivity|set_solver|].
      intros f' Hf'. apply lookup_insert_ne. by intros <-.
    + exists d0. done.
Qed.

Lemma confined_dict_getitem l (m : merged_dict) k :
  confined l (dict_getitem m k) (fun r => r ∈ map snd m).
Proof.
  intros h. unfold dict_getitem.
  destruct (dict_get m k) as [r|] eqn:Hk; simpl;
    (split; [apply touches_only_refl|]); [|done].
  apply dict_get_elem in Hk. apply list_elem_of_fmap. by exists (k, r).
Qed.

Lemma confined_for_each {A B} l (body : B -> A -> M heap B) (I : B -> Prop)
    (xs : list A) :
  (forall acc x, x ∈ xs -> I acc -> confined l (body acc x) I) ->
  forall acc, I acc -> confined l (for_each xs body acc) I.
Proof.
  induction xs as [|x xs IH]; intros Hbody acc Hacc; simpl.
  - by apply confined_ret.
  - eapply confined_bind.
    + apply Hbody; [left|done].
    + intros acc' Hacc'. apply IH; [|done].
      intros acc0 x0 Hx0. apply Hbody. by right.
Qed.

Lemma confined_map_m {A B} l (f : A -> M heap B) (xs : list A) :
  (forall x, confined l (f x) (fun _ => True)) ->
  confined l (map_m f xs) (fun ys => length ys = length xs).
Proof.
  intros Hf. induction xs as [|x xs IH]; simpl.
  - by apply confined_ret.
  - eapply confined_bind; [apply Hf|]. intros y _.
    eapply confined_bind; [apply IH|]. intros ys Hys.
    apply confined_ret. simpl. by rewrite Hys.
Qed.

Lemma confined_sort_key l r : confined l (sort_key r) (fun _ => True).
Proof.
  unfold sort_key. eapply confined_bind; [apply confined_getitem|].
  intros v _. destruct (number v); intros h; simpl;
    (split; [apply touches_only_refl|done]).
Qed.

Lemma dict_set_values (m : merged_dict) k e r :
  r ∈ map snd (dict_set m k e) -> r = e \/ r ∈ map snd m.
Proof.
  induction m as [|[k' r'] m IH]; simpl.
  - rewrite list_elem_of_singleton. by left.
  - destruct (decide (k = k')); simpl; rewrite !elem_of_cons; naive_solver.
Qed.

Lemma add_db1_expert_confined l m e :
  e ∈ l -> (forall r, r ∈ map snd m -> r ∈ l) ->
  confined l (add_db1_expert m e) (fun m' => forall r, r ∈ map snd m' -> r ∈ l).
Proof.
  intros He Hm.
  assert (Hset : forall k r, r ∈ map snd (dict_set m k e) -> r ∈ l).
  { intros k r Hr. apply dict_set_values in Hr as [->|Hr]; auto. }
  unfold add_db1_expert.
  eapply confined_bind; [apply confined_getitem|]. intros name_v _.
  eapply confined_bind; [apply confined_lift_result|]. intros name _.
  cbv zeta.
  eapply confined_bind; [apply confined_getitem|]. intros pubs _.
  eapply confined_bind; [apply confined_dict_getitem|]. intros target Ht.
  eapply confined_bind;
    [apply confined_setitem; [eapply Hset; exact Ht|unfold written_fields; rewrite !elem_of_cons; tauto]|]. intros _ _.
  apply confined_ret. apply Hset.
Qed.

Lemma merge_db2_expert_confined l m e :
  e ∈ l -> (forall r, r ∈ map snd m -> r ∈ l) ->
  confined l (merge_db2_expert m e) (fun m' => forall r, r ∈ map snd m' -> r ∈ l).
Proof.
  intros He Hm.
  assert (Hset : forall k r, r ∈ map snd (dict_set m k e) -> r ∈ l).
  { intros k r Hr. apply dict_set_values in Hr as [->|Hr]; auto. }
  unfold merge_db2_expert.
  eapply confined_bind; [apply confined_getitem|]. intros name_v _.
  eapply confined_bind; [apply confined_lift_result|]. intros name _.
  destruct (dict_contains m name).
  - eapply confined_bind; [apply confined_getitem|]. intros roles _.
    eapply confined_bind; [apply confined_dict_getitem|]. intros t1 Ht1.
    eapply confined_bind;
      [apply confined_setitem; [by apply Hm|unfold written_fields; rewrite !elem_of_cons; tauto]|]. intros _ _.
    eapply confined_bind; [apply confined_getitem|]. intros theses _.
    eapply confined_bind; [apply confined_dict_getitem|]. intros t2 Ht2.
    eapply confined_bind;
      [apply confined_setitem; [by apply Hm|unfold written_fields; rewrite !elem_of_cons; tauto]|]. intros _ _.
    eapply confined_bind; [apply confined_getitem|]. intros samples _.
    eapply confined_bind; [apply confined_dict_getitem|]. intros t3 Ht3.
    eapply confined_bind;
      [apply confined_setitem; [by apply Hm|unfold written_fields; rewrite !elem_of_cons; tauto]|]. intros _ _.
    eapply confined_bind; [apply confined_dict_getitem|]. intros t4 Ht4.
    eapply confined_bind; [apply confined_getitem|]. intros old _.
    eapply confined_bind; [apply confined_getitem|]. intros theses' _.
    eapply confined_bind; [apply confined_lift_result|]. intros weighted _.
    eapply confined_bind; [apply confined_lift_result|]. intros new _.
    eapply confined_bind;
      [apply confined_setitem; [by apply Hm|unfold written_fields; rewrite !elem_of_cons; tauto]|]. intros _ _.
    eapply confined_bind; [apply confined_dict_getitem|]. intros t5 Ht5.
    eapply confined_bind;
      [apply confined_setitem; [by apply Hm|unfold written_fields; rewrite !elem_of_cons; tauto]|]. intros _ _.
    by apply confined_ret.
  - eapply confined_bind; [apply confined_getitem|]. intros theses _.
    eapply confined_bind; [apply confined_lift_result|]. intros weighted _.
    eapply confined_bind;
      [apply confined_setitem; [done|unfold written_fields; rewrite !elem_of_cons; tauto]|]. intros _ _.
    apply confined_ret. apply Hset.
Qed.

Lemma merge_confined db1 db2 :
  confined (db1 ++ db2) (_merge_expert_results db1 db2)
    (fun out => out ⊆ db1 ++ db2).
Proof.
  unfold _merge_expert_results.
  eapply confined_bind.
  { apply (confined_for_each _ _
             (fun m => forall r, r ∈ map snd m -> r ∈ db1 ++ db2)).
    - intros acc x Hx Hacc. apply add_db1_expert_confined; [|done].
      apply elem_of_app. by left.
    - simpl. intros r Hr. by apply elem_of_nil in Hr. }
  intros m1 Hm1.
  eapply confined_bind.
  { apply (confined_for_each _ _
             (fun m => forall r, r ∈ map snd m -> r ∈ db1 ++ db2)).
    - intros acc x Hx Hacc. apply merge_db2_expert_confined; [|done].
      apply elem_of_app. by right.
    - done. }
  intros m2 Hm2. cbv zeta.
  eapply confined_bind.
  { apply confined_map_m. intros r. apply confined_sort_key. }
  intros keys _. apply confined_ret.
  intros r Hr. apply Hm2.
  apply list_elem_of_fmap in Hr as ([q r'] & -> & Hin).
  rewrite sort_desc_perm in Hin. simpl.
  by apply elem_of_zip_r in Hin.
Qed.

(** Whatever the store and the two lists hold, and whether the merge returns
    or raises midway, it creates and drops no record, leaves every record
    outside the two lists as it was, removes no field of any record, and
    changes no field other than the five it assigns: a name, above all, is
    never changed.  The list it returns holds references of its two
    arguments only. *)
Theorem merge_touches_only_its_arguments (h : heap) (db1 db2 : list ref) :
  touches_only (db1 ++ db2) h (snd (_merge_expert_results db1 db2 h)) /\
  (forall out, fst (_merge_expert_results db1 db2 h) = Ok out ->
     out ⊆ db1 ++ db2).
Proof.
  destruct (merge_confined db1 db2 h) as [Ht Hout]. split; [done|].
  intros out Hrun. by rewrite Hrun in Hout.
Qed.

Lemma merge_touches_only_its_arguments_witness :
  fst (_merge_expert_results [0] [1] heap_a4_a2) = Ok [0] /\
  [0] ⊆ [0] ++ [1].
Proof.
  split; [vm_compute; reflexivity|].
  apply (proj2 (merge_touches_only_its_arguments heap_a4_a2 [0] [1]) [0]).
  vm_compute. reflexivity.
Defined.

(** ** Names that a list repeats *)

Lemma last_named_snoc h k (l : list ref) e :
  last_named h k (l ++ [e]) =
  if decide (obj_name h e = Some k) then Some e else last_named h k l.
Proof.
  unfold last_named. rewrite filter_snoc_named.
  destruct (decide (obj_name h e = Some k)).
  - apply last_snoc.
  - by rewrite app_nil_r.
Qed.

Lemma last_named_elem h k (l : list ref) e :
  last_named h k l = Some e -> e ∈ l /\ obj_name h e = Some k.
Proof.
  unfold last_named. intros Hl.
  assert (e ∈ filter (fun r => obj_name h r = Some k) l) as Hin.
  { apply last_Some in Hl as [l' ->]. apply elem_of_app. right. left. }
  by apply list_elem_of_filter in Hin as [? ?].
Qed.

Lemma seed_keys_snoc h m (l : list ref) e :
  seed_keys h m (l ++ [e]) =
  match obj_name h e with
  | Some k => dict_set (seed_keys h m l) k e
  | None => seed_keys h m l
  end.
Proof. unfold seed_keys. by rewrite foldl_app. Qed.

Lemma seed_keys_last h m (l : list ref) k :
  dict_get (seed_keys h m l) k =
  match last_named h k l with Some r => Some r | None => dict_get m k end.
Proof.
  induction l as [|e l IH] using rev_ind; [done|].
  rewrite seed_keys_snoc, last_named_snoc.
  destruct (obj_name h e) as [k'|] eqn:He.
  - rewrite dict_get_set. destruct (decide (k' = k)) as [->|Hne].
    + by rewrite decide_True.
    + rewrite decide_False by congruence. exact IH.
  - rewrite decide_False by done. exact IH.
Qed.

Lemma records_named_last h k (l : list ref) e :
  Forall (fun e' => is_Some (h !! e')) l ->
  last_named h k l = Some e ->
  exists d, h !! e = Some d /\ name_of d = Some k /\
            last (records_named h k l) = Some d.
Proof.
  induction l as [|x l IH] using rev_ind; intros Hall Hlast; [done|].
  apply Forall_app in Hall as [Hall Hx].
  apply Forall_singleton in Hx as [dx Hdx].
  rewrite last_named_snoc in Hlast.
  rewrite (records_named_snoc _ _ _ _ _ Hdx).
  assert (Hname : obj_name h x = name_of dx).
  { unfold obj_name. by rewrite Hdx. }
  destruct (decide (obj_name h x = Some k)) as [Hk|Hk].
  - injection Hlast as <-. rewrite Hname in Hk.
    exists dx. rewrite decide_True by done. split_and!; [done|done|].
    apply last_snoc.
  - rewrite Hname in Hk. rewrite decide_False by done. rewrite app_nil_r.
    by apply IH.
Qed.

Lemma foldl_absorb_has_score l : forall d1,
  Forall (fun d => readable2 d = true) l ->
  is_Some (count_of d1 "combined_score") ->
  is_Some (count_of (foldl absorb d1 l) "combined_score").
Proof.
  induction l as [|d l IH]; intros d1 Hall Hs; [done|].
  apply Forall_cons in Hall as [Hd Hall]. simpl.
  apply IH; [done|]. by apply absorb_score.
Qed.

Lemma foldl_absorb_last l d1 d2 :
  Forall (fun d => readable2 d = true) l ->
  is_Some (count_of d1 "combined_score") ->
  last l = Some d2 ->
  foldl absorb d1 l !! "thesis_roles" = d2 !! "roles" /\
  foldl absorb d1 l !! "relevant_theses" = d2 !! "relevant_theses" /\
  foldl absorb d1 l !! "sample_theses" = d2 !! "sample_theses".
Proof.
  intros Hall Hs Hlast. apply last_Some in Hlast as [l' ->].
  apply Forall_app in Hall as [Hall Hd2].
  rewrite Forall_singleton in Hd2.
  rewrite foldl_app. simpl.
  destruct (absorb_readable_eq (foldl absorb d1 l') d2 Hd2)
    as (roles & th & samples & qt & q0 & Hr & Hth & Hsm & _ & _ & _ & ->).
  { by apply foldl_absorb_has_score. }
  rewrite Hr, Hth, Hsm. split_and!.
  - rewrite !lookup_insert_ne by done. by rewrite lookup_insert_eq.
  - rewrite !lookup_insert_ne by done. by rewrite lookup_insert_eq.
  - rewrite !lookup_insert_ne by done. by rewrite lookup_insert_eq.
Qed.

Section repeated_names.
Context {h0 : heap} {db1 db2 : list ref} {h1 : heap} {m2 : merged_dict}
  {h2 : heap} {out : list ref} {ds : list pydict} {qs : list Q}.
Hypothesis Hwf : well_formed h0 db1 db2 = true.
Hypothesis Hout : outcome h0 db1 db2 h1 m2 h2 out ds qs.

Lemma returned_ref r : r ∈ out <-> exists k, dict_get m2 k = Some r.
Proof.
  pose proof (out_inv _ _ _ _ _ _ _ _ _ Hout) as Inv.
  rewrite (out_perm _ _ _ _ _ _ _ _ _ Hout). split.
  - intros Hr. apply list_elem_of_fmap in Hr as ([k r'] & -> & Hin).
    exists k. apply dict_elem_get; [apply (inv_keys_nodup _ _ _ _ _ Inv)|done].
  - intros [k Hk]. apply dict_get_elem in Hk.
    apply list_elem_of_fmap. by exists (k, r).
Qed.

Lemma db1_last_kept k r :
  last_named h0 k db1 = Some r ->
  dict_get m2 k = Some r /\
  forall r', r' ∈ db1 -> obj_name h0 r' = Some k -> r' <> r ->
    (r' ∉ out) /\
    exists d0 p, h0 !! r' = Some d0 /\
                 d0 !! "relevant_publications" = Some p /\
                 h2 !! r' = Some (<["combined_score" := p]> d0).
Proof.
  pose proof (out_inv _ _ _ _ _ _ _ _ _ Hout) as Inv.
  intros Hlast.
  assert (Hg1 : dict_get (seed_keys h0 [] db1) k = Some r).
  { by rewrite seed_keys_last, Hlast. }
  pose proof (inv_old _ _ _ _ _ Inv _ _ Hg1) as Hg2.
  split; [done|]. intros r' Hr' Hn' Hne.
  assert (Hn1 : obj_name h1 r' = Some k).
  { by rewrite (outcome_names1 Hout). }
  assert (Hnot : dict_get m2 k <> Some r') by congruence.
  split.
  - intros Hin. apply returned_ref in Hin as [k' Hk'].
    pose proof (inv_named _ _ _ _ _ Inv _ _ Hk') as Hnk'.
    assert (k' = k) as -> by congruence. congruence.
  - destruct (wf_db1 Hwf Hout r' Hr') as (d0 & Hd0 & Hd1 & Hrec).
    apply is_db1_record_spec in Hrec as (_ & Hp & _).
    apply count_of_is_Some in Hp as [p Hp].
    exists d0, p. split_and!; [done|done|].
    rewrite (inv_nontarget _ _ _ _ _ Inv _ _ Hn1 Hnot), Hd1.
    unfold seed. by rewrite Hp.
Qed.

Lemma db2_rows_absorbed k e :
  k ∈ names h0 db1 ->
  last_named h0 k db2 = Some e ->
  exists d p q d2,
    named k ds = [d] /\
    count_of d "relevant_publications" = Some p /\
    d !! "combined_score" = Some (VFloat q) /\
    (q == p + half * Qsum (theses_named h0 k db2))%Q /\
    h0 !! e = Some d2 /\
    d !! "thesis_roles" = d2 !! "roles" /\
    d !! "relevant_theses" = d2 !! "relevant_theses" /\
    d !! "sample_theses" = d2 !! "sample_theses".
Proof.
  pose proof (out_inv _ _ _ _ _ _ _ _ _ Hout) as Inv.
  intros Hk1 Hlast.
  assert (Hall2 : Forall (fun e' => is_Some (h0 !! e')) db2).
  { apply Forall_forall. intros e' He'.
    destruct (wf_db2 Hwf Hout e' He') as (de & Hde & _). eauto. }
  destruct (records_named_last _ _ _ _ Hall2 Hlast) as (d2 & Hd2 & Hn2 & Hl2).
  assert (Hk2 : k ∈ names h0 db2).
  { apply last_named_elem in Hlast as [He Hne].
    apply elem_of_names. eauto. }
  destruct (entry_both Hwf Hout k Hk1 Hk2)
    as (d & r0 & d00 & p & Hnamed & _ & _ & _ & _ & Hp & _ & Hcs).
  destruct (wf_target1 Hwf Hout k Hk1)
    as (r & d0 & Hg1 & Hr & Hd0 & Hd1 & Hn0 & Hrec).
  pose proof (inv_old _ _ _ _ _ Inv _ _ Hg1) as Hg2.
  destruct (outcome_entry Hout k r Hg2) as (d' & Hd' & Hn' & Hnamed').
  assert (d' = d) as -> by congruence.
  pose proof (inv_hit _ _ _ _ _ Inv _ _ _ Hg1 Hd1) as Hhit.
  rewrite (wf_records_named Hwf Hout) in Hhit.
  assert (Heq : d = foldl absorb (seed d0) (records_named h0 k db2)) by congruence.
  apply is_db1_record_spec in Hrec as (_ & Hp0 & _).
  destruct (foldl_absorb_last (records_named h0 k db2) (seed d0) d2)
    as (Hroles & Hth & Hsm); [apply (wf_records_readable Hwf Hout)| |done|].
  { rewrite seed_score by done. done. }
  exists d, p, (accumulate p (theses_named h0 k db2)), d2.
  split_and!; try done.
  - apply accumulate_sum.
  - by rewrite Heq.
  - by rewrite Heq.
  - by rewrite Heq.
Qed.
End repeated_names.

(** When database 1 lists several records under one name, the merged list
    holds the last of them and none of the others; yet each of the others
    has been given its publication count as combined score, and nothing
    else was changed in it. *)
Theorem merge_repeated_db1_name (h : heap) (db1 db2 : list ref) (k : key)
    (r : ref) :
  well_formed h db1 db2 = true ->
  last_named h k db1 = Some r ->
  exists out h',
    _merge_expert_results db1 db2 h = (Ok out, h') /\
    r ∈ out /\
    forall r', r' ∈ db1 -> obj_name h r' = Some k -> r' <> r ->
      (r' ∉ out) /\
      exists d0 p, h !! r' = Some d0 /\
                   d0 !! "relevant_publications" = Some p /\
                   h' !! r' = Some (<["combined_score" := p]> d0).
Proof.
  intros Hwf Hlast.
  destruct (merge_outcome h db1 db2 Hwf) as (h1 & m2 & h2 & out & ds & qs & Hout).
  exists out, h2. split; [apply (out_run _ _ _ _ _ _ _ _ _ Hout)|].
  destruct (db1_last_kept Hwf Hout k r Hlast) as [Hg Hrest].
  split; [|exact Hrest].
  apply (returned_ref Hout). eauto.
Qed.

Lemma merge_repeated_db1_name_witness :
  exists out h',
    _merge_expert_results [0; 1] [] heap_a4_a7 = (Ok out, h') /\
    1 ∈ out /\
    (0 ∉ out) /\
    exists d, h' !! 0 = Some d /\
              count_of d "combined_score" = Some (inject_Z 4).
Proof.
  destruct (merge_repeated_db1_name heap_a4_a7 [0; 1] [] (KStr "A") 1
              eq_refl eq_refl) as (out & h' & Hrun & Hin & Hrest).
  destruct (Hrest 0) as (Hnot & d0 & p & Hd0 & Hp & Hd');
    [by left|done|done|].
  exists out, h'. split_and!; [done|done|done|].
  eexists. split; [exact Hd'|].
  injection Hd0 as <-. vm_compute in Hp. injection Hp as <-.
  by rewrite count_of_insert_eq.
Defined.

(** When a name of database 1 has any number of rows in database 2, its one
    record in the merged list carries a combined score of the publication
    count plus half the sum of the thesis counts of all these rows, while its
    thesis roles, thesis count and sample theses are those of the last row
    alone. *)
Theorem merge_repeated_db2_rows (h : heap) (db1 db2 : list ref) (k : key)
    (e : ref) :
  well_formed h db1 db2 = true ->
  k ∈ names h db1 ->
  last_named h k db2 = Some e ->
  exists ds d p q d2,
    fst (returned_records db1 db2 h) = Ok ds /\
    named k ds = [d] /\
    count_of d "relevant_publications" = Some p /\
    d !! "combined_score" = Some (VFloat q) /\
    (q == p + half * Qsum (theses_named h k db2))%Q /\
    h !! e = Some d2 /\
    d !! "thesis_roles" = d2 !! "roles" /\
    d !! "relevant_theses" = d2 !! "relevant_theses" /\
    d !! "sample_theses" = d2 !! "sample_theses".
Proof.
  intros Hwf Hk1 Hlast.
  destruct (merge_outcome h db1 db2 Hwf) as (h1 & m2 & h2 & out & ds & qs & Hout).
  destruct (db2_rows_absorbed Hwf Hout k e Hk1 Hlast)
    as (d & p & q & d2 & H).
  exists ds, d, p, q, d2. split; [|exact H].
  by rewrite (out_records _ _ _ _ _ _ _ _ _ Hout).
Qed.

Lemma merge_repeated_db2_rows_witness :
  theses_named heap_a4_a2_a3 (KStr "A") [1; 2] = [inject_Z 2; inject_Z 3] /\
  exists ds d p q d2,
    fst (returned_records [0] [1; 2] heap_a4_a2_a3) = Ok ds /\
    named (KStr "A") ds = [d] /\
    count_of d "relevant_publications" = Some p /\
    d !! "combined_score" = Some (VFloat q) /\
    (q == p + half * Qsum (theses_named heap_a4_a2_a3 (KStr "A") [1; 2]%nat))%Q /\
    heap_a4_a2_a3 !! 2 = Some d2 /\
    d !! "thesis_roles" = d2 !! "roles" /\
    d !! "relevant_theses" = d2 !! "relevant_theses" /\
    d !! "sample_theses" = d2 !! "sample_theses".
Proof.
  split; [reflexivity|].
  apply (merge_repeated_db2_rows heap_a4_a2_a3 [0] [1; 2] (KStr "A") 2).
  - reflexivity.
  - vm_compute. left.
  - reflexivity.
Defined.

(** ** Records the merge cannot read *)

Lemma for_each_app {S A B} (l1 l2 : list A) (body : B -> A -> M S B) :
  forall acc s,
    for_each (l1 ++ l2) body acc s =
    bind (for_each l1 body acc) (fun acc' => for_each l2 body acc') s.
Proof.
  induction l1 as [|x l1 IH]; intros acc s; [done|].
  simpl. unfold bind.
  destruct (body acc x s) as [[acc'|e] s']; [|done].
  rewrite IH. done.
Qed.

Lemma unnamed_steps m e h d err :
  h !! e = Some d ->
  (d !! "name" = None /\ err = KeyError "'name'") \/
  (exists v, d !! "name" = Some v /\ hash_key v = Raise err) ->
  add_db1_expert m e h = (Raise err, h) /\
  merge_db2_expert m e h = (Raise err, h).
Proof.
  intros Hd [[Hn ->]|(v & Hn & Hv)].
  - unfold add_db1_expert, merge_db2_expert, bind, getitem.
    rewrite Hd, Hn. done.
  - unfold add_db1_expert, merge_db2_expert, bind.
    rewrite (getitem_ok _ _ _ _ _ Hd Hn). unfold lift_result. rewrite Hv. done.
Qed.

Lemma first_loop_prefix h pre :
  well_formed h pre [] = true ->
  exists m1 h1,
    for_each pre add_db1_expert [] h = (Ok m1, h1) /\
    forall e d, h !! e = Some d ->
      exists d', h1 !! e = Some d' /\ d' !! "name" = d !! "name" /\
                 d' !! "relevant_publications" = d !! "relevant_publications".
Proof.
  intros [Hdb1 _]%well_formed_spec. rewrite Forall_forall in Hdb1.
  destruct (loop1_run pre [] h) as (h1 & Hrun & Hh1).
  { apply Forall_forall.
    intros r (d & Hd & (Hn & Hp & _)%is_db1_record_spec)%Hdb1%holds_at_spec.
    exists d. split; [done|]. split; [done|by apply count_of_is_Some]. }
  eexists _, h1. split; [exact Hrun|].
  intros e d Hd. rewrite Hh1, Hd. case_decide; simpl.
  - eexists. split; [done|]. by rewrite !seed_lookup_ne.
  - eauto.
Qed.

Lemma second_loop_prefix h db1 pre :
  well_formed h db1 pre = true ->
  exists m1 h1 m2 h2,
    for_each db1 add_db1_expert [] h = (Ok m1, h1) /\
    for_each pre merge_db2_expert m1 h1 = (Ok m2, h2) /\
    forall e d, h !! e = Some d ->
      exists d', h2 !! e = Some d' /\ d' !! "name" = d !! "name".
Proof.
  intros Hwf.
  destruct (merge_outcome h db1 pre Hwf) as (h1' & m2' & h2 & out & ds & qs & Hout).
  pose proof (out_run _ _ _ _ _ _ _ _ _ Hout) as Hrun.
  destruct (merge_confined db1 pre h) as [(_ & _ & Hfields) _].
  rewrite Hrun in Hfields. simpl in Hfields.
  unfold _merge_expert_results in Hrun. unfold bind at 1 in Hrun.
  destruct (for_each db1 add_db1_expert [] h) as [[m1|?] h1] eqn:H1; [|done].
  unfold bind at 1 in Hrun.
  destruct (for_each pre merge_db2_expert m1 h1) as [[m2|?] h2'] eqn:H2; [|done].
  cbv zeta in Hrun. unfold bind at 1 in Hrun.
  destruct (map_m sort_key (dict_values m2) h2') as [[keys|?] h3] eqn:H3; [|done].
  apply map_m_sort_key_inv in H3 as [-> _].
  unfold ret in Hrun. injection Hrun as _ ->.
  exists m1, h1, m2, h2. split_and!; [done|done|].
  intros e d Hd. destruct (Hfields e d Hd) as (d' & Hd' & _ & Hf).
  exists d'. split; [done|]. apply Hf.
  unfold written_fields. rewrite !elem_of_cons, elem_of_nil.
  intros [?|[?|[?|[?|[?|[]]]]]]; done.
Qed.

Lemma unnamed_record_raises (h : heap) (e : ref) (d : pydict) (err : exn) :
  h !! e = Some d ->
  (d !! "name" = None /\ err = KeyError "'name'") \/
  (exists v, d !! "name" = Some v /\ hash_key v = Raise err) ->
  (forall pre post db2,
     well_formed h pre [] = true ->
     fst (_merge_expert_results (pre ++ e :: post) db2 h) = Raise err) /\
  (forall db1 pre post,
     well_formed h db1 pre = true ->
     fst (_merge_expert_results db1 (pre ++ e :: post) h) = Raise err).
Proof.
  intros Hd Hname. split.
  - intros pre post db2 Hwf.
    destruct (first_loop_prefix h pre Hwf) as (m1 & h1 & H1 & Hkeep).
    destruct (Hkeep e d Hd) as (d' & Hd' & Hn' & _).
    destruct (unnamed_steps m1 e h1 d' err Hd') as [Hstep _].
    { by rewrite Hn'. }
    unfold _merge_expert_results. unfold bind at 1.
    rewrite for_each_app. unfold bind at 1. rewrite H1.
    simpl for_each. unfold bind at 1. rewrite Hstep. done.
  - intros db1 pre post Hwf.
    destruct (second_loop_prefix h db1 pre Hwf)
      as (m1 & h1 & m2 & h2 & H1 & H2 & Hkeep).
    destruct (Hkeep e d Hd) as (d' & Hd' & Hn').
    destruct (unnamed_steps m2 e h2 d' err Hd') as [_ Hstep].
    { by rewrite Hn'. }
    unfold _merge_expert_results. unfold bind at 1. rewrite H1.
    unfold bind at 1. rewrite for_each_app. unfold bind at 1. rewrite H2.
    simpl for_each. unfold bind at 1. rewrite Hstep. done.
Qed.

(** A record without a name, or with a name that cannot be a dictionary
    key, makes the merge raise once its turn comes, in either list: a
    [KeyError] that shows the missing key, or the [TypeError] of hashing the
    name.  No list is returned, whatever the other records are. *)
Theorem merge_unnamed_record (h : heap) (e : ref) (d : pydict) (err : exn) :
  h !! e = Some d ->
  (d !! "name" = None /\ err = KeyError "'name'") \/
  (exists v, d !! "name" = Some v /\ hash_key v = Raise err) ->
  (forall pre post db2,
     well_formed h pre [] = true ->
     fst (_merge_expert_results (pre ++ e :: post) db2 h) = Raise err) /\
  (forall db1 pre post,
     well_formed h db1 pre = true ->
     fst (_merge_expert_results db1 (pre ++ e :: post) h) = Raise err).
Proof.
  apply unnamed_record_raises.
Qed.

Lemma merge_unnamed_record_witness :
  fst (_merge_expert_results [0] [1]
         [expert_of_db1_row (sample_db1_row "A" 4);
          delete "name" (expert_of_db2_row (sample_db2_row "A" "SUPERVISED" 2))])
    = Raise (KeyError "'name'").
Proof.
  destruct (merge_unnamed_record
              [expert_of_db1_row (sample_db1_row "A" 4);
               delete "name"
                 (expert_of_db2_row (sample_db2_row "A" "SUPERVISED" 2))]
              1
              (delete "name"
                 (expert_of_db2_row (sample_db2_row "A" "SUPERVISED" 2)))
              (KeyError "'name'")) as [_ Hsecond].
  - reflexivity.
  - left. split; reflexivity.
  - apply (Hsecond [0] [] []). reflexivity.
Defined.

(** A record of database 1 that has a usable name but no publication count
    makes the merge raise a [KeyError] that shows the missing key, whatever
    comes after it. *)
Theorem merge_missing_publication_count (h : heap) (pre post db2 : list ref)
    (e : ref) (d : pydict) :
  well_formed h pre [] = true ->
  h !! e = Some d ->
  is_Some (name_of d) ->
  d !! "relevant_publications" = None ->
  fst (_merge_expert_results (pre ++ e :: post) db2 h)
    = Raise (KeyError "'relevant_publications'").
Proof.
  intros Hwf Hd [k Hk] Hp.
  destruct (first_loop_prefix h pre Hwf) as (m1 & h1 & H1 & Hkeep).
  destruct (Hkeep e d Hd) as (d' & Hd' & Hn' & Hp').
  unfold name_of in Hk. rewrite <- Hn' in Hk.
  destruct (d' !! "name") as [v|] eqn:Hv; [|done].
  destruct (hash_key v) as [k'|] eqn:Hh; [|done].
  unfold _merge_expert_results. unfold bind at 1.
  rewrite for_each_app. unfold bind at 1. rewrite H1.
  simpl for_each. unfold bind at 1.
  assert (Hstep : add_db1_expert m1 e h1
                  = (Raise (KeyError "'relevant_publications'"), h1)).
  { unfold add_db1_expert. unfold bind at 1.
    rewrite (getitem_ok _ _ _ _ _ Hd' Hv).
    unfold bind at 1. unfold lift_result. rewrite Hh. cbv zeta.
    unfold bind at 1. unfold getitem. rewrite Hd', Hp', Hp. done. }
  rewrite Hstep. done.
Qed.

Lemma merge_missing_publication_count_witness :
  fst (_merge_expert_results [0; 1] [] heap_no_pubs)
    = Raise (KeyError "'relevant_publications'").
Proof.
  apply (merge_missing_publication_count heap_no_pubs [0] [] [] 1
           (delete "relevant_publications" (expert_of_db1_row (sample_db1_row "A" 4)))).
  - reflexivity.
  - reflexivity.
  - vm_compute. eauto.
  - reflexivity.
Defined.

Lemma forallb_first_false {A} (f : A -> bool) (l : list A) :
  forallb f l = false ->
  exists pre x post, l = pre ++ x :: post /\ forallb f pre = true /\ f x = false.
Proof.
  induction l as [|x l IH]; [done|]. simpl. intros H.
  destruct (f x) eqn:Hx.
  - destruct (IH H) as (pre & y & post & -> & Hpre & Hy).
    exists (x :: pre), y, post. simpl. by rewrite Hx.
  - by exists [], x, l.
Qed.

Lemma unhashable_type_error v :
  hashable v = false -> exists msg, hash_key v = Raise (TypeError msg).
Proof. unfold hashable. destruct v; simpl; try done; eauto. Qed.

Lemma seq_split_at a (n1 n2 : nat) :
  seq a (n1 + S n2) = seq a n1 ++ (a + n1) :: seq (S (a + n1)) n2.
Proof. rewrite seq_app. simpl. done. Qed.

Lemma find_expert_merge_raises self topic limit w rows1 rows2 e :
  db1_topic_query self topic limit = Ok rows1 ->
  db2_topic_query self topic limit = Ok rows2 ->
  fst (_merge_expert_results
         (seq (length (objects w)) (length rows1))
         (seq (length (objects w ++ map expert_of_db1_row rows1)) (length rows2))
         ((objects w ++ map expert_of_db1_row rows1) ++ map expert_of_db2_row rows2))
    = Raise e ->
  exists w', find_expert self topic limit w = (Raise e, w') /\
             llm_requests w' = llm_requests w.
Proof.
  intros Hq1 Hq2 Hm.
  unfold find_expert.
  unfold bind at 1. unfold print at 1.
  unfold bind at 1. rewrite (search_experts_db1_run _ _ _ _ _ Hq1).
  unfold bind at 1. rewrite (search_experts_db2_run _ _ _ _ _ Hq2).
  cbn [objects with_objects].
  unfold bind at 1. unfold lift_heap at 1. cbn [objects with_objects].
  destruct (_merge_expert_results _ _ _) as [res h'].
  simpl in Hm. subst res. eexists. split; [reflexivity|done].
Qed.

(** When a topic query returns a row whose name cannot be a dictionary key,
    a list or a map, [find_expert] raises the [TypeError] of hashing it, from
    the merge, and has posted nothing to the LLM endpoint. *)
Theorem find_expert_unhashable_name (self : researchbook) (topic : string)
    (limit : Z) (w : world) (rows1 : list Db1ExpertRow.t)
    (rows2 : list Db2ExpertRow.t) :
  db1_topic_query self topic limit = Ok rows1 ->
  db2_topic_query self topic limit = Ok rows2 ->
  forallb (fun row => hashable (Db1ExpertRow.name row)) rows1
  && forallb (fun row => hashable (Db2ExpertRow.name row)) rows2 = false ->
  exists msg w',
    find_expert self topic limit w = (Raise (TypeError msg), w') /\
    llm_requests w' = llm_requests w.
Proof.
  intros Hq1 Hq2 Hbad.
  destruct (forallb (fun row => hashable (Db1ExpertRow.name row)) rows1) eqn:H1.
  - simpl in Hbad.
    destruct (forallb_first_false _ _ Hbad) as (pre & row & post & Hrows & Hpre & Hrow).
    destruct (unhashable_type_error _ Hrow) as [msg Hmsg].
    exists msg. apply (find_expert_merge_raises _ _ _ _ _ _ _ Hq1 Hq2).
    set (h1 := objects w ++ map expert_of_db1_row rows1).
    set (h := h1 ++ map expert_of_db2_row rows2).
    assert (Hlen : length rows2 = length pre + S (length post)).
    { rewrite Hrows, length_app. done. }
    rewrite Hlen, seq_split_at.
    assert (He : h !! (length h1 + length pre) = Some (expert_of_db2_row row)).
    { unfold h. rewrite lookup_app_r by lia.
      replace (length h1 + length pre - length h1) with (length pre) by lia.
      rewrite Hrows, map_app. rewrite lookup_app_r by (rewrite length_map; lia).
      rewrite length_map, Nat.sub_diag. done. }
    apply (proj2 (unnamed_record_raises h _ _ (TypeError msg) He
                    (or_intror (ex_intro _ (Db2ExpertRow.name row)
                                  (conj eq_refl Hmsg))))).
    apply well_formed_spec. split.
    + unfold h, h1. rewrite <- (app_assoc (objects w)).
      apply holds_at_alloc. apply Forall_forall.
      intros r Hr. apply expert_of_db1_row_wf.
      rewrite forallb_forall in H1. apply H1. by apply list_elem_of_In.
    + unfold h. rewrite Hrows, map_app.
      apply holds_at_alloc. apply Forall_forall.
      intros r Hr. apply expert_of_db2_row_wf.
      rewrite forallb_forall in Hpre. apply Hpre. by apply list_elem_of_In.
  - clear Hbad.
    destruct (forallb_first_false _ _ H1) as (pre & row & post & Hrows & Hpre & Hrow).
    destruct (unhashable_type_error _ Hrow) as [msg Hmsg].
    exists msg. apply (find_expert_merge_raises _ _ _ _ _ _ _ Hq1 Hq2).
    set (h := (objects w ++ map expert_of_db1_row rows1) ++ map expert_of_db2_row rows2).
    assert (Hlen : length rows1 = length pre + S (length post)).
    { rewrite Hrows, length_app. done. }
    rewrite Hlen at 1. rewrite seq_split_at.
    assert (He : h !! (length (objects w) + length pre)
                 = Some (expert_of_db1_row row)).
    { unfold h. rewrite <- app_assoc. rewrite lookup_app_r by lia.
      replace (length (objects w) + length pre - length (objects w))
        with (length pre) by lia.
      rewrite Hrows, map_app, <- app_assoc.
      rewrite lookup_app_r by (rewrite length_map; lia).
      rewrite length_map, Nat.sub_diag. done. }
    apply (proj1 (unnamed_record_raises h _ _ (TypeError msg) He
                    (or_intror (ex_intro _ (Db1ExpertRow.name row)
                                  (conj eq_refl Hmsg))))).
    apply well_formed_spec. split; [|constructor].
    unfold h. rewrite Hrows, map_app, <- !app_assoc.
    apply holds_at_alloc. apply Forall_forall.
    intros r Hr. apply expert_of_db1_row_wf.
    rewrite forallb_forall in Hpre. apply Hpre. by apply list_elem_of_In.
Qed.

Lemma find_expert_unhashable_name_witness :
  exists msg w',
    find_expert (sample_self_answering [] [] [sample_list_named_row] [])
      "machine learning" default_limit empty_world
      = (Raise (TypeError msg), w') /\
    llm_requests w' = llm_requests empty_world.
Proof.
  apply (find_expert_unhashable_name
           (sample_self_answering [] [] [sample_list_named_row] [])
           "machine learning" default_limit empty_world
           [sample_list_named_row] []).
  - reflexivity.
  - reflexivity.
  - reflexivity.
Defined.

(** ** A name that only database 2 knows, in several rows *)

Lemma absorb_lookup_ne dr de f :
  f ∉ written_fields -> absorb dr de !! f = dr !! f.
Proof.
  unfold written_fields. rewrite !not_elem_of_cons. intros (?&?&?&?&?&_).
  unfold absorb. repeat case_match; try done.
  by rewrite !lookup_insert_ne.
Qed.

Lemma foldl_absorb_lookup_ne l f : forall d1,
  f ∉ written_fields -> foldl absorb d1 l !! f = d1 !! f.
Proof.
  induction l as [|d l IH]; intros d1 Hf; [done|].
  simpl. rewrite IH by done. by apply absorb_lookup_ne.
Qed.

Lemma records_named_ext (h h' : heap) k (l : list ref) :
  (forall e, e ∈ l -> h' !! e = h !! e) ->
  records_named h' k l = records_named h k l.
Proof.
  induction l as [|e l IH]; intros Heq; [done|].
  unfold records_named. cbn [omap list_omap].
  fold (records_named h' k l). fold (records_named h k l).
  rewrite Heq by left. rewrite IH; [done|].
  intros e' He'. apply Heq. by right.
Qed.

Lemma records_named_app (h : heap) k (l1 l2 : list ref) :
  records_named h k (l1 ++ l2) = records_named h k l1 ++ records_named h k l2.
Proof. apply omap_app. Qed.

Lemma filter_named_ext (h h' : heap) k (l : list ref) :
  (forall r, obj_name h' r = obj_name h r) ->
  filter (fun e => obj_name h' e = Some k) l =
  filter (fun e => obj_name h e = Some k) l.
Proof.
  intros Heq. induction l as [|e l IH]; [done|].
  rewrite !filter_cons, IH. rewrite Heq.
  destruct (decide (obj_name h e = Some k)); done.
Qed.

Lemma filter_first_split {A} (P : A -> Prop) `{forall x, Decision (P x)}
    (l : list A) x xs :
  filter P l = x :: xs ->
  exists pre rest, l = pre ++ x :: rest /\ filter P pre = [] /\ P x /\
                   filter P rest = xs.
Proof.
  induction l as [|y l IH]; [done|].
  rewrite filter_cons. destruct (decide (P y)) as [Hy|Hy]; intros Hf.
  - injection Hf as -> Hf. by exists [], l.
  - destruct (IH Hf) as (pre & rest & -> & Hpre & Hx & Hrest).
    exists (y :: pre), rest. split_and!; try done.
    by rewrite filter_cons_False.
Qed.

Lemma db2_only_run h db1 db2 k pre e1 rest :
  well_formed h db1 db2 = true ->
  NoDup db2 ->
  k ∉ names h db1 ->
  db2 = pre ++ e1 :: rest ->
  filter (fun e => obj_name h e = Some k) pre = [] ->
  obj_name h e1 = Some k ->
  exists d1 out h2,
    h !! e1 = Some d1 /\
    _merge_expert_results db1 db2 h = (Ok out, h2) /\
    e1 ∈ out /\
    h2 !! e1 = Some (foldl absorb (half_score d1) (records_named h k rest)).
Proof.
  intros [Hdb1 Hdb2]%well_formed_spec Hnd Hk1 Hsplit Hpre He1.
  rewrite Forall_forall in Hdb1. rewrite Forall_forall in Hdb2.
  assert (Hdisj : forall r, r ∈ db1 -> r ∈ db2 -> False).
  { intros r (d & Hd & (_ & _ & Hs1)%is_db1_record_spec)%Hdb1%holds_at_spec
             (d' & Hd' & (_ & Hs2)%is_db2_record_spec)%Hdb2%holds_at_spec.
    assert (d' = d) as -> by congruence.
    by pose proof (source_is_inj _ _ _ Hs1 Hs2). }
  destruct (loop1_run db1 [] h) as (h1 & Hrun1 & Hh1).
  { apply Forall_forall. intros r (d & Hd & (Hn & Hp & _)%is_db1_record_spec)
      %Hdb1%holds_at_spec.
    exists d. split; [done|]. split; [done|by apply count_of_is_Some]. }
  set (m1 := seed_keys h [] db1) in *.
  assert (Hnames1 : forall r, obj_name h1 r = obj_name h r).
  { intros r. unfold obj_name. rewrite Hh1. case_decide; [|done].
    destruct (h !! r) as [d|]; [|done]. simpl. apply name_of_seed. }
  assert (Hm1 : forall k r, dict_get m1 k = Some r -> r ∈ db1 /\ obj_name h r = Some k).
  { intros k0 r Hg. by apply seed_keys_get in Hg as [Hg|Hg]. }
  assert (Hin1 : forall r, r ∈ db1 -> exists d, h !! r = Some d /\
            h1 !! r = Some (seed d) /\ is_db1_record d = true).
  { intros r Hr. pose proof Hr as (d & Hd & Hrec)%Hdb1%holds_at_spec.
    exists d. split_and!; [done| |done]. rewrite Hh1, decide_True by done.
    by rewrite Hd. }
  assert (Hnd1 : NoDup (map fst m1)).
  { apply seed_keys_nodup. constructor. }
  assert (Hnamed1 : forall k r, dict_get m1 k = Some r -> obj_name h1 r = Some k).
  { intros k0 r [Hr Hn]%Hm1. by rewrite Hnames1. }
  assert (Hscore1 : forall k r, dict_get m1 k = Some r ->
            exists d, h1 !! r = Some d /\ is_Some (count_of d "combined_score")).
  { intros k0 r [Hr Hn]%Hm1.
    destruct (Hin1 r Hr) as (d & Hd & Hd1 & (_ & Hp & _)%is_db1_record_spec).
    exists (seed d). split; [done|]. by rewrite seed_score. }
  assert (Htag1 : forall k r, dict_get m1 k = Some r ->
            exists d, h1 !! r = Some d /\ is_source_tag d = true).
  { intros k0 r [Hr Hn]%Hm1.
    destruct (Hin1 r Hr) as (d & Hd & Hd1 & (_ & _ & Hs)%is_db1_record_spec).
    exists (seed d). split; [done|]. unfold is_source_tag.
    by rewrite !seed_source, Hs. }
  assert (Hsame1 : forall e, e ∈ db2 -> h1 !! e = h !! e).
  { intros e He. rewrite Hh1. rewrite decide_False; [done|].
    intros Hin. by eapply Hdisj. }
  assert (Hrec1 : forall e, e ∈ db2 -> holds_at h1 is_db2_record e = true).
  { intros e He. unfold holds_at. rewrite (Hsame1 e He). by apply Hdb2. }
  assert (Hk0 : dict_get m1 k = None).
  { apply dict_get_None. unfold m1. rewrite seed_keys_elem.
    intros [Hin|Hin]; [by apply elem_of_nil in Hin|done]. }
  assert (He1in : e1 ∈ db2).
  { rewrite Hsplit. apply elem_of_app. right. left. }
  pose proof (Hdb2 e1 He1in) as (d1 & Hd1 & Hrecd1)%holds_at_spec.
  (* the rows up to the first one named [k] *)
  destruct (loop2_run h1 m1 Hnd1 Hnamed1 Hscore1 Htag1 (pre ++ [e1]) [] m1 h1)
    as (m' & h' & Hrun' & Inv').
  { by apply loop2_inv_init. }
  { apply Forall_forall. intros e He. apply Hrec1. rewrite Hsplit.
    apply elem_of_app in He as [He|He%list_elem_of_singleton].
    - apply elem_of_app. by left.
    - subst e. apply elem_of_app. right. left. }
  { intros k0 r [Hr Hn]%Hm1 Hin. apply (Hdisj r Hr). rewrite Hsplit.
    apply elem_of_app in Hin as [Hin|Hin%list_elem_of_singleton].
    - apply elem_of_app. by left.
    - subst r. apply elem_of_app. right. left. }
  simpl in Inv'.
  destruct (inv_miss _ _ _ _ _ Inv' k e1 d1 Hk0) as [Hh'e1 Hm'k].
  { rewrite (filter_named_ext h h1) by done.
    rewrite filter_snoc_named, Hpre. by rewrite decide_True. }
  { by rewrite Hsame1. }
  rewrite Hsplit in Hnd.
  apply NoDup_app in Hnd as (Hndpre & Hpre_rest & Hndrest).
  apply NoDup_cons in Hndrest as [He1rest Hndrest].
  assert (Hrest_db2 : forall e, e ∈ rest -> e ∈ db2).
  { intros e He. rewrite Hsplit. apply elem_of_app. right. by right. }
  assert (Hnot' : forall k0 r, dict_get m' k0 = Some r -> r ∉ rest).
  { intros k0 r Hg Hin.
    destruct (dict_get m1 k0) as [r0|] eqn:Hg1.
    - pose proof (inv_old _ _ _ _ _ Inv' _ _ Hg1) as Hg'.
      assert (r0 = r) as -> by congruence.
      apply Hm1 in Hg1 as [Hr _]. by apply (Hdisj r Hr), Hrest_db2.
    - pose proof (inv_new _ _ _ _ _ Inv' _ _ Hg1 Hg) as Hdone.
      apply elem_of_app in Hdone as [Hp|Hp%list_elem_of_singleton].
      + apply (Hpre_rest r Hp). by right.
      + by subst r. }
  assert (Hunt : forall e, e ∈ rest -> h' !! e = h !! e).
  { intros e He.
    pose proof (Hrec1 e (Hrest_db2 e He)) as (d & Hd & Hrec)%holds_at_spec.
    apply is_db2_record_spec in Hrec as [Hrd _].
    apply readable2_spec in Hrd as ([ke Hke] & _).
    assert (Hn : obj_name h1 e = Some ke).
    { unfold obj_name. by rewrite Hd. }
    rewrite (inv_nontarget _ _ _ _ _ Inv' e ke Hn).
    - by apply Hsame1, Hrest_db2.
    - intros Hg. by apply (Hnot' _ _ Hg). }
  assert (Hnamed' : forall k0 r, dict_get m' k0 = Some r -> obj_name h' r = Some k0).
  { intros k0 r Hg. rewrite (inv_names _ _ _ _ _ Inv').
    by apply (inv_named _ _ _ _ _ Inv'). }
  (* the rows after it *)
  destruct (loop2_run h' m' (inv_keys_nodup _ _ _ _ _ Inv') Hnamed'
              (inv_score _ _ _ _ _ Inv') (inv_tag _ _ _ _ _ Inv')
              rest [] m' h')
    as (m'' & h'' & Hrun'' & Inv'').
  { apply loop2_inv_init; [apply (inv_keys_nodup _ _ _ _ _ Inv')|done|
      apply (inv_score _ _ _ _ _ Inv')|apply (inv_tag _ _ _ _ _ Inv')]. }
  { apply Forall_forall. intros e He. unfold holds_at.
    rewrite (Hunt e He). apply Hdb2. by apply Hrest_db2. }
  { exact Hnot'. }
  simpl in Inv''.
  pose proof (inv_hit _ _ _ _ _ Inv'' _ _ _ Hm'k Hh'e1) as Hfinal.
  rewrite (records_named_ext h h') in Hfinal by exact Hunt.
  pose proof (inv_old _ _ _ _ _ Inv'' _ _ Hm'k) as Hm''k.
  destruct (map_m_sort_key h'' (dict_values m'')) as (keys & Hkeys & Hscores).
  { apply Forall_forall. intros r Hr. unfold dict_values in Hr.
    apply list_elem_of_fmap in Hr as ([k0 r'] & -> & Hin). simpl.
    apply (inv_score _ _ _ _ _ Inv'' k0).
    apply dict_elem_get; [by eapply inv_keys_nodup|done]. }
  exists d1, (map snd (sort_desc (zip keys (dict_values m'')))), h''.
  split_and!; [done| | |done].
  - unfold _merge_expert_results. unfold bind at 1. rewrite Hrun1.
    unfold bind at 1. rewrite Hsplit.
    replace (pre ++ e1 :: rest) with ((pre ++ [e1]) ++ rest)
      by (by rewrite <- app_assoc).
    rewrite for_each_app. unfold bind at 1. rewrite Hrun', Hrun''.
    cbv zeta. unfold bind at 1. rewrite Hkeys. done.
  - assert (Hperm : map snd (sort_desc (zip keys (dict_values m'')))
                    ≡ₚ map snd (zip keys (dict_values m''))).
    { apply Permutation_map, sort_desc_perm. }
    rewrite Hperm.
    assert (Hlen : length (dict_values m'') <= length keys).
    { apply Forall2_length in Hscores. lia. }
    pose proof (snd_zip keys (dict_values m'') Hlen) as Hsnd.
    change (map snd (zip keys (dict_values m''))) with ((zip keys (dict_values m'')).*2).
    rewrite Hsnd. unfold dict_values.
    apply dict_get_elem in Hm''k. apply list_elem_of_fmap. by exists (k, e1).
Qed.

(** When a name is unknown to database 1 and database 2 has one or several
    rows for it, with pairwise different records, the merged list holds the
    record of the first row.  Its combined score is half the sum of the
    thesis counts of all the rows.  With one row it keeps its tag; with more
    it is tagged as found in both databases, and its thesis roles and thesis
    count are those of the last row, while every field the merge does not
    assign is that of the first. *)
Theorem merge_repeated_db2_only_name (h : heap) (db1 db2 : list ref) (k : key)
    (e1 : ref) (es : list ref) :
  well_formed h db1 db2 = true ->
  NoDup db2 ->
  k ∉ names h db1 ->
  filter (fun e => obj_name h e = Some k) db2 = e1 :: es ->
  exists ds d d1 q,
    fst (returned_records db1 db2 h) = Ok ds /\
    named k ds = [d] /\
    h !! e1 = Some d1 /\
    (forall f, f ∉ written_fields -> d !! f = d1 !! f) /\
    d !! "combined_score" = Some (VFloat q) /\
    (q == half * Qsum (theses_named h k db2))%Q /\
    (es = [] -> source_is d "database_2" = true) /\
    (forall en, last es = Some en ->
       source_is d "both_databases" = true /\
       exists dn, h !! en = Some dn /\
                  d !! "thesis_roles" = dn !! "roles" /\
                  d !! "relevant_theses" = dn !! "relevant_theses").
Proof.
  intros Hwf Hnd Hk1 Hfilter.
  destruct (filter_first_split _ _ _ _ Hfilter)
    as (pre & rest & Hsplit & Hpre & He1 & Hrest).
  destruct (db2_only_run h db1 db2 k pre e1 rest Hwf Hnd Hk1 Hsplit Hpre He1)
    as (d1 & out' & h2' & Hd1 & Hrun & Hin & Hfinal).
  destruct (merge_outcome h db1 db2 Hwf) as (h1 & m2 & h2 & out & ds & qs & Hout).
  pose proof (out_run _ _ _ _ _ _ _ _ _ Hout) as Hrun'.
  rewrite Hrun in Hrun'. injection Hrun' as -> ->.
  set (recs := records_named h k rest) in *.
  set (d := foldl absorb (half_score d1) recs) in *.
  pose proof (wf_records_readable Hwf Hout k) as Hreadable.
  rewrite Hsplit in Hreadable.
  replace (pre ++ e1 :: rest) with (pre ++ [e1] ++ rest) in Hreadable by done.
  rewrite !records_named_app in Hreadable.
  apply Forall_app in Hreadable as [_ Hreadable].
  apply Forall_app in Hreadable as [Hrd1 Hrecs].
  fold recs in Hrecs.
  assert (Hn1 : name_of d1 = Some k).
  { unfold obj_name in He1. by rewrite Hd1 in He1. }
  assert (Hone : records_named h k [e1] = [d1]).
  { unfold records_named. simpl. rewrite Hd1. simpl. by rewrite decide_True. }
  rewrite Hone in Hrd1. rewrite Forall_singleton in Hrd1.
  pose proof Hrd1 as (_ & _ & [t1 Ht1] & _)%readable2_spec.
  assert (Hhalf : half_score d1 !! "combined_score" = Some (VFloat (t1 * half)%Q)).
  { unfold half_score. rewrite Ht1. by rewrite lookup_insert_eq. }
  assert (Hnd' : name_of d = Some k).
  { pose proof (outcome_target_name Hout) as Htn.
    assert (Hobj : obj_name h2 e1 = Some k).
    { rewrite (inv_names _ _ _ _ _ (out_inv _ _ _ _ _ _ _ _ _ Hout)).
      by rewrite (outcome_names1 Hout). }
    unfold obj_name in Hobj. by rewrite Hfinal in Hobj. }
  assert (Hds : d ∈ ds).
  { pose proof (out_deref _ _ _ _ _ _ _ _ _ Hout) as Hderef.
    apply list_elem_of_lookup in Hin as [i Hi].
    destruct (Forall2_lookup_l _ _ _ _ _ Hderef Hi) as (d' & Hd' & Hrd').
    assert (d' = d) as -> by congruence.
    by eapply list_elem_of_lookup_2. }
  exists ds, d, d1, (accumulate (t1 * half)%Q
                       (omap (fun d => count_of d "relevant_theses") recs)).
  split_and!.
  - by rewrite (out_records _ _ _ _ _ _ _ _ _ Hout).
  - apply (filter_unique name_of); [apply (outcome_names_nodup Hout)|done|done].
  - done.
  - intros f Hf. unfold d. rewrite foldl_absorb_lookup_ne by done.
    apply half_score_lookup_ne. intros ->. apply Hf.
    unfold written_fields. left.
  - unfold d. by apply foldl_absorb_float.
  - rewrite accumulate_sum. rewrite theses_of_records, Hsplit.
    replace (pre ++ e1 :: rest) with (pre ++ [e1] ++ rest) by done.
    rewrite !records_named_app, Hone.
    rewrite (records_named_none _ _ _ Hpre). fold recs. simpl.
    rewrite Ht1. simpl. unfold Qsum. simpl.
    change (list_omap pydict Q (fun d0 => count_of d0 "relevant_theses") recs)
      with (omap (fun d0 => count_of d0 "relevant_theses") recs).
    generalize (foldr Qplus 0%Q
                  (omap (fun d0 => count_of d0 "relevant_theses") recs)).
    intros s. ring.
  - intros ->. unfold d, recs.
    rewrite (records_named_none _ _ _ Hrest). simpl.
    rewrite half_score_source.
    assert (e1 ∈ db2) as He1in.
    { rewrite Hsplit. apply elem_of_app. right. left. }
    destruct (wf_db2 Hwf Hout e1 He1in) as (d1' & Hd1' & _ & Hrec).
    assert (d1' = d1) as -> by congruence.
    by apply is_db2_record_spec in Hrec as [_ Hs].
  - intros en Hlast.
    assert (Hln : last_named h k rest = Some en).
    { unfold last_named. by rewrite Hrest. }
    assert (Hall : Forall (fun e' => is_Some (h !! e')) rest).
    { apply Forall_forall. intros e' He'.
      assert (e' ∈ db2) as He'in.
      { rewrite Hsplit. apply elem_of_app. right. by right. }
      destruct (wf_db2 Hwf Hout e' He'in) as (de & Hde & _). eauto. }
    destruct (records_named_last _ _ _ _ Hall Hln) as (dn & Hdn & _ & Hlastrec).
    fold recs in Hlastrec.
    assert (Hsc : is_Some (count_of (half_score d1) "combined_score")).
    { unfold count_of. rewrite Hhalf. simpl. eauto. }
    destruct (foldl_absorb_last recs (half_score d1) dn Hrecs Hsc Hlastrec)
      as (Hroles & Hth & _).
    split.
    + destruct recs as [|r0 recs'] eqn:Hrecs_eq; [done|].
      destruct (foldl_absorb_score r0 recs' (half_score d1) (t1 * half)%Q Hrecs)
        as [_ Hsrc]; [|exact Hsrc].
      unfold count_of. by rewrite Hhalf.
    + exists dn. done.
Qed.

Lemma merge_repeated_db2_only_name_witness :
  exists ds d d1 q,
    fst (returned_records [] [0; 1] heap_a2_a3) = Ok ds /\
    named (KStr "A") ds = [d] /\
    heap_a2_a3 !! 0 = Some d1 /\
    (forall f, f ∉ written_fields -> d !! f = d1 !! f) /\
    d !! "combined_score" = Some (VFloat q) /\
    (q == half * Qsum (theses_named heap_a2_a3 (KStr "A") [0; 1]%nat))%Q /\
    ([1] = [] -> source_is d "database_2" = true) /\
    (forall en, last [1] = Some en ->
       source_is d "both_databases" = true /\
       exists dn, heap_a2_a3 !! en = Some dn /\
                  d !! "thesis_roles" = dn !! "roles" /\
                  d !! "relevant_theses" = dn !! "relevant_theses").
Proof.
  apply (merge_repeated_db2_only_name heap_a2_a3 [] [0; 1] (KStr "A") 0 [1]).
  - reflexivity.
  - repeat constructor; set_solver.
  - vm_compute. apply not_elem_of_nil.
  - reflexivity.
Defined.

(** ** The order of records with equal scores *)

Lemma seed_keys_order h l : forall m,
  map fst (seed_keys h m l) =
  foldl (fun acc k => if decide (k ∈ acc) then acc else acc ++ [k])
    (map fst m) (names h l).
Proof.
  induction l as [|r l IH]; intros m; [done|].
  unfold seed_keys, names. cbn [foldl omap list_omap].
  fold (names h l).
  destruct (obj_name h r) as [k|] eqn:Hr.
  - fold (seed_keys h (dict_set m k r) l). rewrite IH. cbn [foldl].
    destruct (decide (k ∈ map fst m)) as [Hin|Hin].
    + by rewrite dict_set_keys_present.
    + by rewrite dict_set_keys_absent.
  - fold (seed_keys h m l). apply IH.
Qed.

Lemma names_ext (h h' : heap) (l : list ref) :
  (forall r, obj_name h' r = obj_name h r) -> names h' l = names h l.
Proof.
  intros Heq. unfold names. induction l as [|r l IH]; [done|].
  cbn [omap list_omap]. by rewrite Heq, IH.
Qed.

Section second_loop_keys.
Variables (h1 : heap) (m1 : merged_dict).
Hypothesis Hnd1 : NoDup (map fst m1).
Hypothesis Hnamed1 : forall k r, dict_get m1 k = Some r -> obj_name h1 r = Some k.
Hypothesis Hscore1 : forall k r, dict_get m1 k = Some r ->
  exists d, h1 !! r = Some d /\ is_Some (count_of d "combined_score").
Hypothesis Htag1 : forall k r, dict_get m1 k = Some r ->
  exists d, h1 !! r = Some d /\ is_source_tag d = true.

Lemma loop2_run_keys l : forall done m h,
  loop2_inv h1 m1 done m h ->
  Forall (fun e => holds_at h1 is_db2_record e = true) l ->
  (forall k r, dict_get m1 k = Some r -> r ∉ l) ->
  exists m' h', for_each l merge_db2_expert m h = (Ok m', h') /\
                loop2_inv h1 m1 (done ++ l) m' h' /\
                map fst m' =
                foldl (fun acc k => if decide (k ∈ acc) then acc else acc ++ [k])
                  (map fst m) (names h1 l).
Proof.
  induction l as [|e l IH]; intros done m h Inv Hl Hfresh.
  - exists m, h. by rewrite app_nil_r.
  - apply Forall_cons in Hl as [He Hl].
    apply holds_at_spec in He as He'.
    destruct He' as (d1 & Hd1 & [Hrd1 _]%is_db2_record_spec).
    destruct (inv_readable _ _ _ _ _ Inv e d1 Hd1 Hrd1) as (d & Hd & Hrd).
    assert (exists k, name_of d = Some k) as [k Hk].
    { apply readable2_spec in Hrd as ([k Hk] & _). eauto. }
    assert (Hname1 : obj_name h1 e = Some k).
    { rewrite <- (inv_names _ _ _ _ _ Inv). unfold obj_name. by rewrite Hd. }
    assert (exists m2 h2, merge_db2_expert m e h = (Ok m2, h2) /\
              loop2_inv h1 m1 (done ++ [e]) m2 h2 /\
              map fst m2 = if decide (k ∈ map fst m) then map fst m
                           else map fst m ++ [k])
      as (m2 & h2 & Hrun & Inv2 & Hkeys2).
    { destruct (dict_get m k) as [r|] eqn:Hm.
      - destruct (loop2_step_hit h1 m1 Hnd1 Hnamed1 Hscore1 Htag1
                    done m h e d k r) as (dr & _ & Hrun & Inv2);
          try done.
        + intros k' r' Hg <-. apply (Hfresh _ _ Hg). apply list_elem_of_here.
        + exists m, (<[r := absorb dr d]> h). split_and!; [done|done|].
          rewrite decide_True; [done|]. apply dict_get_is_Some. eauto.
      - destruct (loop2_step_miss h1 m1 Hnd1 Hnamed1 Hscore1 Htag1
                    done m h e d k) as [Hrun Inv2]; try done.
        eexists _, _. split_and!; [done|done|].
        apply dict_get_None in Hm. rewrite decide_False by done.
        by apply dict_set_keys_absent. }
    destruct (IH (done ++ [e]) m2 h2 Inv2 Hl) as (m' & h' & Hrun' & Inv' & Hkeys').
    { intros k' r' Hg Hin. apply (Hfresh _ _ Hg). by apply list_elem_of_further. }
    exists m', h'. split_and!.
    + simpl. rewrite (bind_ok _ _ _ _ _ Hrun). done.
    + by rewrite <- app_assoc in Inv'.
    + rewrite Hkeys', Hkeys2. rewrite (names_cons _ _ _ _ Hname1). done.
Qed.
End second_loop_keys.

Lemma merge_run_keys h db1 db2 :
  well_formed h db1 db2 = true ->
  exists m2 keys h2,
    _merge_expert_results db1 db2 h
      = (Ok (map snd (sort_desc (zip keys (map snd m2)))), h2) /\
    map fst m2 = first_occurrences (names h db1 ++ names h db2) /\
    Forall2 (fun r q => exists d, h2 !! r = Some d /\
               count_of d "combined_score" = Some q) (map snd m2) keys /\
    obj_name h2 <$> map snd m2 = Some <$> map fst m2.
Proof.
  intros [Hdb1 Hdb2]%well_formed_spec.
  rewrite Forall_forall in Hdb1. rewrite Forall_forall in Hdb2.
  assert (Hdisj : forall r, r ∈ db1 -> r ∈ db2 -> False).
  { intros r (d & Hd & (_ & _ & Hs1)%is_db1_record_spec)%Hdb1%holds_at_spec
             (d' & Hd' & (_ & Hs2)%is_db2_record_spec)%Hdb2%holds_at_spec.
    assert (d' = d) as -> by congruence.
    by pose proof (source_is_inj _ _ _ Hs1 Hs2). }
  destruct (loop1_run db1 [] h) as (h1 & Hrun1 & Hh1).
  { apply Forall_forall. intros r (d & Hd & (Hn & Hp & _)%is_db1_record_spec)
      %Hdb1%holds_at_spec.
    exists d. split; [done|]. split; [done|by apply count_of_is_Some]. }
  set (m1 := seed_keys h [] db1) in *.
  assert (Hnames1 : forall r, obj_name h1 r = obj_name h r).
  { intros r. unfold obj_name. rewrite Hh1. case_decide; [|done].
    destruct (h !! r) as [d|]; [|done]. simpl. apply name_of_seed. }
  assert (Hm1 : forall k r, dict_get m1 k = Some r -> r ∈ db1 /\ obj_name h r = Some k).
  { intros k0 r Hg. by apply seed_keys_get in Hg as [Hg|Hg]. }
  assert (Hin1 : forall r, r ∈ db1 -> exists d, h !! r = Some d /\
            h1 !! r = Some (seed d) /\ is_db1_record d = true).
  { intros r Hr. pose proof Hr as (d & Hd & Hrec)%Hdb1%holds_at_spec.
    exists d. split_and!; [done| |done]. rewrite Hh1, decide_True by done.
    by rewrite Hd. }
  assert (Hnd1 : NoDup (map fst m1)).
  { apply seed_keys_nodup. constructor. }
  assert (Hnamed1 : forall k r, dict_get m1 k = Some r -> obj_name h1 r = Some k).
  { intros k0 r [Hr Hn]%Hm1. by rewrite Hnames1. }
  assert (Hscore1 : forall k r, dict_get m1 k = Some r ->
            exists d, h1 !! r = Some d /\ is_Some (count_of d "combined_score")).
  { intros k0 r [Hr Hn]%Hm1.
    destruct (Hin1 r Hr) as (d & Hd & Hd1 & (_ & Hp & _)%is_db1_record_spec).
    exists (seed d). split; [done|]. by rewrite seed_score. }
  assert (Htag1 : forall k r, dict_get m1 k = Some r ->
            exists d, h1 !! r = Some d /\ is_source_tag d = true).
  { intros k0 r [Hr Hn]%Hm1.
    destruct (Hin1 r Hr) as (d & Hd & Hd1 & (_ & _ & Hs)%is_db1_record_spec).
    exists (seed d). split; [done|]. unfold is_source_tag.
    by rewrite !seed_source, Hs. }
  destruct (loop2_run_keys h1 m1 Hnd1 Hnamed1 Hscore1 Htag1 db2 [] m1 h1)
    as (m2 & h2 & Hrun2 & Inv & Hkeys2).
  { by apply loop2_inv_init. }
  { apply Forall_forall. intros e He. pose proof (Hdb2 e He) as Hrec.
    unfold holds_at in *. rewrite Hh1. rewrite decide_False; [done|].
    intros Hin. by eapply Hdisj. }
  { intros k r [Hr Hn]%Hm1 Hin. by eapply Hdisj. }
  simpl in Inv.
  destruct (map_m_sort_key h2 (dict_values m2)) as (keys & Hkeys & Hscores).
  { apply Forall_forall. intros r Hr. unfold dict_values in Hr.
    apply list_elem_of_fmap in Hr as ([k r'] & -> & Hin). simpl.
    apply (inv_score _ _ _ _ _ Inv k).
    apply dict_elem_get; [by eapply inv_keys_nodup|done]. }
  exists m2, keys, h2. split_and!.
  - unfold _merge_expert_results. unfold bind at 1. rewrite Hrun1.
    unfold bind at 1. rewrite Hrun2. cbv zeta.
    unfold bind at 1. rewrite Hkeys. done.
  - rewrite Hkeys2. unfold m1. rewrite seed_keys_order. simpl.
    unfold first_occurrences. rewrite foldl_app.
    by rewrite (names_ext h h1 db2 Hnames1).
  - exact Hscores.
  - apply names_of_values. intros k r Hin.
    rewrite (inv_names _ _ _ _ _ Inv).
    apply (inv_named _ _ _ _ _ Inv).
    apply dict_elem_get; [by eapply inv_keys_nodup|done].
Qed.

Lemma insert_desc_filter {A} (q : Q) (x : Q * A) (l : list (Q * A)) :
  filter (fun y => Qeq_bool (fst y) q = true) (insert_desc x l) =
  filter (fun y => Qeq_bool (fst y) q = true) (x :: l).
Proof.
  induction l as [|y l IH]; [done|].
  simpl. destruct (Qltb (fst x) (fst y)) eqn:Hlt; [|done].
  rewrite filter_cons, IH. rewrite !filter_cons.
  destruct (decide (Qeq_bool (fst x) q = true)) as [Hx|Hx];
    destruct (decide (Qeq_bool (fst y) q = true)) as [Hy|Hy]; try done.
  exfalso. apply Qltb_lt in Hlt.
  apply Qeq_bool_eq in Hx. apply Qeq_bool_eq in Hy.
  rewrite Hx, Hy in Hlt. by apply Qlt_irrefl in Hlt.
Qed.

Lemma sort_desc_filter {A} (q : Q) (l : list (Q * A)) :
  filter (fun y => Qeq_bool (fst y) q = true) (sort_desc l) =
  filter (fun y => Qeq_bool (fst y) q = true) l.
Proof.
  induction l as [|x l IH]; [done|].
  simpl. rewrite insert_desc_filter. by rewrite !filter_cons, IH.
Qed.

Lemma omap_sublist {A B} (f : A -> option B) (l1 l2 : list A) :
  sublist l1 l2 -> sublist (omap f l1) (omap f l2).
Proof.
  induction 1 as [|x l1 l2 _ IH|x l1 l2 _ IH]; cbn [omap list_omap].
  - constructor.
  - destruct (f x); [by constructor|done].
  - destruct (f x); [by constructor|done].
Qed.

Lemma omap_fmap_Some {A B} (f : A -> option B) (l : list A) : forall l',
  f <$> l = Some <$> l' -> omap f l = l'.
Proof.
  induction l as [|x l IH]; intros [|y l'] Heq; try done.
  injection Heq as Hx Heq. cbn [omap list_omap]. rewrite Hx.
  by rewrite (IH l' Heq).
Qed.

Lemma Forall_zip_of_Forall2 {A B} (P : B -> A -> Prop) (l : list A) : forall k,
  Forall2 P k l -> Forall (fun x => P (snd x) (fst x)) (zip l k).
Proof.
  induction l as [|a l IH]; intros [|b k] H; try constructor.
  - by apply Forall2_cons_1 in H as [? _].
  - apply IH. by apply Forall2_cons_1 in H as [_ ?].
Qed.

Lemma Forall2_with_Forall {A B} (P : A -> Prop) (R : A -> B -> Prop) l k :
  Forall P l -> Forall2 R l k -> Forall2 (fun x y => P x /\ R x y) l k.
Proof.
  intros HP HR. induction HR as [|x y l k Hxy HR IH]; [constructor|].
  apply Forall_cons in HP as [Hx HP]. constructor; [done|by apply IH].
Qed.

Lemma scored_names (h2 : heap) (S : list (Q * ref)) (ds : list pydict) (q : Q) :
  Forall2 (fun x d => h2 !! snd x = Some d /\
                      count_of d "combined_score" = Some (fst x)) S ds ->
  omap name_of (filter (fun d => has_score q d = true) ds) =
  omap (obj_name h2) (map snd (filter (fun x => Qeq_bool (fst x) q = true) S)).
Proof.
  induction 1 as [|x d S ds [Hd Hq] _ IH]; [done|].
  assert (Hhs : has_score q d = Qeq_bool (fst x) q).
  { unfold has_score. by rewrite Hq. }
  rewrite !filter_cons.
  destruct (decide (has_score q d = true)) as [H1|H1];
    destruct (decide (Qeq_bool (fst x) q = true)) as [H2|H2];
    try congruence.
  cbn [map omap list_omap]. rewrite IH.
  assert (Hname : obj_name h2 (snd x) = name_of d).
  { unfold obj_name. by rewrite Hd. }
  by rewrite Hname.
Qed.

(** Among the records of the merged list, those of equal combined score
    stand in the order in which their names first occur in the list of
    database 1 followed by the list of database 2: the sort is stable, so a
    tie is decided by the order of the query results, database 1 first. *)
Theorem merge_ties_in_first_occurrence_order (h : heap) (db1 db2 : list ref) :
  well_formed h db1 db2 = true ->
  exists ds,
    fst (returned_records db1 db2 h) = Ok ds /\
    forall q,
      sublist (omap name_of (filter (fun d => has_score q d = true) ds))
              (first_occurrences (names h db1 ++ names h db2)).
Proof.
  intros Hwf.
  destruct (merge_run_keys h db1 db2 Hwf)
    as (m2 & keys & h2 & Hrun & Hkeys & Hscores & Hnames).
  destruct (merge_outcome h db1 db2 Hwf) as (h1 & m2' & h2' & out & ds & qs & Hout).
  pose proof (out_run _ _ _ _ _ _ _ _ _ Hout) as Hrun'.
  rewrite Hrun in Hrun'. injection Hrun' as <- <-.
  exists ds. split; [by rewrite (out_records _ _ _ _ _ _ _ _ _ Hout)|].
  intros q.
  pose proof (out_deref _ _ _ _ _ _ _ _ _ Hout) as Hderef.
  set (Z := zip keys (map snd m2)) in *.
  assert (HS : Forall2 (fun x d => h2 !! snd x = Some d /\
                 count_of d "combined_score" = Some (fst x)) (sort_desc Z) ds).
  { apply (Forall2_fmap_l snd) in Hderef.
    assert (Hall : Forall (fun x => exists d, h2 !! snd x = Some d /\
                      count_of d "combined_score" = Some (fst x)) (sort_desc Z)).
    { rewrite sort_desc_perm. unfold Z.
      by apply (Forall_zip_of_Forall2
                  (fun r q => exists d, h2 !! r = Some d /\
                     count_of d "combined_score" = Some q)). }
    eapply Forall2_impl; [apply (Forall2_with_Forall _ _ _ _ Hall Hderef)|].
    intros x d [(d' & Hd' & Hq) Hd]. simpl in Hd.
    assert (d' = d) as -> by congruence. done. }
  rewrite (scored_names h2 _ _ q HS), sort_desc_filter.
  rewrite <- Hkeys.
  rewrite <- (omap_fmap_Some (obj_name h2) (map snd m2) (map fst m2) Hnames).
  apply omap_sublist.
  assert (Hlen : length (map snd m2) <= length keys).
  { apply Forall2_length in Hscores. lia. }
  assert (Hz : sublist (snd <$> filter (fun x => Qeq_bool (fst x) q = true) Z)
                       (snd <$> Z)).
  { apply (fmap_sublist snd), sublist_filter. }
  subst Z. rewrite (snd_zip keys (map snd m2) Hlen) in Hz. exact Hz.
Qed.

Lemma merge_ties_in_first_occurrence_order_witness :
  first_occurrences (names heap_ties [0; 1; 2] ++ names heap_ties [3])
    = [KStr "C"; KStr "A"; KStr "B"; KStr "D"] /\
  map (has_score (inject_Z 2)) (returned_list (returned_records [0; 1; 2] [3] heap_ties))
    = [true; true; true; true] /\
  exists ds,
    fst (returned_records [0; 1; 2] [3] heap_ties) = Ok ds /\
    forall q,
      sublist (omap name_of (filter (fun d => has_score q d = true) ds))
              (first_occurrences (names heap_ties [0; 1; 2] ++ names heap_ties [3])).
Proof.
  split; [vm_compute; reflexivity|]. split; [vm_compute; reflexivity|].
  apply (merge_ties_in_first_occurrence_order heap_ties [0; 1; 2] [3]).
  reflexivity.
Defined.
